(** * A social-graph content service: routes over a document store

    Shallow embedding of the Express route handlers of the backend
    ([routes/posts.js], [routes/comments.js], [routes/feed.js], the users
    router and the application file) together with the Mongoose schemas
    they use.

    Modelling conventions.
    - An ObjectId is its 96-bit value, kept as an [N].  Its string form
      ([toString()], and the [id] of a document) is the 24 lower-case
      hexadecimal digits.  The [:id] of a path is a string as the client
      sent it: Mongoose casts it where the schema has an ObjectId, and
      rejects the call with a CastError when it is not 24 hexadecimal
      digits; the handlers compare it with [===] as a string.
    - A collection is the list of its documents in natural (insertion)
      order.
    - JavaScript numbers are integers of [Z] (the handlers only produce
      integers; precision loss beyond 2^53 is outside the model) and NaN
      is the [None] of an [option Z].
    - A string is the sequence of its UTF-16 code units.  The fields of
      a JSON body and the parameters of a query string are strings or
      absent.
    - The [protect] middleware is not part of the sources: a handler is
      modelled from the point where the request carries an authenticated
      [req.user.id].
    - An awaited store call may reject.  A handler runs against a fault
      plan that says which of its store calls (by position) reject; the
      [catch] block of every handler turns a rejection into the 500
      reply. *)

From Stdlib Require Import List String Ascii ZArith NArith Bool Lia.
From Stdlib Require Import Sorted Permutation.
Import ListNotations.

Local Open Scope string_scope.
Local Open Scope Z_scope.

(** ** Values *)

Definition ObjectId := N.
Bind Scope N_scope with ObjectId.
Definition Date := Z.

(** A JavaScript string: its UTF-16 code units. *)
Definition jsstring := list N.

(** The code units of a literal of the source. *)
Definition js (s : string) : jsstring :=
  map N_of_ascii (list_ascii_of_string s).
Coercion js : string >-> jsstring.
Arguments Some {A} & a.

(** [a === b] on strings. *)
Fixpoint jseqb (a b : jsstring) : bool :=
  match a, b with
  | [], [] => true
  | x :: a', y :: b' => N.eqb x y && jseqb a' b'
  | _, _ => false
  end.

(** [p] is a prefix of [s]. *)
Fixpoint js_prefix (p s : jsstring) : bool :=
  match p, s with
  | [], _ => true
  | x :: p', y :: s' => N.eqb x y && js_prefix p' s'
  | _ :: _, [] => false
  end.

(** [s.length === 0] *)
Definition is_empty (s : jsstring) : bool :=
  match s with [] => true | _ => false end.

(** [s.length], in code units. *)
Definition js_length (s : jsstring) : Z := Z.of_nat (List.length s).

(** The reply bodies handed to [res.json].  [JOid] and [JDate] stand for
    the strings an ObjectId and a Date serialise to. *)
#[local] Unset Elimination Schemes.
Inductive json : Type :=
| JNull
| JBool (b : bool)
| JNum (n : Z)
| JStr (s : jsstring)
| JOid (i : ObjectId)
| JDate (d : Date)
| JArr (l : list json)
| JObj (o : list (string * json)).
#[local] Set Elimination Schemes.

Fixpoint assoc (k : string) (o : list (string * json)) : option json :=
  match o with
  | [] => None
  | (k', v) :: o' => if String.eqb k k' then Some v else assoc k o'
  end.

(** Property access [j.k]. *)
Definition jget (k : string) (j : json) : option json :=
  match j with
  | JObj o => assoc k o
  | _ => None
  end.

Definition has_field (k : string) (j : json) : bool :=
  match jget k j with Some _ => true | None => false end.

(** ** Schemas *)

(** Modelled from the spec: the User model file is not part of the sources;
    the fields are those the spec's data model and the users router name. *)
Module userSchema.
Record t := mk {
  _id : ObjectId;
  username : jsstring;
  email : jsstring;
  password : jsstring;
  bio : jsstring;
  profilePicture : jsstring;
  createdAt : Date
}.
End userSchema.

(** Modelled from the spec: the Follow model file is not part of the
    sources; an edge is a (follower, following) pair with its timestamp. *)
Module followSchema.
Record t := mk {
  _id : ObjectId;
  follower : ObjectId;
  following : ObjectId;
  createdAt : Date
}.
End followSchema.

Module postSchema.
Record t := mk {
  _id : ObjectId;
  user : ObjectId;
  imageUrl : jsstring;
  caption : jsstring;
  likes : list ObjectId;
  createdAt : Date;
  updatedAt : Date
}.

(** [postSchema.virtual('likeCount')] *)
Definition likeCount (p : t) : Z := Z.of_nat (List.length (likes p)).
End postSchema.

Module commentSchema.
Record t := mk {
  _id : ObjectId;
  post : ObjectId;
  user : ObjectId;
  text : jsstring;
  createdAt : Date;
  updatedAt : Date
}.
End commentSchema.

(** The database: four collections and the ObjectId generator.  New
    ObjectIds are made by the driver, which is not part of the program;
    the model takes them from a counter. *)
Record DB := mkDB {
  users : list userSchema.t;
  follows : list followSchema.t;
  posts : list postSchema.t;
  comments : list commentSchema.t;
  next_oid : ObjectId
}.

(** ** Store calls, rejections and the handler monad *)

(** One constructor per awaited store call of the routes. *)
Inductive StoreOp : Type :=
| OpUserFind
| OpUserFindById (id : ObjectId)
| OpUserPopulate
| OpFollowFind
| OpFollowFindOne
| OpFollowFindOneAndDelete
| OpFollowCreate
| OpFollowCountDocuments
| OpPostFind
| OpPostFindById (id : ObjectId)
| OpPostCountDocuments
| OpPostCreate
| OpPostSave (id : ObjectId)
| OpPostDeleteOne (id : ObjectId)
| OpCommentFind (post : ObjectId)
| OpCommentFindById (id : ObjectId)
| OpCommentCountDocuments (post : ObjectId)
| OpCommentCreate
| OpCommentDeleteMany (post : ObjectId)
| OpCommentDeleteOne (id : ObjectId).

Inductive Exn : Type :=
| StoreUnavailable
| MongoServerError (msg : string)
| ValidationError (msg : string)
| CastError.

Inductive Outcome (A : Type) : Type :=
| Ok (a : A)
| Throw (e : Exn).
Arguments Ok {A} a.
Arguments Throw {A} e.

Record St := mkSt { st_db : DB; st_log : list StoreOp }.

(** [faults k = true]: the k-th store call of the request rejects. *)
Definition Faults := nat -> bool.
Definition healthy : Faults := fun _ => false.

Definition M (A : Type) : Type := Faults -> St -> Outcome A * St.

Definition ret {A} (a : A) : M A := fun _ s => (Ok a, s).

Definition bind {A B} (m : M A) (k : A -> M B) : M B :=
  fun f s =>
    match m f s with
    | (Ok a, s') => k a f s'
    | (Throw e, s') => (Throw e, s')
    end.

Notation "x <- m ;; k" := (bind m (fun x => k))
  (at level 61, m at next level, right associativity).
Notation "m ;;; k" := (bind m (fun _ => k))
  (at level 61, right associativity).

(** An awaited store call: it is logged, rejects when the fault plan says
    so, and otherwise acts on the database. *)
Definition await {A} (op : StoreOp) (act : DB -> Outcome A * DB) : M A :=
  fun f s =>
    let k := List.length (st_log s) in
    let log' := (st_log s ++ [op])%list in
    if f k then (Throw StoreUnavailable, mkSt (st_db s) log')
    else let (r, db') := act (st_db s) in (r, mkSt db' log').

(** [Promise.all(l.map(async x => ...))]: every call is started, so every
    call reaches the store; the whole rejects when one of them does. *)
Fixpoint promise_all {A B} (g : A -> M B) (l : list A) : M (list B) :=
  match l with
  | [] => ret []
  | x :: l' =>
      fun f s =>
        let (r, s1) := g x f s in
        let (rs, s2) := promise_all g l' f s1 in
        match r, rs with
        | Ok b, Ok bs => (Ok (b :: bs), s2)
        | Throw e, _ => (Throw e, s2)
        | Ok _, Throw e => (Throw e, s2)
        end
  end.

(** ** Replies *)

Record Response := mkRes { status : Z; body : json }.

(** [res.status(c).json(b)] *)
Definition res_json (c : Z) (b : list (string * json)) : Response :=
  mkRes c (JObj b).

Definition reply (c : Z) (b : list (string * json)) : M Response :=
  ret (res_json c b).

Definition fail_msg (c : Z) (m : string) : Response :=
  res_json c [("success", JBool false); ("message", JStr m)].

Definition ok_msg (m : string) : Response :=
  res_json 200 [("success", JBool true); ("message", JStr m)].

Definition server_error : Response := fail_msg 500 "Server error".

(** [try { ... } catch (error) { res.status(500).json(...) }] *)
Definition try_catch (m : M Response) : M Response :=
  fun f s =>
    match m f s with
    | (Ok r, s') => (Ok r, s')
    | (Throw _, s') => (Ok server_error, s')
    end.

(** Running a handler on a request: the reply, the database it leaves and
    the store calls it made.  A rejection that escapes the handler is
    answered by the framework, not with JSON. *)
Definition run (h : M Response) (f : Faults) (db : DB)
  : Response * DB * list StoreOp :=
  match h f (mkSt db []) with
  | (Ok r, s) => (r, st_db s, st_log s)
  | (Throw _, s) => (mkRes 500 JNull, st_db s, st_log s)
  end.

Definition reply_of (x : Response * DB * list StoreOp) : Response := fst (fst x).
Definition db_of (x : Response * DB * list StoreOp) : DB := snd (fst x).
Definition log_of (x : Response * DB * list StoreOp) : list StoreOp := snd x.

(** ** JavaScript helpers *)

(** White space of the language: what [parseInt] skips, what the [\s] of
    a regular expression matches and so what validator.js's [trim]
    removes.  TAB to CR, SP, NBSP, U+1680, U+2000 to U+200A, U+2028,
    U+2029, U+202F, U+205F, U+3000 and U+FEFF. *)
Definition is_space (c : N) : bool :=
  (((0x09 <=? c) && (c <=? 0x0D)) || (c =? 0x20) || (c =? 0xA0) ||
   (c =? 0x1680) || ((0x2000 <=? c) && (c <=? 0x200A)) ||
   (c =? 0x2028) || (c =? 0x2029) || (c =? 0x202F) || (c =? 0x205F) ||
   (c =? 0x3000) || (c =? 0xFEFF))%N.

Fixpoint ltrim (s : jsstring) : jsstring :=
  match s with
  | c :: r => if is_space c then ltrim r else s
  | [] => []
  end.

Fixpoint rtrim (s : jsstring) : jsstring :=
  match s with
  | [] => []
  | c :: r =>
      match rtrim r with
      | [] => if is_space c then [] else [c]
      | r' => c :: r'
      end
  end.

Definition trim (s : jsstring) : jsstring := rtrim (ltrim s).

Definition digit_val (radix : Z) (c : N) : option Z :=
  let n := Z.of_N c in
  let d :=
    if (48 <=? n) && (n <=? 57) then Some (n - 48)
    else if (97 <=? n) && (n <=? 122) then Some (n - 87)
    else if (65 <=? n) && (n <=? 90) then Some (n - 55)
    else None in
  match d with
  | Some v => if v <? radix then Some v else None
  | None => None
  end.

(** The longest prefix of digits, read in the radix; [None] when there is
    none. *)
Fixpoint parse_digits (radix : Z) (s : jsstring) (acc : option Z) : option Z :=
  match s with
  | [] => acc
  | c :: r =>
      match digit_val radix c with
      | Some d =>
          parse_digits radix r
            (Some (match acc with Some a => a * radix + d | None => d end))
      | None => acc
      end
  end.

(** [parseInt(s)] without radix: leading white space, a sign ([-] is 45
    and [+] is 43), the [0x] or [0X] prefix (48, then 120 or 88), then
    digits; [None] is NaN. *)
Definition parseInt_string (s : jsstring) : option Z :=
  let s := ltrim s in
  let '(neg, s) :=
    match s with
    | 45%N :: r => (true, r)
    | 43%N :: r => (false, r)
    | _ => (false, s)
    end in
  let '(radix, s) :=
    match s with
    | 48%N :: 120%N :: r => (16, r)
    | 48%N :: 88%N :: r => (16, r)
    | _ => (10, s)
    end in
  match parse_digits radix s None with
  | Some n => Some (if neg then - n else n)
  | None => None
  end.

(** [parseInt(req.query.k)]: an absent parameter is [undefined], which
    reads as NaN. *)
Definition parseInt (v : option jsstring) : option Z :=
  match v with
  | Some s => parseInt_string s
  | None => None
  end.

(** [n || d] on a number: NaN and 0 are falsy. *)
Definition num_or (n : option Z) (d : Z) : Z :=
  match n with
  | Some 0 => d
  | Some v => v
  | None => d
  end.

(** [Math.ceil(a / b)] for integers and [b <> 0]. *)
Definition ceil_div (a b : Z) : Z := - ((- a) / b).

(** [s || ''] on an optional string. *)
Definition str_or_empty (s : option jsstring) : jsstring :=
  match s with Some v => v | None => [] end.

(** [!q] on an optional string: absent and empty are falsy. *)
Definition str_falsy (s : option jsstring) : bool :=
  match s with
  | None => true
  | Some v => is_empty v
  end.

(** ** ObjectIds and their strings *)

(** The digit [d] in lower case: [0] is 48 and [a] is 97. *)
Definition hex_char (d : N) : N := (if d <? 10 then 48 + d else 87 + d)%N.

(** The [k] low hexadecimal digits of [n], the most significant first,
    in front of [acc]. *)
Fixpoint hex_digits (k : nat) (n : N) (acc : jsstring) : jsstring :=
  match k with
  | O => acc
  | S k' => hex_digits k' (n / 16)%N (hex_char (n mod 16)%N :: acc)
  end.

(** [id.toString()], and the [id] getter of a document: 24 hexadecimal
    digits in lower case.  An ObjectId has 96 bits; an [N] beyond them is
    the identifier of nothing and has no digits. *)
Definition toString (id : ObjectId) : jsstring :=
  if (id <? 16 ^ 24)%N then hex_digits 24 id [] else [].

(** The value of a hexadecimal digit of either case. *)
Definition hex_val (c : N) : option N :=
  (if (48 <=? c) && (c <=? 57) then Some (c - 48)
   else if (97 <=? c) && (c <=? 102) then Some (c - 87)
   else if (65 <=? c) && (c <=? 70) then Some (c - 55)
   else None)%N.

Fixpoint hex_value (s : jsstring) (acc : N) : option N :=
  match s with
  | [] => Some acc
  | c :: r =>
      match hex_val c with
      | Some d => hex_value r (acc * 16 + d)%N
      | None => None
      end
  end.

(** The ObjectId a string stands for, as the bson library reads it (from
    its version 5 on, which Mongoose 7 and later use): the string must be
    24 hexadecimal digits, of either case. *)
Definition castObjectId (s : jsstring) : option ObjectId :=
  if Nat.eqb (List.length s) 24 then hex_value s 0%N else None.

(** The cast Mongoose applies to a string given where the schema has an
    ObjectId (the argument of [findById], a field of a filter or of a new
    document).  It takes place before the call goes to the store: a
    string that is not an ObjectId rejects the call with a CastError and
    the store is not reached. *)
Definition cast (s : jsstring) : M ObjectId :=
  fun _ st =>
    match castObjectId s with
    | Some id => (Ok id, st)
    | None => (Throw CastError, st)
    end.

(** ** The document store *)

Section Cursor.
Context {A : Type}.
Variable key : A -> Z.

Fixpoint insert_desc (x : A) (l : list A) : list A :=
  match l with
  | [] => [x]
  | y :: l' => if key x <? key y then y :: insert_desc x l' else x :: l
  end.

(** Descending on the key. *)
Definition desc (a b : A) : Prop := key b <= key a.

(** [.sort({ key: -1 })]: descending on the key.  The server promises
    no order among documents of equal keys; the model returns them in
    natural order, which is what a sort on one key gives in practice.
    What is proved of two queries together does not rest on that choice:
    it is stated for documents of pairwise distinct keys, which have one
    descending order only. *)
Definition sort_desc (l : list A) : list A := fold_right insert_desc [] l.

(** [.sort(...).skip(skip).limit(limit)] applied to the matching
    documents.  The server refuses a negative skip; a limit of 0 is no
    limit and a negative limit counts as its absolute value. *)
Definition cursor (sorted : bool) (skip limit : Z) (l : list A)
  : Outcome (list A) :=
  if skip <? 0 then Throw (MongoServerError "skip value must be non-negative")
  else
    let l1 := if sorted then sort_desc l else l in
    let l2 := skipn (Z.to_nat skip) l1 in
    Ok (if limit =? 0 then l2 else firstn (Z.to_nat (Z.abs limit)) l2).

(** Removal and replacement of the first document that matches. *)
Fixpoint remove_first (m : A -> bool) (l : list A) : list A :=
  match l with
  | [] => []
  | x :: l' => if m x then l' else x :: remove_first m l'
  end.

Fixpoint replace_first (m : A -> bool) (y : A) (l : list A) : list A :=
  match l with
  | [] => []
  | x :: l' => if m x then y :: l' else x :: replace_first m y l'
  end.
End Cursor.

(** A read: the database is left as it is. *)
Definition query {A} (op : StoreOp) (q : DB -> Outcome A) : M A :=
  await op (fun db => (q db, db)).

Definition count {A} (m : A -> bool) (l : list A) : Z :=
  Z.of_nat (List.length (filter m l)).

Definition set_users (db : DB) (l : list userSchema.t) : DB :=
  mkDB l (follows db) (posts db) (comments db) (next_oid db).
Definition set_follows (db : DB) (l : list followSchema.t) : DB :=
  mkDB (users db) l (posts db) (comments db) (next_oid db).
Definition set_posts (db : DB) (l : list postSchema.t) : DB :=
  mkDB (users db) (follows db) l (comments db) (next_oid db).
Definition set_comments (db : DB) (l : list commentSchema.t) : DB :=
  mkDB (users db) (follows db) (posts db) l (next_oid db).
(** A new ObjectId is taken. *)
Definition bump_oid (db : DB) : DB :=
  mkDB (users db) (follows db) (posts db) (comments db) (N.succ (next_oid db)).

Module User.
Import userSchema.

Definition byId (id : ObjectId) (db : DB) : option t :=
  List.find (fun u => N.eqb (_id u) id) (users db).

Definition findById (id : ObjectId) : M (option t) :=
  query (OpUserFindById id) (fun db => Ok (byId id db)).

(** [User.find(filter).limit(n)]; the filter may be refused by the
    server ([None]), as an ill-formed regular expression is. *)
Definition find (m : option (t -> bool)) (limit : Z) : M (list t) :=
  query OpUserFind (fun db =>
    match m with
    | Some m => cursor createdAt false 0 limit (filter m (users db))
    | None => Throw (MongoServerError "invalid filter")
    end).
End User.

Module Follow.
Import followSchema.

Definition find (m : t -> bool) : M (list t) :=
  query OpFollowFind (fun db => Ok (filter m (follows db))).

(** [Follow.find(filter).populate(side, ...)] *)
Definition find_populate (m : t -> bool) (side : t -> ObjectId)
  : M (list (t * option userSchema.t)) :=
  query OpFollowFind (fun db =>
    Ok (map (fun e => (e, User.byId (side e) db)) (filter m (follows db)))).

Definition findOne (m : t -> bool) : M (option t) :=
  query OpFollowFindOne (fun db => Ok (List.find m (follows db))).

Definition countDocuments (m : t -> bool) : M Z :=
  query OpFollowCountDocuments (fun db => Ok (count m (follows db))).

Definition findOneAndDelete (m : t -> bool) : M (option t) :=
  await OpFollowFindOneAndDelete (fun db =>
    (Ok (List.find m (follows db)),
     set_follows db (remove_first m (follows db)))).

Definition create (a b : ObjectId) (now : Date) : M t :=
  await OpFollowCreate (fun db =>
    let d := mk (next_oid db) a b now in
    (Ok d, bump_oid (set_follows db (follows db ++ [d])))).
End Follow.

Module Post.
Import postSchema.

Definition byId (id : ObjectId) (db : DB) : option t :=
  List.find (fun p => N.eqb (_id p) id) (posts db).

(** [Post.find(filter).populate('user', ...)] with the sort, skip and
    limit of the call ([skip = 0] and [limit = 0] when it has none);
    every document comes with the user it refers to, if there is one. *)
Definition find (m : t -> bool) (sorted : bool) (skip limit : Z)
  : M (list (t * option userSchema.t)) :=
  query OpPostFind (fun db =>
    match cursor createdAt sorted skip limit (filter m (posts db)) with
    | Ok l => Ok (map (fun p => (p, User.byId (user p) db)) l)
    | Throw e => Throw e
    end).

Definition findById (id : ObjectId) : M (option t) :=
  query (OpPostFindById id) (fun db => Ok (byId id db)).

(** [Post.findById(id).populate('user', ...)] *)
Definition findById_populate (id : ObjectId)
  : M (option (t * option userSchema.t)) :=
  query (OpPostFindById id) (fun db =>
    Ok (option_map (fun p => (p, User.byId (user p) db)) (byId id db))).

Definition countDocuments (m : t -> bool) : M Z :=
  query OpPostCountDocuments (fun db => Ok (count m (posts db))).

(** [Post.create]: the schema requires an image URL and bounds the
    caption, whose [length] it reads; the new post has no likes. *)
Definition create (u : ObjectId) (url cap : jsstring) (now : Date) : M t :=
  await OpPostCreate (fun db =>
    if is_empty url then
      (Throw (ValidationError "Please provide an image URL"), db)
    else if 2200 <? js_length cap then
      (Throw (ValidationError "Caption cannot exceed 2200 characters"), db)
    else
      let d := mk (next_oid db) u url cap [] now now in
      (Ok d, bump_oid (set_posts db (posts db ++ [d])))).

(** [post.save()] after the like set was changed. *)
Definition save (p : t) (now : Date) : M t :=
  await (OpPostSave (_id p)) (fun db =>
    let is_p := fun q => N.eqb (_id q) (_id p) in
    match List.find is_p (posts db) with
    | Some _ =>
        let d := mk (_id p) (user p) (imageUrl p) (caption p) (likes p)
                    (createdAt p) now in
        (Ok d, set_posts db (replace_first is_p d (posts db)))
    | None => (Throw (MongoServerError "document not found"), db)
    end).

(** [post.deleteOne()] *)
Definition deleteOne (p : t) : M unit :=
  await (OpPostDeleteOne (_id p)) (fun db =>
    (Ok tt,
     set_posts db (remove_first (fun q => N.eqb (_id q) (_id p)) (posts db)))).

(** [post.populate('user', ...)] on one document. *)
Definition populate (p : t) : M (t * option userSchema.t) :=
  query OpUserPopulate (fun db => Ok (p, User.byId (user p) db)).
End Post.

Module Comment.
Import commentSchema.

Definition byId (id : ObjectId) (db : DB) : option t :=
  List.find (fun c => N.eqb (_id c) id) (comments db).

(** [Comment.find({ post }).populate('user', ...).sort({ createdAt: -1 })] *)
Definition find (pid : ObjectId) : M (list (t * option userSchema.t)) :=
  query (OpCommentFind pid) (fun db =>
    Ok (map (fun c => (c, User.byId (user c) db))
            (sort_desc createdAt
               (filter (fun c => N.eqb (post c) pid) (comments db))))).

Definition findById (id : ObjectId) : M (option t) :=
  query (OpCommentFindById id) (fun db => Ok (byId id db)).

(** [Comment.countDocuments({ post })] *)
Definition countDocuments (pid : ObjectId) : M Z :=
  query (OpCommentCountDocuments pid) (fun db =>
    Ok (count (fun c => N.eqb (post c) pid) (comments db))).

(** [Comment.create]: the schema requires a text and bounds it by its
    [length]. *)
Definition create (pid u : ObjectId) (txt : jsstring) (now : Date) : M t :=
  await OpCommentCreate (fun db =>
    if is_empty txt then
      (Throw (ValidationError "Please provide a comment"), db)
    else if 1000 <? js_length txt then
      (Throw (ValidationError "Comment cannot exceed 1000 characters"), db)
    else
      let d := mk (next_oid db) pid u txt now now in
      (Ok d, bump_oid (set_comments db (comments db ++ [d])))).

(** [Comment.deleteMany({ post })] *)
Definition deleteMany (pid : ObjectId) : M unit :=
  await (OpCommentDeleteMany pid) (fun db =>
    (Ok tt,
     set_comments db
       (filter (fun c => negb (N.eqb (post c) pid)) (comments db)))).

(** [comment.deleteOne()] *)
Definition deleteOne (c : t) : M unit :=
  await (OpCommentDeleteOne (_id c)) (fun db =>
    (Ok tt,
     set_comments db
       (remove_first (fun d => N.eqb (_id d) (_id c)) (comments db)))).

Definition populate (c : t) : M (t * option userSchema.t) :=
  query OpUserPopulate (fun db => Ok (c, User.byId (user c) db)).
End Comment.

(** ** Documents as JSON *)

(** A populated reference shows the selected fields of the user, or null
    when the user is gone. *)
Definition user_brief (o : option userSchema.t) : json :=
  match o with
  | Some u =>
      JObj [("_id", JOid (userSchema._id u));
            ("username", JStr (userSchema.username u));
            ("profilePicture", JStr (userSchema.profilePicture u))]
  | None => JNull
  end.

Definition user_card (o : option userSchema.t) : json :=
  match o with
  | Some u =>
      JObj [("_id", JOid (userSchema._id u));
            ("username", JStr (userSchema.username u));
            ("profilePicture", JStr (userSchema.profilePicture u));
            ("bio", JStr (userSchema.bio u))]
  | None => JNull
  end.

(** [post.toObject()] of a populated post; the schema includes the
    virtuals. *)
Definition post_toObject (pu : postSchema.t * option userSchema.t)
  : list (string * json) :=
  let (p, u) := pu in
  [("_id", JOid (postSchema._id p));
   ("user", user_brief u);
   ("imageUrl", JStr (postSchema.imageUrl p));
   ("caption", JStr (postSchema.caption p));
   ("likes", JArr (map JOid (postSchema.likes p)));
   ("createdAt", JDate (postSchema.createdAt p));
   ("updatedAt", JDate (postSchema.updatedAt p));
   ("likeCount", JNum (postSchema.likeCount p));
   ("id", JOid (postSchema._id p))].

Definition comment_toObject (cu : commentSchema.t * option userSchema.t)
  : list (string * json) :=
  let (c, u) := cu in
  [("_id", JOid (commentSchema._id c));
   ("post", JOid (commentSchema.post c));
   ("user", user_brief u);
   ("text", JStr (commentSchema.text c));
   ("createdAt", JDate (commentSchema.createdAt c));
   ("updatedAt", JDate (commentSchema.updatedAt c))].

(** [likes.includes(id)] *)
Definition includes (l : list ObjectId) (id : ObjectId) : bool :=
  existsb (N.eqb id) l.

(** ** Requests *)

(** What a handler reads of the request once [protect] has let it
    through: the authenticated user, the [:id] of the path as the client
    wrote it, the query string, the JSON body, and the clock. *)
Record Request := mkReq {
  req_user_id : ObjectId;
  req_params_id : jsstring;
  req_query_page : option jsstring;
  req_query_limit : option jsstring;
  req_query_q : option jsstring;
  req_body_imageUrl : option jsstring;
  req_body_caption : option jsstring;
  req_body_text : option jsstring;
  req_now : Date
}.

(** Modelled from the spec: [protect] is not part of the sources; it
    loads the user the token names, so that [req.user.id] is the string
    form of that user's ObjectId. *)
Definition req_user_id_string (req : Request) : jsstring :=
  toString (req_user_id req).

(** One entry of [errors.array()]. *)
Definition field_error (path msg : string) (value : option jsstring) : json :=
  JObj [("type", JStr "field");
        ("value", match value with Some v => JStr v | None => JNull end);
        ("msg", JStr msg);
        ("path", JStr path);
        ("location", JStr "body")].

Definition is_nil {A} (l : list A) : bool :=
  match l with [] => true | _ => false end.

(** ** routes/posts.js *)

Module PostRoutes.
Import postSchema.

Section Validators.
(** validator.js's URL test, used by [isURL()], and its length test,
    used by [isLength({ max })], which counts characters in its own way
    (a surrogate pair counts once).  They are dependencies of the
    program and are left abstract. *)
Variable isURL : jsstring -> bool.
Variable isLength : jsstring -> Z -> bool.

(** The chains of [router.post('/')]: every failing validator of a
    chain reports; an absent [caption] is not checked. *)
Definition validate_create (req : Request) : list json :=
  let v := str_or_empty (req_body_imageUrl req) in
  ((if is_empty v then
      [field_error "imageUrl" "Image URL is required" (req_body_imageUrl req)]
    else []) ++
   (if isURL v then []
    else [field_error "imageUrl" "Please provide a valid URL"
            (req_body_imageUrl req)]) ++
   (match req_body_caption req with
    | Some c =>
        if isLength c 2200 then []
        else [field_error "caption" "Caption cannot exceed 2200 characters"
                (Some c)]
    | None => []
    end))%list.

(** POST /api/posts *)
Definition create_post (req : Request) : M Response :=
  try_catch (
    let errors := validate_create req in
    if negb (is_nil errors) then
      reply 400 [("success", JBool false); ("errors", JArr errors)]
    else
      let imageUrl := str_or_empty (req_body_imageUrl req) in
      let caption := str_or_empty (req_body_caption req) in
      post <- Post.create (req_user_id req) imageUrl caption (req_now req) ;;
      post <- Post.populate post ;;
      reply 201 [("success", JBool true); ("post", JObj (post_toObject post))]).

End Validators.

(** GET /api/posts/:id *)
Definition get_post (req : Request) : M Response :=
  try_catch (
    id <- cast (req_params_id req) ;;
    post <- Post.findById_populate id ;;
    match post with
    | None => ret (fail_msg 404 "Post not found")
    | Some post =>
        comments <- Comment.find (_id (fst post)) ;;
        let isLiked := includes (likes (fst post)) (req_user_id req) in
        reply 200
          [("success", JBool true);
           ("post",
            JObj (post_toObject post ++
                  [("isLiked", JBool isLiked);
                   ("comments",
                    JArr (map (fun c => JObj (comment_toObject c)) comments))]))]
    end).

(** DELETE /api/posts/:id *)
Definition delete_post (req : Request) : M Response :=
  try_catch (
    id <- cast (req_params_id req) ;;
    post <- Post.findById id ;;
    match post with
    | None => ret (fail_msg 404 "Post not found")
    | Some post =>
        if negb (N.eqb (user post) (req_user_id req)) then
          ret (fail_msg 401 "Not authorized to delete this post")
        else
          Comment.deleteMany (_id post) ;;;
          Post.deleteOne post ;;;
          ret (ok_msg "Post deleted successfully")
    end).

(** POST /api/posts/:id/like *)
Definition like (req : Request) : M Response :=
  try_catch (
    id <- cast (req_params_id req) ;;
    post <- Post.findById id ;;
    match post with
    | None => ret (fail_msg 404 "Post not found")
    | Some post =>
        if includes (likes post) (req_user_id req) then
          ret (fail_msg 400 "You have already liked this post")
        else
          let post := mk (_id post) (user post) (imageUrl post) (caption post)
                        (likes post ++ [req_user_id req])
                        (createdAt post) (updatedAt post) in
          post <- Post.save post (req_now req) ;;
          reply 200
            [("success", JBool true);
             ("message", JStr "Post liked successfully");
             ("likeCount", JNum (Z.of_nat (List.length (likes post))))]
    end).

(** DELETE /api/posts/:id/like *)
Definition unlike (req : Request) : M Response :=
  try_catch (
    id <- cast (req_params_id req) ;;
    post <- Post.findById id ;;
    match post with
    | None => ret (fail_msg 404 "Post not found")
    | Some post =>
        if negb (includes (likes post) (req_user_id req)) then
          ret (fail_msg 400 "You have not liked this post")
        else
          let post := mk (_id post) (user post) (imageUrl post) (caption post)
                        (filter (fun id => negb (N.eqb id (req_user_id req)))
                                (likes post))
                        (createdAt post) (updatedAt post) in
          post <- Post.save post (req_now req) ;;
          reply 200
            [("success", JBool true);
             ("message", JStr "Post unliked successfully");
             ("likeCount", JNum (Z.of_nat (List.length (likes post))))]
    end).

Section CommentValidators.
(** validator.js's length test again. *)
Variable isLength : jsstring -> Z -> bool.

(** The chain of [router.post('/:id/comments')]: the text is trimmed
    first, and the trimmed text is what the handler then reads. *)
Definition sanitized_text (req : Request) : jsstring :=
  trim (str_or_empty (req_body_text req)).

Definition validate_comment (req : Request) : list json :=
  let t := sanitized_text req in
  ((if is_empty t then
      [field_error "text" "Comment text is required" (Some t)]
    else []) ++
   (if isLength t 1000 then []
    else [field_error "text" "Comment cannot exceed 1000 characters"
            (Some t)]))%list.

(** POST /api/posts/:id/comments *)
Definition add_comment (req : Request) : M Response :=
  try_catch (
    let errors := validate_comment req in
    if negb (is_nil errors) then
      reply 400 [("success", JBool false); ("errors", JArr errors)]
    else
      id <- cast (req_params_id req) ;;
      post <- Post.findById id ;;
      match post with
      | None => ret (fail_msg 404 "Post not found")
      | Some _ =>
          comment <- Comment.create id (req_user_id req)
                       (sanitized_text req) (req_now req) ;;
          comment <- Comment.populate comment ;;
          reply 201
            [("success", JBool true);
             ("comment", JObj (comment_toObject comment))]
      end).
End CommentValidators.

(** GET /api/posts/:id/comments *)
Definition list_comments (req : Request) : M Response :=
  try_catch (
    id <- cast (req_params_id req) ;;
    comments <- Comment.find id ;;
    reply 200
      [("success", JBool true);
       ("comments", JArr (map (fun c => JObj (comment_toObject c)) comments))]).
End PostRoutes.

(** ** routes/comments.js *)

Module CommentRoutes.
Import commentSchema.

(** DELETE /api/comments/:id *)
Definition delete_comment (req : Request) : M Response :=
  try_catch (
    id <- cast (req_params_id req) ;;
    comment <- Comment.findById id ;;
    match comment with
    | None => ret (fail_msg 404 "Comment not found")
    | Some comment =>
        if negb (N.eqb (user comment) (req_user_id req)) then
          ret (fail_msg 401 "Not authorized to delete this comment")
        else
          Comment.deleteOne comment ;;;
          ret (ok_msg "Comment deleted successfully")
    end).
End CommentRoutes.

(** ** routes/feed.js *)

Module FeedRoutes.

(** The filter [{ user: { $in: followingIds } }]. *)
Definition user_in (followingIds : list ObjectId) (p : postSchema.t) : bool :=
  includes followingIds (postSchema.user p).

(** The body of the [posts.map] callback: one count per post. *)
Definition with_details (viewer : ObjectId)
    (post : postSchema.t * option userSchema.t) : M json :=
  commentCount <- Comment.countDocuments (postSchema._id (fst post)) ;;
  let isLiked := includes (postSchema.likes (fst post)) viewer in
  ret (JObj (post_toObject post ++
             [("isLiked", JBool isLiked);
              ("commentCount", JNum commentCount)])).

(** GET /api/feed *)
Definition get_feed (req : Request) : M Response :=
  try_catch (
    let page := num_or (parseInt (req_query_page req)) 1 in
    let limit := num_or (parseInt (req_query_limit req)) 10 in
    let skip := (page - 1) * limit in
    following <- Follow.find
                   (fun f => N.eqb (followSchema.follower f) (req_user_id req)) ;;
    let followingIds :=
      (map followSchema.following following ++ [req_user_id req])%list in
    posts <- Post.find (user_in followingIds) true skip limit ;;
    total <- Post.countDocuments (user_in followingIds) ;;
    postsWithDetails <- promise_all (with_details (req_user_id req)) posts ;;
    reply 200
      [("success", JBool true);
       ("posts", JArr postsWithDetails);
       ("pagination",
        JObj [("page", JNum page);
              ("limit", JNum limit);
              ("total", JNum total);
              ("pages", JNum (ceil_div total limit))])]).
End FeedRoutes.

(** ** The users router *)

Module UserRoutes.
Import followSchema.

Section Search.
(** The server's regular-expression engine with the option [i]: the
    matcher of a pattern, or [None] for a pattern it refuses.  It is a
    dependency of the program and is left abstract. *)
Variable regex_i : jsstring -> option (jsstring -> bool).

(** GET /api/users/search *)
Definition search (req : Request) : M Response :=
  try_catch (
    let q := req_query_q req in
    if str_falsy q then ret (fail_msg 400 "Search query is required")
    else
      users <- User.find
                 (option_map (fun m u => m (userSchema.username u))
                    (regex_i (str_or_empty q))) 20 ;;
      reply 200
        [("success", JBool true);
         ("users", JArr (map (fun u => user_card (Some u)) users))]).
End Search.

(** GET /api/users/:id *)
Definition get_user (req : Request) : M Response :=
  try_catch (
    id <- cast (req_params_id req) ;;
    user <- User.findById id ;;
    match user with
    | None => ret (fail_msg 404 "User not found")
    | Some user =>
        let uid := userSchema._id user in
        followerCount <- Follow.countDocuments
                           (fun f => N.eqb (following f) uid) ;;
        followingCount <- Follow.countDocuments
                            (fun f => N.eqb (follower f) uid) ;;
        isFollowing <- Follow.findOne
                         (fun f => N.eqb (follower f) (req_user_id req)
                                   && N.eqb (following f) uid) ;;
        postCount <- Post.countDocuments
                       (fun p => N.eqb (postSchema.user p) uid) ;;
        reply 200
          [("success", JBool true);
           ("user",
            JObj [("id", JOid uid);
                  ("username", JStr (userSchema.username user));
                  ("email", JStr (userSchema.email user));
                  ("bio", JStr (userSchema.bio user));
                  ("profilePicture", JStr (userSchema.profilePicture user));
                  ("createdAt", JDate (userSchema.createdAt user));
                  ("followerCount", JNum followerCount);
                  ("followingCount", JNum followingCount);
                  ("postCount", JNum postCount);
                  ("isFollowing",
                   JBool (match isFollowing with Some _ => true | None => false end))])]
    end).

(** GET /api/users/:id/posts *)
Definition get_posts (req : Request) : M Response :=
  try_catch (
    id <- cast (req_params_id req) ;;
    posts <- Post.find (fun p => N.eqb (postSchema.user p) id) true 0 0 ;;
    reply 200
      [("success", JBool true);
       ("posts", JArr (map (fun p => JObj (post_toObject p)) posts))]).

(** GET /api/users/:id/followers *)
Definition get_followers (req : Request) : M Response :=
  try_catch (
    id <- cast (req_params_id req) ;;
    followers <- Follow.find_populate
                   (fun f => N.eqb (following f) id) follower ;;
    reply 200
      [("success", JBool true);
       ("followers", JArr (map (fun f => user_card (snd f)) followers))]).

(** GET /api/users/:id/following *)
Definition get_following (req : Request) : M Response :=
  try_catch (
    id <- cast (req_params_id req) ;;
    following <- Follow.find_populate
                   (fun f => N.eqb (follower f) id) following ;;
    reply 200
      [("success", JBool true);
       ("following", JArr (map (fun f => user_card (snd f)) following))]).

(** The filter [{ follower: req.user.id, following: req.params.id }],
    once its two strings are cast. *)
Definition edge (a b : ObjectId) (f : followSchema.t) : bool :=
  N.eqb (follower f) a && N.eqb (following f) b.

(** POST /api/users/:id/follow *)
Definition follow (req : Request) : M Response :=
  try_catch (
    if jseqb (req_params_id req) (req_user_id_string req) then
      ret (fail_msg 400 "You cannot follow yourself")
    else
      id <- cast (req_params_id req) ;;
      userToFollow <- User.findById id ;;
      match userToFollow with
      | None => ret (fail_msg 404 "User not found")
      | Some _ =>
          existingFollow <- Follow.findOne (edge (req_user_id req) id) ;;
          match existingFollow with
          | Some _ => ret (fail_msg 400 "You are already following this user")
          | None =>
              Follow.create (req_user_id req) id (req_now req) ;;;
              ret (ok_msg "Successfully followed user")
          end
      end).

(** DELETE /api/users/:id/follow *)
Definition unfollow (req : Request) : M Response :=
  try_catch (
    if jseqb (req_params_id req) (req_user_id_string req) then
      ret (fail_msg 400 "You cannot unfollow yourself")
    else
      id <- cast (req_params_id req) ;;
      follow <- Follow.findOneAndDelete (edge (req_user_id req) id) ;;
      match follow with
      | None => ret (fail_msg 400 "You are not following this user")
      | Some _ => ret (ok_msg "Successfully unfollowed user")
      end).
End UserRoutes.

(** ** The application *)

Module App.
(** GET /api/health *)
Definition health (_ : Request) : M Response :=
  ret (ok_msg "Server is running").

(** The handler of the routes that are not defined. *)
Definition not_found (_ : Request) : M Response :=
  ret (fail_msg 404 "Route not found").

Inductive Route : Type :=
| CreatePost | GetPost | DeletePost | LikePost | UnlikePost
| AddComment | ListComments | DeleteComment | GetFeed
| SearchUsers | GetUser | GetUserPosts | GetFollowers | GetFollowing
| FollowUser | UnfollowUser | Health | Undefined.

Section Dispatch.
Variable isURL : jsstring -> bool.
Variable isLength : jsstring -> Z -> bool.
Variable regex_i : jsstring -> option (jsstring -> bool).

(** The [app.use] table, for a request that passed [protect]. *)
Definition handler (r : Route) : Request -> M Response :=
  match r with
  | CreatePost => PostRoutes.create_post isURL isLength
  | GetPost => PostRoutes.get_post
  | DeletePost => PostRoutes.delete_post
  | LikePost => PostRoutes.like
  | UnlikePost => PostRoutes.unlike
  | AddComment => PostRoutes.add_comment isLength
  | ListComments => PostRoutes.list_comments
  | DeleteComment => CommentRoutes.delete_comment
  | GetFeed => FeedRoutes.get_feed
  | SearchUsers => UserRoutes.search regex_i
  | GetUser => UserRoutes.get_user
  | GetUserPosts => UserRoutes.get_posts
  | GetFollowers => UserRoutes.get_followers
  | GetFollowing => UserRoutes.get_following
  | FollowUser => UserRoutes.follow
  | UnfollowUser => UserRoutes.unfollow
  | Health => health
  | Undefined => not_found
  end.
End Dispatch.
End App.

(** ** Observations on replies and logs *)

(** The [posts] array of a feed reply. *)
Definition feed_posts (r : Response) : list json :=
  match jget "posts" (body r) with
  | Some (JArr l) => l
  | _ => []
  end.

Definition created_of (j : json) : Date :=
  match jget "createdAt" j with Some (JDate d) => d | _ => 0 end.

Definition id_of (j : json) : ObjectId :=
  match jget "_id" j with Some (JOid i) => i | _ => 0%N end.

(** A field of the [pagination] object of a feed reply. *)
Definition pagination (k : string) (r : Response) : option json :=
  match jget "pagination" (body r) with
  | Some p => jget k p
  | None => None
  end.

(** The posts whose comments were counted by a store call of their own,
    in the order of the calls. *)
Fixpoint count_calls (log : list StoreOp) : list ObjectId :=
  match log with
  | [] => []
  | OpCommentCountDocuments pid :: log' => pid :: count_calls log'
  | _ :: log' => count_calls log'
  end.

(** ** The feed, step by step *)

(** Lines 19-23 of the feed route: the followed users, then the viewer. *)
Definition feed_scope (viewer : ObjectId) (db : DB) : list ObjectId :=
  (map followSchema.following
       (filter (fun f => N.eqb (followSchema.follower f) viewer) (follows db))
   ++ [viewer])%list.

Definition feed_pageno (req : Request) : Z :=
  num_or (parseInt (req_query_page req)) 1.
Definition feed_limit (req : Request) : Z :=
  num_or (parseInt (req_query_limit req)) 10.
Definition feed_skip (req : Request) : Z :=
  (feed_pageno req - 1) * feed_limit req.

(** The posts the feed query may return: those of the authors in scope. *)
Definition feed_candidates (viewer : ObjectId) (db : DB) : list postSchema.t :=
  filter (FeedRoutes.user_in (feed_scope viewer db)) (posts db).

(** The page of posts the query of lines 26-30 returns. *)
Definition feed_page (req : Request) (db : DB) : list postSchema.t :=
  match cursor postSchema.createdAt true (feed_skip req) (feed_limit req)
               (feed_candidates (req_user_id req) db) with
  | Ok l => l
  | Throw _ => []
  end.

(** What the [posts.map] callback makes of one post. *)
Definition details (db : DB) (viewer : ObjectId) (p : postSchema.t) : json :=
  JObj (post_toObject (p, User.byId (postSchema.user p) db) ++
        [("isLiked", JBool (includes (postSchema.likes p) viewer));
         ("commentCount",
          JNum (count (fun c => N.eqb (commentSchema.post c) (postSchema._id p))
                      (comments db)))]).

(** The reply of the feed route when the query and the counts went
    through. *)
Definition feed_reply (req : Request) (db : DB) : Response :=
  let total := count (FeedRoutes.user_in (feed_scope (req_user_id req) db))
                     (posts db) in
  res_json 200
    [("success", JBool true);
     ("posts", JArr (map (details db (req_user_id req)) (feed_page req db)));
     ("pagination",
      JObj [("page", JNum (feed_pageno req));
            ("limit", JNum (feed_limit req));
            ("total", JNum total);
            ("pages", JNum (ceil_div total (feed_limit req)))])].

(** The (created, identifier) keys of the posts of a feed reply, in the
    order of the reply. *)
Definition feed_keys (r : Response) : list (Date * ObjectId) :=
  map (fun j => (created_of j, id_of j)) (feed_posts r).

(** Newest first. *)
Definition newest_first (a b : Date * ObjectId) : Prop := fst b <= fst a.

(** Newest first and, within one instant, the larger identifier first. *)
Definition newest_then_largest_id (a b : Date * ObjectId) : Prop :=
  fst b < fst a \/ (fst a = fst b /\ (snd b < snd a)%N).

(** ** Grouped counting *)

(** The engagement aggregator in the words of the specification: the
    comments are counted in one pass, grouped by post and restricted to
    the identifiers of the batch; each post is then annotated from the
    groups. *)
Fixpoint bump (k : ObjectId) (g : list (ObjectId * Z)) : list (ObjectId * Z) :=
  match g with
  | [] => [(k, 1)]
  | (k', n) :: g' =>
      if N.eqb k k' then (k', n + 1) :: g' else (k', n) :: bump k g'
  end.

Definition grouped_count (ids : list ObjectId) (cs : list commentSchema.t)
  : list (ObjectId * Z) :=
  fold_right
    (fun c g =>
       if includes ids (commentSchema.post c) then bump (commentSchema.post c) g
       else g)
    [] cs.

Definition group_lookup (g : list (ObjectId * Z)) (k : ObjectId) : Z :=
  match List.find (fun e => N.eqb (fst e) k) g with
  | Some e => snd e
  | None => 0
  end.

Definition annotate (ps : list postSchema.t) (viewerId : ObjectId) (db : DB)
  : list (postSchema.t * bool * Z) :=
  let g := grouped_count (map postSchema._id ps) (comments db) in
  map (fun p => (p, includes (postSchema.likes p) viewerId,
                 group_lookup g (postSchema._id p))) ps.

Definition annotated_json (db : DB) (a : postSchema.t * bool * Z) : json :=
  let '(p, viewerLiked, commentCount) := a in
  JObj (post_toObject (p, User.byId (postSchema.user p) db) ++
        [("isLiked", JBool viewerLiked); ("commentCount", JNum commentCount)]).

(** The comments that refer to a post. *)
Definition comments_of (id : ObjectId) (db : DB) : list commentSchema.t :=
  filter (fun c => N.eqb (commentSchema.post c) id) (comments db).

(** The routes that validate the request body before they run. *)
Definition validated (r : App.Route) : bool :=
  match r with
  | App.CreatePost | App.AddComment => true
  | _ => false
  end.

(** An error reply: the status is a 4xx or a 5xx. *)
Definition is_error (r : Response) : Prop := 400 <= status r.

(** [returns P m]: every reply [m] produces satisfies [P], whatever the
    store does. *)
Definition returns (P : Response -> Prop) (m : M Response) : Prop :=
  forall f s r s', m f s = (Ok r, s') -> P r.

(** What a reply of a route looks like: a success, an error with
    [success: false] and a [message], or, on a validating route, the 400
    reply with [success: false] and a non-empty [errors] array in place of
    the message. *)
Definition shaped (v : bool) (r : Response) : Prop :=
  status r < 400 \/
  (jget "success" (body r) = Some (JBool false) /\
   has_field "message" (body r) = true) \/
  (v = true /\ status r = 400 /\
   jget "success" (body r) = Some (JBool false) /\
   has_field "message" (body r) = false /\
   exists e es, jget "errors" (body r) = Some (JArr (e :: es))).

(** ** The store's invariant on posts *)

(** The posts have pairwise distinct identifiers, all of them older than
    the next ObjectId. *)
Definition posts_ok (db : DB) : Prop :=
  NoDup (map postSchema._id (posts db)) /\
  Forall (fun i => (i < next_oid db)%N) (map postSchema._id (posts db)).

(** [keeps I m]: whatever the store does, [m] leaves a database that
    satisfies [I] when it starts from one. *)
Definition keeps (I : DB -> Prop) {A} (m : M A) : Prop :=
  forall f s, I (st_db s) -> I (st_db (snd (m f s))).

(** ** Routes by kind, and what a sequence of requests leaves *)

(** The routes that only read: the GET routes and the two handlers of the
    application file. *)
Definition read_only (r : App.Route) : bool :=
  match r with
  | App.GetPost | App.ListComments | App.GetFeed | App.SearchUsers
  | App.GetUser | App.GetUserPosts | App.GetFollowers | App.GetFollowing
  | App.Health | App.Undefined => true
  | _ => false
  end.

(** The routes with an [:id] in their path. *)
Definition takes_id (r : App.Route) : bool :=
  match r with
  | App.GetPost | App.DeletePost | App.LikePost | App.UnlikePost
  | App.AddComment | App.ListComments | App.DeleteComment
  | App.GetUser | App.GetUserPosts | App.GetFollowers | App.GetFollowing
  | App.FollowUser | App.UnfollowUser => true
  | _ => false
  end.

(** A reply that blames the request: a 4xx status. *)
Definition client_error (r : Response) : Prop := 400 <= status r < 500.

(** One request in the life of the server: the route it hits, what it
    carries, and how the store behaves while it is served. *)
Record Event := mkEvent {
  ev_route : App.Route;
  ev_req : Request;
  ev_faults : Faults
}.

(** The database after the requests of a history, served one after the
    other. *)
Definition serve (isURL : jsstring -> bool) (isLength : jsstring -> Z -> bool)
    (regex_i : jsstring -> option (jsstring -> bool))
    (history : list Event) (db : DB) : DB :=
  fold_left
    (fun d e =>
       db_of (run (App.handler isURL isLength regex_i (ev_route e) (ev_req e))
                (ev_faults e) d))
    history db.

(** A database with users only, as registration leaves it. *)
Definition db_init (us : list userSchema.t) (n : ObjectId) : DB :=
  mkDB us [] [] [] n.

(** No post has a user twice among its likes. *)
Definition likes_ok (db : DB) : Prop :=
  Forall (fun p => NoDup (postSchema.likes p)) (posts db).

(** The (follower, following) pair of an edge. *)
Definition edge_pair (e : followSchema.t) : ObjectId * ObjectId :=
  (followSchema.follower e, followSchema.following e).

(** No pair is followed twice. *)
Definition edges_ok (db : DB) : Prop :=
  NoDup (map edge_pair (follows db)).

(** Every comment refers to a post that is there. *)
Definition comments_ok (db : DB) : Prop :=
  Forall (fun c => In (commentSchema.post c) (map postSchema._id (posts db)))
         (comments db).

(** [no_write_on_4xx d m]: started on the database [d], [m] leaves [d]
    whenever it answers with a client error. *)
Definition no_write_on_4xx (d : DB) (m : M Response) : Prop :=
  forall f s r s',
    st_db s = d -> m f s = (Ok r, s') -> client_error r -> st_db s' = d.

(** The store answers every call but the one at position [n]. *)
Definition fail_at (n : nat) : Faults := fun k => Nat.eqb k n.

(** ** Acceptable request bodies *)

(** A create-post body the validators let through: an image URL that is
    there, not empty and a URL, and a caption, if any, that passes the
    length test for 2200. *)
Definition valid_create (isURL : jsstring -> bool)
    (isLength : jsstring -> Z -> bool) (req : Request) : bool :=
  let v := str_or_empty (req_body_imageUrl req) in
  negb (is_empty v) && isURL v &&
  match req_body_caption req with
  | Some c => isLength c 2200
  | None => true
  end.

(** An add-comment body the validators let through: a text that is not
    blank and, trimmed, passes the length test for 1000. *)
Definition valid_comment (isLength : jsstring -> Z -> bool) (req : Request)
  : bool :=
  let t := trim (str_or_empty (req_body_text req)) in
  negb (is_empty t) && isLength t 1000.



(** ** More observations on replies *)

(** A field of the [user] object of a profile reply. *)
Definition profile (k : string) (r : Response) : option json :=
  match jget "user" (body r) with
  | Some u => jget k u
  | None => None
  end.

(** A field of the [post] object of a post reply. *)
Definition post_field (k : string) (r : Response) : option json :=
  match jget "post" (body r) with
  | Some o => jget k o
  | None => None
  end.

(** The [users] array of a search reply. *)
Definition reply_users (r : Response) : list json :=
  match jget "users" (body r) with
  | Some (JArr l) => l
  | _ => []
  end.

(** The edges towards a user, and from a user. *)
Definition followers_of (id : ObjectId) (db : DB) : Z :=
  count (fun f => N.eqb (followSchema.following f) id) (follows db).
Definition following_of (id : ObjectId) (db : DB) : Z :=
  count (fun f => N.eqb (followSchema.follower f) id) (follows db).

(** The array under the key [k] of a reply. *)
Definition reply_array (k : string) (r : Response) : list json :=
  match jget k (body r) with
  | Some (JArr l) => l
  | _ => []
  end.


(** The store rejects every call. *)
Definition store_down : Faults := fun _ => true.

(** ** Sample data *)

Definition alice : userSchema.t :=
  userSchema.mk 1 "alice" "alice@example.com" "secret" "" "" 0.
Definition bob : userSchema.t :=
  userSchema.mk 2 "bob" "bob@example.com" "secret" "" "" 0.

(** Two users, nothing else; the next ObjectId is 10. *)
Definition db_users : DB := mkDB [alice; bob] [] [] [] 10.

(** A request of the user [u] about the identifier [id], written in
    its string form, at time [now]. *)
Definition request (u id : ObjectId) (now : Date) : Request :=
  mkReq u (toString id) None None None None None None now.

(** The same request with the path identifier as the client wrote it. *)
Definition with_path (req : Request) (path : jsstring) : Request :=
  mkReq (req_user_id req) path (req_query_page req)
        (req_query_limit req) (req_query_q req) (req_body_imageUrl req)
        (req_body_caption req) (req_body_text req) (req_now req).

Definition with_image (req : Request) (url : jsstring) : Request :=
  mkReq (req_user_id req) (req_params_id req) (req_query_page req)
        (req_query_limit req) (req_query_q req) (Some url)
        (req_body_caption req) (req_body_text req) (req_now req).

Definition with_text (req : Request) (txt : jsstring) : Request :=
  mkReq (req_user_id req) (req_params_id req) (req_query_page req)
        (req_query_limit req) (req_query_q req) (req_body_imageUrl req)
        (req_body_caption req) (Some txt) (req_now req).

Definition with_page (req : Request) (v : option jsstring) : Request :=
  mkReq (req_user_id req) (req_params_id req) v
        (req_query_limit req) (req_query_q req) (req_body_imageUrl req)
        (req_body_caption req) (req_body_text req) (req_now req).

Definition with_limit (req : Request) (v : option jsstring) : Request :=
  mkReq (req_user_id req) (req_params_id req) (req_query_page req)
        v (req_query_q req) (req_body_imageUrl req)
        (req_body_caption req) (req_body_text req) (req_now req).

(** A stand-in for the URL test on the sample data: it accepts what
    starts with [http]. *)
Definition sample_isURL (s : jsstring) : bool := js_prefix "http" s.

(** A stand-in for the length test on the sample data, after
    validator.js: the code units, less one for every surrogate pair (a
    code unit of D800 to DBFF followed by one of DC00 to DFFF) and for
    every variation selector FE0E or FE0F. *)
Fixpoint surrogate_pairs (s : jsstring) : nat :=
  match s with
  | h :: ((l :: r) as t) =>
      if ((0xD800 <=? h) && (h <=? 0xDBFF) &&
          (0xDC00 <=? l) && (l <=? 0xDFFF))%N
      then S (surrogate_pairs r) else surrogate_pairs t
  | _ => O
  end.

Definition presentation_selectors (s : jsstring) : nat :=
  List.length (filter (fun c => (c =? 0xFE0E)%N || (c =? 0xFE0F)%N) s).

Definition sample_isLength (s : jsstring) (max : Z) : bool :=
  Z.of_nat (List.length s - presentation_selectors s - surrogate_pairs s)
  <=? max.

(** Alice posts twice within the same millisecond (time 5): the posts get
    the identifiers 10 and 11. *)
Definition db_two_posts : DB :=
  let post url db :=
    db_of (run (PostRoutes.create_post sample_isURL sample_isLength
                  (with_image (request 1 0 5) url)) healthy db) in
  post (js "https://example.com/2.png")
       (post (js "https://example.com/1.png") db_users).

(** The first of Alice's two posts. *)
Definition first_post : postSchema.t :=
  postSchema.mk 10 1 "https://example.com/1.png" "" [] 5 5.

(** Bob comments twice on Alice's first post (times 6 and 7): the comments
    get the identifiers 12 and 13. *)
Definition db_commented : DB :=
  let comment txt now db :=
    db_of (run (PostRoutes.add_comment sample_isLength
                  (with_text (request 2 10 now) txt))
             healthy db) in
  comment (js "again") 7 (comment (js "nice") 6 db_two_posts).

(** The scenario of the specification: Carol follows Alice and Bob; Alice
    posts at times 1 and 3, Bob at time 2, Carol at time 4.  The two
    edges get the identifiers 10 and 11, the posts 12 (Alice, time 1),
    13 (Bob, time 2), 14 (Alice, time 3) and 15 (Carol, time 4). *)
Definition carol : userSchema.t :=
  userSchema.mk 3 "carol" "carol@example.com" "secret" "" "" 0.

Definition db_scenario : DB :=
  let follow a b db :=
    db_of (run (UserRoutes.follow (request a b 0)) healthy db) in
  let post u now db :=
    db_of (run (PostRoutes.create_post sample_isURL sample_isLength
                  (with_image (request u 0 now) "https://example.com/p.png"))
             healthy db) in
  post 3%N 4 (post 1%N 3 (post 2%N 2 (post 1%N 1
    (follow 3%N 2%N (follow 3%N 1%N (mkDB [alice; bob; carol] [] [] [] 10)))))).

Definition carol_feed (page : jsstring) : Request :=
  with_limit (with_page (request 3 0 5) (Some page)) (Some "2").

(** A stand-in for the regular-expression engine on the sample data: a
    pattern is read as a literal that the name must start with, and the
    lone parenthesis is refused. *)
Definition sample_regex (pat : jsstring) : option (jsstring -> bool) :=
  if jseqb pat "(" then None else Some (fun name => js_prefix pat name).

Definition with_q (req : Request) (q : option jsstring) : Request :=
  mkReq (req_user_id req) (req_params_id req) (req_query_page req)
        (req_query_limit req) q (req_body_imageUrl req)
        (req_body_caption req) (req_body_text req) (req_now req).

(** Alice asks for her feed, with no query string. *)
Definition alice_feed : Request := request 1 0 6.

(** The user whose ObjectId ends in [ab]. *)
Definition dave : userSchema.t :=
  userSchema.mk 171 "dave" "dave@example.com" "secret" "" "" 0.



(** A no-break space (U+00A0) in front of a number, and around a word. *)
Example parseInt_samples :
  parseInt (Some "  42px") = Some 42 /\ parseInt (Some "-7") = Some (-7) /\
  parseInt (Some "0x1F") = Some 31 /\ parseInt (Some "abc") = None /\
  parseInt (Some "0x") = None /\ parseInt None = None /\
  parseInt (Some (0xA0%N :: js "2")) = Some 2 /\
  trim "  a b  " = "a b" /\ trim (0xA0%N :: js "a" ++ [0xA0%N; 0x2028%N]) = "a" /\
  ceil_div 7 2 = 4 /\ ceil_div 6 2 = 3 /\ ceil_div 0 10 = 0.
Proof. repeat split; reflexivity. Qed.

(** The string form of an ObjectId and the cast of a path identifier:
    the cast reads either case, and refuses what is not 24 hexadecimal
    digits. *)
Example castObjectId_samples :
  toString 171 = "0000000000000000000000ab" /\
  castObjectId "0000000000000000000000ab" = Some 171%N /\
  castObjectId "0000000000000000000000AB" = Some 171%N /\
  castObjectId "99" = None /\
  castObjectId "0000000000000000000000zz" = None /\
  sample_isLength [0xD83D%N; 0xDE00%N] 1 = true.
Proof. repeat split; reflexivity. Qed.

(** * Properties *)

(** ** Running the monad *)

Lemma run_try_catch (m : M Response) (f : Faults) (db : DB) :
  run (try_catch m) f db =
  match m f (mkSt db []) with
  | (Ok r, s) => (r, st_db s, st_log s)
  | (Throw _, s) => (server_error, st_db s, st_log s)
  end.
Proof.
  unfold run, try_catch. destruct (m f (mkSt db [])) as [[r|e] s]; reflexivity.
Qed.

Lemma bind_ok {A B} (m : M A) (k : A -> M B) f s a s' :
  m f s = (Ok a, s') -> bind m k f s = k a f s'.
Proof. intros H. unfold bind. rewrite H. reflexivity. Qed.

Lemma bind_throw {A B} (m : M A) (k : A -> M B) f s e s' :
  m f s = (Throw e, s') -> bind m k f s = (Throw e, s').
Proof. intros H. unfold bind. rewrite H. reflexivity. Qed.

Lemma query_healthy {A} op (q : DB -> Outcome A) s :
  query op q healthy s = (q (st_db s), mkSt (st_db s) (st_log s ++ [op])).
Proof. reflexivity. Qed.

Lemma bind_query_healthy {A B} op (q : DB -> Outcome A) (k : A -> M B) s :
  bind (query op q) k healthy s =
  match q (st_db s) with
  | Ok a => k a healthy (mkSt (st_db s) (st_log s ++ [op]))
  | Throw e => (Throw e, mkSt (st_db s) (st_log s ++ [op]))
  end.
Proof. unfold bind. rewrite query_healthy. destruct (q (st_db s)); reflexivity. Qed.

Lemma bind_await_healthy {A B} op (act : DB -> Outcome A * DB) (k : A -> M B) s :
  bind (await op act) k healthy s =
  match fst (act (st_db s)) with
  | Ok a => k a healthy (mkSt (snd (act (st_db s))) (st_log s ++ [op]))
  | Throw e => (Throw e, mkSt (snd (act (st_db s))) (st_log s ++ [op]))
  end.
Proof.
  unfold bind, await, healthy. destruct (act (st_db s)) as [[a|e] d]; reflexivity.
Qed.

Lemma bind_await {A B} op (act : DB -> Outcome A * DB) (k : A -> M B) f s :
  bind (await op act) k f s =
  if f (List.length (st_log s)) then
    (Throw StoreUnavailable, mkSt (st_db s) (st_log s ++ [op]))
  else
    match fst (act (st_db s)) with
    | Ok a => k a f (mkSt (snd (act (st_db s))) (st_log s ++ [op]))
    | Throw e => (Throw e, mkSt (snd (act (st_db s))) (st_log s ++ [op]))
    end.
Proof.
  unfold bind, await. destruct (f (List.length (st_log s))); [reflexivity|].
  destruct (act (st_db s)) as [[a|e] d]; reflexivity.
Qed.

Lemma bind_query {A B} op (q : DB -> Outcome A) (k : A -> M B) f s :
  bind (query op q) k f s =
  if f (List.length (st_log s)) then
    (Throw StoreUnavailable, mkSt (st_db s) (st_log s ++ [op]))
  else
    match q (st_db s) with
    | Ok a => k a f (mkSt (st_db s) (st_log s ++ [op]))
    | Throw e => (Throw e, mkSt (st_db s) (st_log s ++ [op]))
    end.
Proof. unfold query. rewrite bind_await. reflexivity. Qed.

Lemma await_healthy {A} op (act : DB -> Outcome A * DB) s :
  await op act healthy s
  = (fst (act (st_db s)), mkSt (snd (act (st_db s))) (st_log s ++ [op])).
Proof. unfold await, healthy. destruct (act (st_db s)); reflexivity. Qed.

(** ** Strings and ObjectIds *)

Lemma jseqb_eq a b : jseqb a b = true <-> a = b.
Proof.
  revert b. induction a as [|x a IH]; intros [|y b]; cbn [jseqb];
    try (split; discriminate); [split; reflexivity|].
  rewrite andb_true_iff, N.eqb_eq, IH. split.
  - intros [-> ->]. reflexivity.
  - intros H. injection H as -> ->. split; reflexivity.
Qed.

Lemma hex_val_char d : (d < 16)%N -> hex_val (hex_char d) = Some d.
Proof.
  intros H. destruct d as [|p]; [reflexivity|].
  do 4 (destruct p as [p|p|]; try reflexivity); lia.
Qed.

Lemma hex_digits_length k : forall n acc,
  List.length (hex_digits k n acc) = (k + List.length acc)%nat.
Proof.
  induction k as [|k IH]; intros n acc; [reflexivity|].
  cbn [hex_digits]. rewrite IH. cbn [List.length]. lia.
Qed.

(** Reading back the digits of a number gives the number, as far as the
    digits go. *)
Lemma hex_value_digits k : forall n acc a,
  hex_value (hex_digits k n acc) a
  = hex_value acc (a * 16 ^ N.of_nat k + n mod 16 ^ N.of_nat k)%N.
Proof.
  induction k as [|k IH]; intros n acc a.
  - cbn [hex_digits]. f_equal. change (16 ^ N.of_nat 0)%N with 1%N.
    rewrite N.mod_1_r. lia.
  - cbn [hex_digits]. rewrite IH. cbn [hex_value].
    rewrite hex_val_char by (apply N.mod_lt; discriminate).
    f_equal. rewrite Nat2N.inj_succ, N.pow_succ_r'.
    rewrite (N.Div0.mod_mul_r n 16 (16 ^ N.of_nat k)). lia.
Qed.

(** A path identifier that is the string form of an ObjectId casts to
    that ObjectId. *)
Lemma castObjectId_toString a b : castObjectId (toString a) = Some b -> a = b.
Proof.
  unfold toString. destruct (a <? 16 ^ 24)%N eqn:E; [|discriminate].
  apply N.ltb_lt in E. unfold castObjectId.
  rewrite hex_digits_length. cbn [List.length Nat.add Nat.eqb].
  rewrite hex_value_digits. cbn [hex_value].
  change (N.of_nat 24) with 24%N. rewrite N.mod_small by exact E.
  intros H. injection H as <-. lia.
Qed.

(** The [===] of the follow routes, for a path identifier that casts to
    another ObjectId than the caller's. *)
Lemma not_self_path path id u :
  castObjectId path = Some id -> id <> u -> jseqb path (toString u) = false.
Proof.
  intros Hid Hne. destruct (jseqb path (toString u)) eqn:E; [|reflexivity].
  apply jseqb_eq in E. subst path. apply castObjectId_toString in Hid.
  congruence.
Qed.

Lemma bind_cast {B} path (k : ObjectId -> M B) f s :
  bind (cast path) k f s =
  match castObjectId path with
  | Some id => k id f s
  | None => (Throw CastError, s)
  end.
Proof. unfold bind, cast. destruct (castObjectId path); reflexivity. Qed.

Lemma bind_cast_ok {B} path id (k : ObjectId -> M B) f s :
  castObjectId path = Some id -> bind (cast path) k f s = k id f s.
Proof. intros H. rewrite bind_cast, H. reflexivity. Qed.

Lemma bind_cast_fails {B} path (k : ObjectId -> M B) f s :
  castObjectId path = None -> bind (cast path) k f s = (Throw CastError, s).
Proof. intros H. rewrite bind_cast, H. reflexivity. Qed.

(** ** The cursor: sorting, skipping, limiting *)

Section CursorFacts.
Context {A : Type}.
Variable key : A -> Z.

Lemma insert_desc_perm x l : Permutation (insert_desc key x l) (x :: l).
Proof.
  induction l as [|y l IH]; simpl.
  - apply Permutation_refl.
  - destruct (key x <? key y).
    + eapply perm_trans; [apply perm_skip, IH | apply perm_swap].
    + apply Permutation_refl.
Qed.

Lemma sort_desc_perm l : Permutation (sort_desc key l) l.
Proof.
  induction l as [|x l IH]; simpl.
  - apply perm_nil.
  - eapply perm_trans; [apply insert_desc_perm | apply perm_skip, IH].
Qed.

Lemma insert_desc_sorted x l :
  StronglySorted (desc key) l -> StronglySorted (desc key) (insert_desc key x l).
Proof.
  induction 1 as [|y l Hs IH Hy]; simpl.
  - repeat constructor.
  - destruct (key x <? key y) eqn:E.
    + apply Z.ltb_lt in E. constructor; [exact IH|].
      eapply Permutation_Forall.
      * apply Permutation_sym, insert_desc_perm.
      * constructor; [unfold desc; lia | exact Hy].
    + apply Z.ltb_ge in E. constructor.
      * constructor; assumption.
      * constructor; [exact E|].
        eapply Forall_impl; [|exact Hy]. unfold desc. intros; lia.
Qed.

Lemma sort_desc_sorted l : StronglySorted (desc key) (sort_desc key l).
Proof.
  induction l as [|x l IH]; simpl.
  - constructor.
  - apply insert_desc_sorted, IH.
Qed.

(** The sort is stable: the documents of one key come out in the order
    they are stored in. *)
Lemma insert_desc_same_key t x l :
  filter (fun a => key a =? t) (insert_desc key x l)
  = filter (fun a => key a =? t) (x :: l).
Proof.
  induction l as [|y l IH]; [reflexivity|].
  cbn [insert_desc]. destruct (key x <? key y) eqn:E; [|reflexivity].
  apply Z.ltb_lt in E. cbn [filter] in *. rewrite IH.
  destruct (key x =? t) eqn:Ex, (key y =? t) eqn:Ey; try reflexivity.
  apply Z.eqb_eq in Ex, Ey. lia.
Qed.

Lemma sort_desc_stable t l :
  filter (fun a => key a =? t) (sort_desc key l)
  = filter (fun a => key a =? t) l.
Proof.
  induction l as [|x l IH]; [reflexivity|].
  cbn [sort_desc fold_right]. rewrite insert_desc_same_key.
  cbn [filter]. fold (sort_desc key l). rewrite IH. reflexivity.
Qed.

Lemma in_firstn n (l : list A) x : In x (firstn n l) -> In x l.
Proof.
  intros H. rewrite <- (firstn_skipn n l). apply in_or_app. left; exact H.
Qed.

Lemma in_skipn n (l : list A) x : In x (skipn n l) -> In x l.
Proof.
  intros H. rewrite <- (firstn_skipn n l). apply in_or_app. right; exact H.
Qed.

Lemma sorted_skipn (R : A -> A -> Prop) n l :
  StronglySorted R l -> StronglySorted R (skipn n l).
Proof.
  revert l. induction n as [|n IH]; intros l H; [exact H|].
  destruct l as [|x l]; [constructor|].
  simpl. apply IH. inversion H; assumption.
Qed.

Lemma sorted_firstn (R : A -> A -> Prop) n l :
  StronglySorted R l -> StronglySorted R (firstn n l).
Proof.
  revert l. induction n as [|n IH]; intros l H; [constructor|].
  destruct l as [|x l]; [constructor|].
  inversion H as [|? ? Hs Hx]; subst. simpl. constructor.
  - apply IH, Hs.
  - rewrite Forall_forall in *. intros y Hy. apply Hx.
    eapply in_firstn; eassumption.
Qed.

Lemma cursor_sorted skip limit l l' :
  cursor key true skip limit l = Ok l' -> StronglySorted (desc key) l'.
Proof.
  unfold cursor. destruct (skip <? 0); [discriminate|].
  intros H. injection H as <-.
  destruct (limit =? 0).
  - apply sorted_skipn, sort_desc_sorted.
  - apply sorted_firstn, sorted_skipn, sort_desc_sorted.
Qed.

Lemma cursor_incl sorted skip limit l l' :
  cursor key sorted skip limit l = Ok l' -> incl l' l.
Proof.
  unfold cursor. destruct (skip <? 0); [discriminate|].
  intros H. injection H as <-. intros x Hx.
  assert (Hs : In x (skipn (Z.to_nat skip)
                       (if sorted then sort_desc key l else l))).
  { destruct (limit =? 0); [exact Hx | eapply in_firstn; exact Hx]. }
  apply in_skipn in Hs. destruct sorted; [|exact Hs].
  eapply Permutation_in; [apply sort_desc_perm | exact Hs].
Qed.
End CursorFacts.

Lemma sorted_map {A B} (R : A -> A -> Prop) (S : B -> B -> Prop) (g : A -> B) l :
  (forall a b, R a b -> S (g a) (g b)) ->
  StronglySorted R l -> StronglySorted S (map g l).
Proof.
  intros HRS. induction 1 as [|x l Hs IH Hx]; simpl; constructor.
  - exact IH.
  - rewrite Forall_forall in *. intros y Hy.
    apply in_map_iff in Hy as (a & <- & Ha). apply HRS, Hx, Ha.
Qed.

(** ** The feed route on a store that answers *)

Lemma with_details_healthy v p s :
  FeedRoutes.with_details v (p, User.byId (postSchema.user p) (st_db s)) healthy s
  = (Ok (details (st_db s) v p),
     mkSt (st_db s)
          (st_log s ++ [OpCommentCountDocuments (postSchema._id p)])).
Proof. reflexivity. Qed.

Lemma promise_all_details v l : forall s,
  promise_all (FeedRoutes.with_details v)
    (map (fun p => (p, User.byId (postSchema.user p) (st_db s))) l) healthy s
  = (Ok (map (details (st_db s) v) l),
     mkSt (st_db s)
          (st_log s ++ map (fun p => OpCommentCountDocuments (postSchema._id p)) l)).
Proof.
  induction l as [|p l IH]; intros s.
  - simpl. unfold ret. rewrite app_nil_r. destruct s; reflexivity.
  - cbn [map promise_all]. rewrite with_details_healthy.
    specialize (IH (mkSt (st_db s)
                      (st_log s ++ [OpCommentCountDocuments (postSchema._id p)]))).
    cbn [st_db st_log] in IH. rewrite IH. rewrite <- app_assoc. reflexivity.
Qed.

Lemma get_feed_healthy req db :
  run (FeedRoutes.get_feed req) healthy db =
  if feed_skip req <? 0 then (server_error, db, [OpFollowFind; OpPostFind])
  else (feed_reply req db, db,
        ([OpFollowFind; OpPostFind; OpPostCountDocuments] ++
         map (fun p => OpCommentCountDocuments (postSchema._id p))
             (feed_page req db))%list).
Proof.
  unfold FeedRoutes.get_feed. rewrite run_try_catch.
  unfold Follow.find. rewrite bind_query_healthy. cbn [st_db st_log app].
  fold (feed_scope (req_user_id req) db).
  fold (feed_pageno req) (feed_limit req). fold (feed_skip req).
  unfold Post.find. rewrite bind_query_healthy. cbn [st_db st_log app].
  unfold feed_reply, feed_page, feed_candidates.
  destruct (cursor postSchema.createdAt true (feed_skip req) (feed_limit req)
              (filter (FeedRoutes.user_in (feed_scope (req_user_id req) db))
                 (posts db))) as [page|e] eqn:Ec.
  - assert (Hs : (feed_skip req <? 0) = false).
    { unfold cursor in Ec. destruct (feed_skip req <? 0); [discriminate|reflexivity]. }
    rewrite Hs.
    unfold Post.countDocuments. rewrite bind_query_healthy. cbn [st_db st_log app].
    erewrite bind_ok.
    2:{ apply (promise_all_details (req_user_id req) page
                 (mkSt db [OpFollowFind; OpPostFind; OpPostCountDocuments])). }
    reflexivity.
  - assert (Hs : (feed_skip req <? 0) = true).
    { unfold cursor in Ec. destruct (feed_skip req <? 0); [reflexivity|discriminate]. }
    rewrite Hs. reflexivity.
Qed.

(** ** The feed route on any store *)

Lemma with_details_any f v p s :
  FeedRoutes.with_details v (p, User.byId (postSchema.user p) (st_db s)) f s
  = (if f (List.length (st_log s)) then Throw StoreUnavailable
     else Ok (details (st_db s) v p),
     mkSt (st_db s)
          (st_log s ++ [OpCommentCountDocuments (postSchema._id p)])).
Proof.
  unfold FeedRoutes.with_details, Comment.countDocuments, query, bind, await.
  destruct (f (List.length (st_log s))); reflexivity.
Qed.

Lemma promise_all_details_any f v l : forall s,
  st_db (snd (promise_all (FeedRoutes.with_details v)
                (map (fun p => (p, User.byId (postSchema.user p) (st_db s))) l) f s))
  = st_db s /\
  forall bs,
    fst (promise_all (FeedRoutes.with_details v)
           (map (fun p => (p, User.byId (postSchema.user p) (st_db s))) l) f s)
    = Ok bs ->
    bs = map (details (st_db s) v) l.
Proof.
  induction l as [|p l IH]; intros s.
  - split; [reflexivity|]. simpl. intros bs H. injection H as <-. reflexivity.
  - cbn [map promise_all]. rewrite with_details_any.
    specialize (IH (mkSt (st_db s)
                      (st_log s ++ [OpCommentCountDocuments (postSchema._id p)]))).
    cbn [st_db st_log] in IH. destruct IH as [IHdb IHbs].
    destruct (promise_all _ _ f _) as [rs s2]. cbn [fst snd] in *.
    destruct (f (List.length (st_log s))); destruct rs as [bs'|e];
      cbn [fst snd]; (split; [exact IHdb|]); intros bs H; try discriminate.
    injection H as <-. rewrite (IHbs bs' eq_refl). reflexivity.
Qed.

(** Whatever the store does, the feed route answers with the feed reply or
    with the server error, and writes nothing. *)
Lemma get_feed_any f req db :
  (reply_of (run (FeedRoutes.get_feed req) f db) = feed_reply req db \/
   reply_of (run (FeedRoutes.get_feed req) f db) = server_error) /\
  db_of (run (FeedRoutes.get_feed req) f db) = db.
Proof.
  unfold FeedRoutes.get_feed. rewrite run_try_catch.
  unfold Follow.find. rewrite bind_query. cbn [st_db st_log List.length app].
  destruct (f 0%nat); [split; [right|]; reflexivity|].
  fold (feed_scope (req_user_id req) db).
  fold (feed_pageno req) (feed_limit req). fold (feed_skip req).
  unfold Post.find. rewrite bind_query. cbn [st_db st_log List.length app].
  destruct (f 1%nat); [split; [right|]; reflexivity|].
  unfold feed_reply, feed_page, feed_candidates.
  destruct (cursor postSchema.createdAt true (feed_skip req) (feed_limit req)
              (filter (FeedRoutes.user_in (feed_scope (req_user_id req) db))
                 (posts db))) as [page|e]; [|split; [right|]; reflexivity].
  unfold Post.countDocuments. rewrite bind_query.
  cbn [st_db st_log List.length app].
  destruct (f 2%nat); [split; [right|]; reflexivity|].
  pose proof (promise_all_details_any f (req_user_id req) page
                (mkSt db [OpFollowFind; OpPostFind; OpPostCountDocuments]))
    as [Hdb Hbs].
  cbn [st_db st_log] in Hdb, Hbs. unfold bind.
  destruct (promise_all _ _ f _) as [[bs|e] s2]; cbn [fst snd] in *.
  - rewrite (Hbs bs eq_refl). split; [left; reflexivity | exact Hdb].
  - split; [right; reflexivity | exact Hdb].
Qed.

(** ** Feed order *)

Lemma details_keys db v p :
  (created_of (details db v p), id_of (details db v p))
  = (postSchema.createdAt p, postSchema._id p).
Proof. reflexivity. Qed.

Lemma feed_reply_keys req db :
  feed_keys (feed_reply req db)
  = map (fun p => (postSchema.createdAt p, postSchema._id p)) (feed_page req db).
Proof.
  unfold feed_keys, feed_reply, feed_posts. cbn [body res_json jget assoc String.eqb].
  cbn. rewrite map_map. reflexivity.
Qed.

Lemma feed_page_sorted req db :
  StronglySorted (desc postSchema.createdAt) (feed_page req db).
Proof.
  unfold feed_page.
  destruct (cursor postSchema.createdAt true (feed_skip req) (feed_limit req) _)
    as [l|e] eqn:E.
  - eapply cursor_sorted; exact E.
  - constructor.
Qed.

(** The scenario of the specification: with two posts a page, Carol's
    first page holds her own post and Alice's later one, the second page
    Bob's post and Alice's earlier one. *)
Example feed_scenario :
  feed_keys (reply_of (run (FeedRoutes.get_feed (carol_feed "1")) healthy db_scenario))
    = [(4, 15%N); (3, 14%N)] /\
  feed_keys (reply_of (run (FeedRoutes.get_feed (carol_feed "2")) healthy db_scenario))
    = [(2, 13%N); (1, 12%N)] /\
  pagination "total" (reply_of (run (FeedRoutes.get_feed (carol_feed "1")) healthy
                                   db_scenario)) = Some (JNum 4) /\
  pagination "pages" (reply_of (run (FeedRoutes.get_feed (carol_feed "1")) healthy
                                   db_scenario)) = Some (JNum 2).
Proof. repeat split; vm_compute; reflexivity. Qed.

(** C1 (as amended) — Feed order: for every feed request, every database
    and every behaviour of the store, the posts of the reply are in
    descending order of their created timestamps.  Nothing orders posts of
    equal timestamps by identifier. *)
Theorem feed_newest_first (f : Faults) (req : Request) (db : DB) :
  StronglySorted newest_first
    (feed_keys (reply_of (run (FeedRoutes.get_feed req) f db))).
Proof.
  destruct (get_feed_any f req db) as [[-> | ->] _].
  - rewrite feed_reply_keys.
    eapply sorted_map; [|apply feed_page_sorted].
    intros a b H. exact H.
  - constructor.
Qed.

(** C1 (as stated) fails: Alice's two posts of the same millisecond come
    back with the smaller identifier first. *)
Lemma feed_ties_not_by_id :
  feed_keys (reply_of (run (FeedRoutes.get_feed alice_feed) healthy db_two_posts))
    = [(5, 10%N); (5, 11%N)] /\
  ~ StronglySorted newest_then_largest_id
      (feed_keys (reply_of (run (FeedRoutes.get_feed alice_feed) healthy
                              db_two_posts))).
Proof.
  assert (E : feed_keys (reply_of (run (FeedRoutes.get_feed alice_feed) healthy
                                     db_two_posts))
              = [(5, 10%N); (5, 11%N)]) by (vm_compute; reflexivity).
  split; [exact E|]. rewrite E. intros H.
  inversion H as [|? ? _ Hall]; subst.
  inversion Hall as [|? ? Hrel _]; subst.
  unfold newest_then_largest_id in Hrel. cbn in Hrel. lia.
Qed.

(** ** Comment counts *)

Lemma includes_In l id : includes l id = true <-> In id l.
Proof.
  unfold includes. rewrite existsb_exists. split.
  - intros (x & Hx & E). apply N.eqb_eq in E. subst. exact Hx.
  - intros H. exists id. split; [exact H | apply N.eqb_refl].
Qed.

Lemma group_lookup_bump k g k' :
  group_lookup (bump k g) k'
  = if N.eqb k k' then group_lookup g k' + 1 else group_lookup g k'.
Proof.
  unfold group_lookup. induction g as [|[k0 n] g IH]; cbn [bump List.find fst snd].
  - destruct (N.eqb k k'); reflexivity.
  - destruct (N.eqb k k0) eqn:E0; cbn [List.find fst snd].
    + apply N.eqb_eq in E0. subst k0.
      destruct (N.eqb k k'); reflexivity.
    + destruct (N.eqb k0 k') eqn:E1; [|exact IH].
      apply N.eqb_eq in E1. subst k0. rewrite E0. reflexivity.
Qed.

(** The groups hold, for every identifier of the batch, the number of
    comments of that post. *)
Lemma grouped_count_lookup ids cs k :
  In k ids ->
  group_lookup (grouped_count ids cs) k
  = count (fun c => N.eqb (commentSchema.post c) k) cs.
Proof.
  intros Hk. unfold count. induction cs as [|c cs IH]; [reflexivity|].
  cbn [grouped_count fold_right filter]. fold (grouped_count ids cs).
  destruct (N.eqb (commentSchema.post c) k) eqn:E.
  - apply N.eqb_eq in E.
    assert (Hin : includes ids (commentSchema.post c) = true)
      by (apply includes_In; rewrite E; exact Hk).
    rewrite Hin, group_lookup_bump, E, N.eqb_refl, IH.
    cbn [List.length]. lia.
  - destruct (includes ids (commentSchema.post c)); [|exact IH].
    rewrite group_lookup_bump, E. exact IH.
Qed.

Lemma annotate_details db v ps :
  map (annotated_json db) (annotate ps v db) = map (details db v) ps.
Proof.
  unfold annotate. rewrite map_map. apply map_ext_in. intros p Hp.
  unfold annotated_json, details.
  rewrite grouped_count_lookup by (apply in_map; exact Hp). reflexivity.
Qed.

Lemma count_calls_app l1 l2 :
  count_calls (l1 ++ l2) = (count_calls l1 ++ count_calls l2)%list.
Proof.
  induction l1 as [|[] l1 IH]; cbn [count_calls app]; rewrite ?IH; reflexivity.
Qed.

Lemma count_calls_counts (ps : list postSchema.t) :
  count_calls (map (fun p => OpCommentCountDocuments (postSchema._id p)) ps)
  = map postSchema._id ps.
Proof. induction ps as [|p ps IH]; cbn; rewrite ?IH; reflexivity. Qed.

(** C2 (as amended) — Comment counts of a feed page: on a store that
    answers, the route counts the comments of each returned post with a
    store call of its own, one call per post and in the order of the page
    (k calls for a page of k posts); the annotated posts it returns are
    those the grouped count over the batch of identifiers gives. *)
Theorem feed_counts_per_post (req : Request) (db : DB) :
  let r := run (FeedRoutes.get_feed req) healthy db in
  count_calls (log_of r) = map id_of (feed_posts (reply_of r)) /\
  List.length (count_calls (log_of r)) = List.length (feed_posts (reply_of r)) /\
  feed_posts (reply_of r)
  = map (annotated_json db) (annotate (feed_page req db) (req_user_id req) db).
Proof.
  cbv zeta. rewrite get_feed_healthy.
  destruct (feed_skip req <? 0) eqn:Es.
  - assert (Hp : feed_page req db = []).
    { unfold feed_page, cursor. rewrite Es. reflexivity. }
    rewrite Hp. cbn. repeat split.
  - unfold reply_of, log_of. cbn [fst snd].
    assert (Hp : feed_posts (feed_reply req db)
                 = map (details db (req_user_id req)) (feed_page req db))
      by reflexivity.
    rewrite Hp, count_calls_app, count_calls_counts. cbn [count_calls app].
    repeat split.
    + rewrite map_map. reflexivity.
    + rewrite !length_map. reflexivity.
    + symmetry. apply annotate_details.
Qed.

(** C2 (as stated) fails: Alice's feed of two posts takes two count calls,
    not one. *)
Lemma feed_two_posts_two_counts :
  count_calls (log_of (run (FeedRoutes.get_feed alice_feed) healthy db_two_posts))
    = [10%N; 11%N] /\
  ~ (List.length
       (count_calls
          (log_of (run (FeedRoutes.get_feed alice_feed) healthy db_two_posts)))
     <= 1)%nat.
Proof.
  assert (E : count_calls
                (log_of (run (FeedRoutes.get_feed alice_feed) healthy db_two_posts))
              = [10%N; 11%N]) by (vm_compute; reflexivity).
  split; [exact E|]. rewrite E. cbn. lia.
Qed.

(** ** Feed scope *)

Lemma feed_scope_In v db a :
  In a (feed_scope v db) <->
  a = v \/
  exists e, In e (follows db) /\
            followSchema.follower e = v /\ followSchema.following e = a.
Proof.
  unfold feed_scope. rewrite in_app_iff, in_map_iff. split.
  - intros [(e & <- & He) | [<- | []]]; [right | left; reflexivity].
    apply filter_In in He as [He Hf]. apply N.eqb_eq in Hf.
    exists e. auto.
  - intros [-> | (e & He & Hf & <-)]; [right; left; reflexivity | left].
    exists e. split; [reflexivity|]. apply filter_In. split; [exact He|].
    apply N.eqb_eq, Hf.
Qed.

Lemma feed_candidates_In v db p :
  In p (feed_candidates v db) <->
  In p (posts db) /\ In (postSchema.user p) (feed_scope v db).
Proof.
  unfold feed_candidates, FeedRoutes.user_in.
  rewrite filter_In, includes_In. reflexivity.
Qed.

Lemma feed_page_incl req db :
  incl (feed_page req db) (feed_candidates (req_user_id req) db).
Proof.
  unfold feed_page.
  destruct (cursor postSchema.createdAt true (feed_skip req) (feed_limit req) _)
    as [l|e] eqn:E.
  - eapply cursor_incl; exact E.
  - intros x [].
Qed.

(** With no query string the page is the whole of a short candidate list. *)
Lemma feed_page_default req db :
  req_query_page req = None -> req_query_limit req = None ->
  (List.length (feed_candidates (req_user_id req) db) <= 10)%nat ->
  feed_page req db
  = sort_desc postSchema.createdAt (feed_candidates (req_user_id req) db).
Proof.
  intros Hp Hl Hlen. unfold feed_page, feed_skip, feed_pageno, feed_limit.
  rewrite Hp, Hl. cbn. apply firstn_all2.
  rewrite (Permutation_length (sort_desc_perm _ _)). exact Hlen.
Qed.

(** C9 — Feed scope: the authors whose posts the feed query accepts are
    the users the viewer follows and the viewer; the posts of a page come
    from these authors; and a viewer who asks for the feed with no query
    string and has at most ten eligible posts finds every one of them,
    the viewer's own included, in the reply. *)
Theorem feed_scope_following_and_self (req : Request) (db : DB) :
  let v := req_user_id req in
  let r := reply_of (run (FeedRoutes.get_feed req) healthy db) in
  (forall a, In a (feed_scope v db) <->
             a = v \/
             exists e, In e (follows db) /\
                       followSchema.follower e = v /\
                       followSchema.following e = a) /\
  feed_posts r = map (details db v) (feed_page req db) /\
  (forall p, In p (feed_page req db) ->
             In p (posts db) /\ In (postSchema.user p) (feed_scope v db)) /\
  (req_query_page req = None -> req_query_limit req = None ->
   (List.length (feed_candidates v db) <= 10)%nat ->
   forall p, In p (posts db) ->
             (postSchema.user p = v \/ In (postSchema.user p) (feed_scope v db)) ->
             In (details db v p) (feed_posts r)).
Proof.
  cbv zeta.
  assert (Hposts : feed_posts (reply_of (run (FeedRoutes.get_feed req) healthy db))
                   = map (details db (req_user_id req)) (feed_page req db)).
  { rewrite get_feed_healthy. destruct (feed_skip req <? 0) eqn:Es.
    - unfold feed_page, cursor. rewrite Es. reflexivity.
    - reflexivity. }
  split; [apply feed_scope_In|]. split; [exact Hposts|]. split.
  - intros p Hp. apply feed_candidates_In, feed_page_incl, Hp.
  - intros Hpg Hlm Hlen p Hp Hauth. rewrite Hposts. apply in_map.
    rewrite (feed_page_default req db Hpg Hlm Hlen).
    eapply Permutation_in; [apply Permutation_sym, sort_desc_perm|].
    apply feed_candidates_In. split; [exact Hp|].
    destruct Hauth as [-> | H]; [|exact H].
    apply feed_scope_In. left; reflexivity.
Qed.

(** The viewer's own posts in the sample: Alice follows nobody and finds
    her two posts. *)
Lemma feed_scope_sample :
  feed_scope 1 db_two_posts = [1%N] /\
  map id_of (feed_posts (reply_of (run (FeedRoutes.get_feed alice_feed) healthy
                                     db_two_posts)))
  = [10%N; 11%N] /\
  forall p, In p (posts db_two_posts) ->
    In (details db_two_posts 1 p)
       (feed_posts (reply_of (run (FeedRoutes.get_feed alice_feed) healthy
                                db_two_posts))).
Proof.
  split; [reflexivity|]. split; [vm_compute; reflexivity|].
  intros p Hp.
  destruct (feed_scope_following_and_self alice_feed db_two_posts)
    as (_ & _ & _ & H).
  apply H; try reflexivity.
  - vm_compute. lia.
  - exact Hp.
  - left. vm_compute in Hp. destruct Hp as [<- | [<- | []]]; reflexivity.
Defined.

(** ** Feed paging defaults *)

Lemma feed_reply_status req db : status (feed_reply req db) = 200.
Proof. reflexivity. Qed.









(** ** First matches *)

Section FirstMatch.
Context {A : Type}.
Variable m : A -> bool.

Lemma find_app_none (l l' : list A) :
  List.find m l = None -> List.find m (l ++ l') = List.find m l'.
Proof.
  induction l as [|x l IH]; cbn; [reflexivity|].
  destruct (m x); [discriminate | exact IH].
Qed.

Lemma remove_first_none (l : list A) :
  List.find m l = None -> remove_first m l = l.
Proof.
  induction l as [|x l IH]; cbn; [reflexivity|].
  destruct (m x); [discriminate|]. intros H. rewrite (IH H). reflexivity.
Qed.

Lemma remove_first_app_none (l l' : list A) :
  List.find m l = None ->
  remove_first m (l ++ l') = (l ++ remove_first m l')%list.
Proof.
  induction l as [|x l IH]; cbn; [reflexivity|].
  destruct (m x); [discriminate|]. intros H. rewrite (IH H). reflexivity.
Qed.

Lemma find_replace_first (y : A) (l : list A) x :
  List.find m l = Some x -> m y = true ->
  List.find m (replace_first m y l) = Some y.
Proof.
  intros Hx Hy. induction l as [|z l IH]; cbn in *; [discriminate|].
  destruct (m z) eqn:Ez; cbn.
  - rewrite Hy. reflexivity.
  - rewrite Ez. apply IH, Hx.
Qed.

Lemma find_some_holds (l : list A) x : List.find m l = Some x -> m x = true.
Proof. intros H. apply find_some in H. apply H. Qed.
End FirstMatch.

(** ** The follow graph *)

Lemma jseqb_neq a b : a <> b -> jseqb a b = false.
Proof.
  intros H. destruct (jseqb a b) eqn:E; [|reflexivity].
  apply jseqb_eq in E. contradiction.
Qed.

Lemma follow_succeeded f req db :
  status (reply_of (run (UserRoutes.follow req) f db)) = 200 ->
  exists id,
    castObjectId (req_params_id req) = Some id /\
    List.find (UserRoutes.edge (req_user_id req) id) (follows db) = None /\
    db_of (run (UserRoutes.follow req) f db)
    = bump_oid
        (set_follows db
           (follows db ++
            [followSchema.mk (next_oid db) (req_user_id req) id (req_now req)])).
Proof.
  unfold UserRoutes.follow. rewrite run_try_catch.
  destruct (jseqb (req_params_id req) (req_user_id_string req));
    [cbn; discriminate|].
  rewrite bind_cast.
  destruct (castObjectId (req_params_id req)) as [id|]; [|cbn; discriminate].
  unfold User.findById. rewrite bind_query. cbn [st_db st_log List.length app].
  destruct (f 0%nat); [cbn; discriminate|].
  destruct (User.byId id db); [|cbn; discriminate].
  unfold Follow.findOne. rewrite bind_query. cbn [st_db st_log List.length app].
  destruct (f 1%nat); [cbn; discriminate|].
  destruct (List.find (UserRoutes.edge (req_user_id req) id) (follows db)) eqn:E;
    [cbn; discriminate|].
  unfold Follow.create. rewrite bind_await. cbn [st_db st_log List.length app fst snd].
  destruct (f 2%nat); [cbn; discriminate|].
  intros _. exists id. split; [reflexivity|]. split; [exact E|reflexivity].
Qed.

(** A follow request whose path identifier is not the caller's own
    string, the target existing and not yet followed, succeeds on a
    store that answers. *)
Lemma follow_healthy req db id u :
  jseqb (req_params_id req) (req_user_id_string req) = false ->
  castObjectId (req_params_id req) = Some id ->
  User.byId id db = Some u ->
  List.find (UserRoutes.edge (req_user_id req) id) (follows db) = None ->
  run (UserRoutes.follow req) healthy db
  = (ok_msg "Successfully followed user",
     bump_oid
       (set_follows db
          (follows db ++
           [followSchema.mk (next_oid db) (req_user_id req) id (req_now req)])),
     [OpUserFindById id; OpFollowFindOne; OpFollowCreate]).
Proof.
  intros Hne Hid Hu He. unfold UserRoutes.follow. rewrite run_try_catch.
  rewrite Hne, (bind_cast_ok _ id) by exact Hid.
  unfold User.findById. rewrite bind_query_healthy. cbn [st_db st_log app].
  rewrite Hu. unfold Follow.findOne. rewrite bind_query_healthy.
  cbn [st_db st_log app]. rewrite He. reflexivity.
Qed.

(** A follow request between distinct users, the target existing and not
    yet followed, succeeds on a store that answers. *)
Lemma follow_succeeds req db id u :
  castObjectId (req_params_id req) = Some id ->
  id <> req_user_id req ->
  User.byId id db = Some u ->
  List.find (UserRoutes.edge (req_user_id req) id) (follows db) = None ->
  reply_of (run (UserRoutes.follow req) healthy db)
  = ok_msg "Successfully followed user".
Proof.
  intros Hid Hne Hu He.
  rewrite (follow_healthy req db id u); try assumption; [reflexivity|].
  exact (not_self_path _ _ _ Hid Hne).
Qed.

Lemma unfollow_healthy req db id :
  jseqb (req_params_id req) (req_user_id_string req) = false ->
  castObjectId (req_params_id req) = Some id ->
  run (UserRoutes.unfollow req) healthy db
  = (match List.find (UserRoutes.edge (req_user_id req) id) (follows db) with
     | Some _ => ok_msg "Successfully unfollowed user"
     | None => fail_msg 400 "You are not following this user"
     end,
     set_follows db
       (remove_first (UserRoutes.edge (req_user_id req) id) (follows db)),
     [OpFollowFindOneAndDelete]).
Proof.
  intros Hne Hid. unfold UserRoutes.unfollow. rewrite run_try_catch.
  rewrite Hne, (bind_cast_ok _ id) by exact Hid.
  unfold Follow.findOneAndDelete. rewrite bind_await_healthy.
  cbn [st_db st_log app fst snd].
  destruct (List.find (UserRoutes.edge (req_user_id req) id) (follows db));
    reflexivity.
Qed.

(** Following and then unfollowing through one and the same path. *)
Lemma follow_then_unfollow req db id :
  jseqb (req_params_id req) (req_user_id_string req) = false ->
  castObjectId (req_params_id req) = Some id ->
  List.find (UserRoutes.edge (req_user_id req) id) (follows db) = None ->
  let db1 :=
    bump_oid
      (set_follows db
         (follows db ++
          [followSchema.mk (next_oid db) (req_user_id req) id (req_now req)])) in
  let r2 := run (UserRoutes.unfollow req) healthy db1 in
  let r3 := run (UserRoutes.unfollow req) healthy (db_of r2) in
  follows db1 <> follows db /\
  reply_of r2 = ok_msg "Successfully unfollowed user" /\
  follows (db_of r2) = follows db /\
  reply_of r3 = fail_msg 400 "You are not following this user" /\
  db_of r3 = db_of r2.
Proof.
  intros Hne Hid Hnone. cbv zeta.
  rewrite !(unfollow_healthy _ _ id) by assumption.
  unfold db_of, reply_of. cbn [fst snd follows set_follows bump_oid].
  assert (Hedge : UserRoutes.edge (req_user_id req) id
                    (followSchema.mk (next_oid db) (req_user_id req) id
                       (req_now req)) = true).
  { unfold UserRoutes.edge. cbn. rewrite !N.eqb_refl. reflexivity. }
  rewrite find_app_none by exact Hnone. cbn [List.find]. rewrite Hedge.
  rewrite remove_first_app_none by exact Hnone. cbn [remove_first].
  rewrite Hedge, app_nil_r, Hnone.
  rewrite remove_first_none by exact Hnone.
  repeat split.
  intros E. apply (f_equal (@List.length _)) in E.
  rewrite length_app in E. cbn in E. lia.
Qed.

(** C6 — Follow round trip: whenever a follow request of A for B (the path
    identifier not being A's own string) has succeeded, an unfollow request
    of A for B succeeds and leaves the follow collection exactly as it was
    before the follow; one more unfollow is refused with the 400
    not-following error and changes nothing. *)
Theorem follow_unfollow_round_trip (f : Faults) (req : Request) (db : DB)
    (Hdistinct : req_params_id req <> req_user_id_string req)
    (Hfollowed : status (reply_of (run (UserRoutes.follow req) f db)) = 200) :
  let db1 := db_of (run (UserRoutes.follow req) f db) in
  let r2 := run (UserRoutes.unfollow req) healthy db1 in
  let r3 := run (UserRoutes.unfollow req) healthy (db_of r2) in
  follows db1 <> follows db /\
  reply_of r2 = ok_msg "Successfully unfollowed user" /\
  follows (db_of r2) = follows db /\
  reply_of r3 = fail_msg 400 "You are not following this user" /\
  db_of r3 = db_of r2.
Proof.
  cbv zeta.
  destruct (follow_succeeded f req db Hfollowed) as (id & Hid & Hnone & ->).
  apply (follow_then_unfollow req db id); try assumption.
  apply jseqb_neq, Hdistinct.
Qed.

(** The round trip on the sample: Alice follows Bob and unfollows him. *)
Lemma follow_unfollow_sample :
  let req := request 1 2 7 in
  let db1 := db_of (run (UserRoutes.follow req) healthy db_users) in
  let r2 := run (UserRoutes.unfollow req) healthy db1 in
  follows db1 <> follows db_users /\
  reply_of r2 = ok_msg "Successfully unfollowed user" /\
  follows (db_of r2) = follows db_users /\
  reply_of (run (UserRoutes.unfollow req) healthy (db_of r2))
  = fail_msg 400 "You are not following this user" /\
  db_of (run (UserRoutes.unfollow req) healthy (db_of r2)) = db_of r2.
Proof.
  apply (follow_unfollow_round_trip healthy (request 1 2 7) db_users).
  - vm_compute. discriminate.
  - vm_compute. reflexivity.
Defined.

(** A follow or an unfollow request whose path identifier is, character
    for character, the caller's own string is refused before any store
    call. *)
Lemma self_follow_refused f req db :
  req_params_id req = req_user_id_string req ->
  run (UserRoutes.follow req) f db
    = (fail_msg 400 "You cannot follow yourself", db, []) /\
  run (UserRoutes.unfollow req) f db
    = (fail_msg 400 "You cannot unfollow yourself", db, []).
Proof.
  intros Hself.
  unfold run, UserRoutes.follow, UserRoutes.unfollow, try_catch, ret.
  rewrite (proj2 (jseqb_eq _ _) Hself). split; reflexivity.
Qed.

(** C8 — Self-follow and self-unfollow: the self check of the two routes
    compares the path identifier with the caller's string by [===],
    while the store reads the path identifier as an ObjectId.  A path
    identifier that stands for the caller's ObjectId in another spelling
    (a hexadecimal digit in upper case) passes the check: the caller
    being a user who has no edge to themself, the follow request
    succeeds and stores the edge from the caller to the caller; the
    unfollow request through the same path then succeeds as well, and on
    the first database it is refused as not following, not as a self
    request. *)
Theorem self_follow_by_other_spelling (req : Request) (db : DB)
    (me : userSchema.t)
    (Hself : castObjectId (req_params_id req) = Some (req_user_id req))
    (Hspelling : req_params_id req <> req_user_id_string req)
    (Hme : User.byId (req_user_id req) db = Some me)
    (Hnone : List.find (UserRoutes.edge (req_user_id req) (req_user_id req))
               (follows db) = None) :
  let r := run (UserRoutes.follow req) healthy db in
  reply_of r = ok_msg "Successfully followed user" /\
  follows (db_of r)
  = (follows db ++
     [followSchema.mk (next_oid db) (req_user_id req) (req_user_id req)
        (req_now req)])%list /\
  reply_of (run (UserRoutes.unfollow req) healthy (db_of r))
  = ok_msg "Successfully unfollowed user" /\
  reply_of (run (UserRoutes.unfollow req) healthy db)
  = fail_msg 400 "You are not following this user".
Proof.
  cbv zeta. pose proof (jseqb_neq _ _ Hspelling) as Hne.
  rewrite (follow_healthy req db _ me Hne Hself Hme Hnone).
  unfold reply_of at 1. unfold db_of at 1. cbn [fst snd].
  split; [reflexivity|]. split; [reflexivity|].
  destruct (follow_then_unfollow req db _ Hne Hself Hnone) as (_ & H2 & _).
  split.
  - unfold db_of at 1. cbn [fst snd]. exact H2.
  - rewrite (unfollow_healthy req db _ Hne Hself), Hnone. reflexivity.
Qed.

(** Dave follows himself through the path identifier that spells his
    ObjectId with the digits [AB] in upper case; his own string is
    refused. *)
Lemma self_follow_upper_case_sample :
  let db := mkDB [dave] [] [] [] 200 in
  let req := with_path (request 171 171 7) "0000000000000000000000AB" in
  let r := run (UserRoutes.follow req) healthy db in
  (reply_of r = ok_msg "Successfully followed user" /\
   follows (db_of r) = [followSchema.mk 200 171 171 7] /\
   reply_of (run (UserRoutes.unfollow req) healthy (db_of r))
   = ok_msg "Successfully unfollowed user" /\
   reply_of (run (UserRoutes.unfollow req) healthy db)
   = fail_msg 400 "You are not following this user") /\
  reply_of (run (UserRoutes.follow (request 171 171 7)) healthy db)
  = fail_msg 400 "You cannot follow yourself".
Proof.
  split; [|reflexivity].
  apply (self_follow_by_other_spelling
           (with_path (request 171 171 7) "0000000000000000000000AB")
           (mkDB [dave] [] [] [] 200) dave).
  - reflexivity.
  - discriminate.
  - reflexivity.
  - reflexivity.
Defined.

(** ** Likes *)

Lemma byId_id id db p :
  Post.byId id db = Some p -> postSchema._id p = id.
Proof.
  intros H. apply find_some_holds in H. apply N.eqb_eq, H.
Qed.

Lemma filter_not_included (u : ObjectId) l :
  includes l u = false -> filter (fun id => negb (N.eqb id u)) l = l.
Proof.
  unfold includes. induction l as [|x l IH]; cbn; [reflexivity|].
  rewrite (N.eqb_sym u x). destruct (N.eqb x u); cbn; [discriminate|].
  intros H. rewrite (IH H). reflexivity.
Qed.

Lemma includes_app_self l (u : ObjectId) : includes (l ++ [u]) u = true.
Proof.
  unfold includes. rewrite existsb_app. cbn. rewrite N.eqb_refl.
  apply orb_true_iff. right. reflexivity.
Qed.

(** The like route on a store that answers, for a post that exists. *)
Lemma like_healthy req db id p :
  castObjectId (req_params_id req) = Some id ->
  Post.byId id db = Some p ->
  run (PostRoutes.like req) healthy db =
  if includes (postSchema.likes p) (req_user_id req) then
    (fail_msg 400 "You have already liked this post", db,
     [OpPostFindById id])
  else
    let d := postSchema.mk (postSchema._id p) (postSchema.user p)
               (postSchema.imageUrl p) (postSchema.caption p)
               (postSchema.likes p ++ [req_user_id req])
               (postSchema.createdAt p) (req_now req) in
    (res_json 200
       [("success", JBool true);
        ("message", JStr "Post liked successfully");
        ("likeCount", JNum (postSchema.likeCount p + 1))],
     set_posts db
       (replace_first (fun q => N.eqb (postSchema._id q) (postSchema._id p)) d
          (posts db)),
     [OpPostFindById id; OpPostSave (postSchema._id p)]).
Proof.
  intros Hcast Hp. unfold PostRoutes.like. rewrite run_try_catch.
  rewrite (bind_cast_ok _ id) by exact Hcast.
  unfold Post.findById. rewrite bind_query_healthy. cbn [st_db st_log app].
  rewrite Hp. destruct (includes (postSchema.likes p) (req_user_id req));
    [reflexivity|].
  unfold Post.save. rewrite bind_await_healthy.
  cbn [st_db st_log app postSchema._id].
  pose proof (byId_id _ _ _ Hp) as Hid. unfold Post.byId in Hp.
  rewrite Hid, Hp. cbn [fst snd]. unfold reply, ret, res_json.
  cbn [postSchema.likes]. unfold postSchema.likeCount.
  rewrite length_app. cbn [List.length].
  replace (Z.of_nat (List.length (postSchema.likes p) + 1))
    with (Z.of_nat (List.length (postSchema.likes p)) + 1) by lia.
  reflexivity.
Qed.

(** The unlike route on a store that answers, for a post that exists. *)
Lemma unlike_healthy req db id p :
  castObjectId (req_params_id req) = Some id ->
  Post.byId id db = Some p ->
  run (PostRoutes.unlike req) healthy db =
  if negb (includes (postSchema.likes p) (req_user_id req)) then
    (fail_msg 400 "You have not liked this post", db,
     [OpPostFindById id])
  else
    let ls := filter (fun id => negb (N.eqb id (req_user_id req)))
                (postSchema.likes p) in
    let d := postSchema.mk (postSchema._id p) (postSchema.user p)
               (postSchema.imageUrl p) (postSchema.caption p) ls
               (postSchema.createdAt p) (req_now req) in
    (res_json 200
       [("success", JBool true);
        ("message", JStr "Post unliked successfully");
        ("likeCount", JNum (Z.of_nat (List.length ls)))],
     set_posts db
       (replace_first (fun q => N.eqb (postSchema._id q) (postSchema._id p)) d
          (posts db)),
     [OpPostFindById id; OpPostSave (postSchema._id p)]).
Proof.
  intros Hcast Hp. unfold PostRoutes.unlike. rewrite run_try_catch.
  rewrite (bind_cast_ok _ id) by exact Hcast.
  unfold Post.findById. rewrite bind_query_healthy. cbn [st_db st_log app].
  rewrite Hp. destruct (includes (postSchema.likes p) (req_user_id req));
    [|reflexivity].
  cbn [negb]. unfold Post.save. rewrite bind_await_healthy.
  cbn [st_db st_log app postSchema._id].
  pose proof (byId_id _ _ _ Hp) as Hid. unfold Post.byId in Hp.
  rewrite Hid, Hp. reflexivity.
Qed.

Lemma byId_replaced id db p d :
  Post.byId id db = Some p -> postSchema._id d = id ->
  Post.byId id
    (set_posts db
       (replace_first (fun q => N.eqb (postSchema._id q) id) d (posts db)))
  = Some d.
Proof.
  intros Hp Hd. unfold Post.byId in *. cbn [posts set_posts].
  eapply find_replace_first; [exact Hp|]. apply N.eqb_eq, Hd.
Qed.

(** C7 — Likes: for a post that exists (the path identifier being its
    ObjectId), a like request of a user who is already in the post's like
    set is refused with the 400 already-liked error and changes nothing; for
    a user who is not in the like set, a like followed by an unlike both
    succeed, the first reports the like count plus one, the second reports
    the original like count, and the post is left with its original like
    set. *)
Theorem like_conflict_and_round_trip (req : Request) (db : DB)
    (id : ObjectId) (p : postSchema.t)
    (Hpath : castObjectId (req_params_id req) = Some id)
    (Hpost : Post.byId id db = Some p) :
  let u := req_user_id req in
  let r1 := run (PostRoutes.like req) healthy db in
  let r2 := run (PostRoutes.unlike req) healthy (db_of r1) in
  (includes (postSchema.likes p) u = true ->
   reply_of r1 = fail_msg 400 "You have already liked this post" /\
   db_of r1 = db) /\
  (includes (postSchema.likes p) u = false ->
   status (reply_of r1) = 200 /\
   jget "likeCount" (body (reply_of r1)) = Some (JNum (postSchema.likeCount p + 1)) /\
   option_map postSchema.likes (Post.byId id (db_of r1))
   = Some (postSchema.likes p ++ [u])%list /\
   status (reply_of r2) = 200 /\
   jget "likeCount" (body (reply_of r2)) = Some (JNum (postSchema.likeCount p)) /\
   option_map postSchema.likes (Post.byId id (db_of r2))
   = Some (postSchema.likes p)).
Proof.
  cbv zeta. rewrite (like_healthy req db id p Hpath Hpost).
  pose proof (byId_id _ _ _ Hpost) as Hid.
  split; intros Hin; rewrite Hin; [split; reflexivity|].
  cbv zeta. unfold db_of, reply_of. cbn [fst snd]. rewrite Hid.
  set (d := postSchema.mk _ _ _ _ (postSchema.likes p ++ [req_user_id req]) _ _).
  assert (Hd : Post.byId id
                 (set_posts db
                    (replace_first
                       (fun q => N.eqb (postSchema._id q) id) d
                       (posts db))) = Some d)
    by (apply (byId_replaced _ _ p); [exact Hpost | reflexivity]).
  rewrite (unlike_healthy req _ id d Hpath Hd).
  assert (Hls : filter (fun id => negb (N.eqb id (req_user_id req)))
                  (postSchema.likes d) = postSchema.likes p).
  { subst d. cbn [postSchema.likes]. rewrite filter_app.
    rewrite <- (app_nil_r (postSchema.likes p)) at 2. f_equal.
    - exact (filter_not_included _ _ Hin).
    - cbn [filter]. rewrite N.eqb_refl. reflexivity. }
  assert (Hinc : includes (postSchema.likes d) (req_user_id req) = true)
    by (subst d; apply includes_app_self).
  rewrite Hinc. cbn [negb]. cbv zeta. cbn [fst snd]. rewrite Hls.
  repeat split.
  - rewrite Hd. reflexivity.
  - assert (Hidd : postSchema._id d = id) by reflexivity.
    rewrite Hidd. erewrite byId_replaced; [reflexivity | | reflexivity].
    erewrite byId_replaced; [reflexivity | exact Hpost | reflexivity].
Qed.

(** Bob likes and unlikes Alice's first post. *)
Lemma like_round_trip_sample :
  let req := request 2 10 8 in
  let r1 := run (PostRoutes.like req) healthy db_two_posts in
  let r2 := run (PostRoutes.unlike req) healthy (db_of r1) in
  Post.byId 10 db_two_posts = Some first_post /\
  status (reply_of r1) = 200 /\
  jget "likeCount" (body (reply_of r1)) = Some (JNum 1) /\
  option_map postSchema.likes (Post.byId 10 (db_of r1)) = Some [2%N] /\
  status (reply_of r2) = 200 /\
  jget "likeCount" (body (reply_of r2)) = Some (JNum 0) /\
  option_map postSchema.likes (Post.byId 10 (db_of r2)) = Some [].
Proof.
  cbv zeta.
  assert (H : Post.byId 10 db_two_posts = Some first_post)
    by (vm_compute; reflexivity).
  split; [exact H|].
  destruct (like_conflict_and_round_trip (request 2 10 8) db_two_posts
              10%N first_post eq_refl H) as [_ H2].
  apply H2. reflexivity.
Defined.

(** ** Deleting a post *)

Section UniqueKeys.
Context {A : Type}.
Variable key : A -> ObjectId.

Lemma find_key_absent k (l : list A) :
  ~ In k (map key l) -> List.find (fun x => N.eqb (key x) k) l = None.
Proof.
  induction l as [|x l IH]; cbn; [reflexivity|]. intros H.
  destruct (N.eqb (key x) k) eqn:E.
  - apply N.eqb_eq in E. exfalso. apply H. left; exact E.
  - apply IH. intros Hin. apply H. right; exact Hin.
Qed.

(** With unique keys, the document removed by key cannot be found again. *)
Lemma find_remove_first k (l : list A) :
  NoDup (map key l) ->
  List.find (fun x => N.eqb (key x) k)
    (remove_first (fun x => N.eqb (key x) k) l) = None.
Proof.
  induction l as [|x l IH]; cbn; [reflexivity|]. intros H.
  inversion H as [|? ? Hx Hl]; subst.
  destruct (N.eqb (key x) k) eqn:E.
  - apply N.eqb_eq in E. subst k. apply find_key_absent, Hx.
  - cbn. rewrite E. apply IH, Hl.
Qed.
End UniqueKeys.

Lemma delete_post_healthy req db id p :
  castObjectId (req_params_id req) = Some id ->
  Post.byId id db = Some p ->
  run (PostRoutes.delete_post req) healthy db =
  if negb (N.eqb (postSchema.user p) (req_user_id req)) then
    (fail_msg 401 "Not authorized to delete this post", db,
     [OpPostFindById id])
  else
    (ok_msg "Post deleted successfully",
     set_posts
       (set_comments db
          (filter (fun c => negb (N.eqb (commentSchema.post c) (postSchema._id p)))
             (comments db)))
       (remove_first (fun q => N.eqb (postSchema._id q) (postSchema._id p))
          (posts db)),
     [OpPostFindById id;
      OpCommentDeleteMany (postSchema._id p);
      OpPostDeleteOne (postSchema._id p)]).
Proof.
  intros Hcast Hp. unfold PostRoutes.delete_post. rewrite run_try_catch.
  rewrite (bind_cast_ok _ id) by exact Hcast.
  unfold Post.findById. rewrite bind_query_healthy. cbn [st_db st_log app].
  rewrite Hp. destruct (negb (N.eqb (postSchema.user p) (req_user_id req)));
    [reflexivity|].
  unfold Comment.deleteMany. rewrite bind_await_healthy.
  cbn [st_db st_log app fst snd].
  unfold Post.deleteOne. rewrite bind_await_healthy. reflexivity.
Qed.

(** A delete request of somebody else's post writes nothing, whatever the
    store does. *)
Lemma delete_post_not_owner f req db id p :
  castObjectId (req_params_id req) = Some id ->
  Post.byId id db = Some p ->
  postSchema.user p <> req_user_id req ->
  db_of (run (PostRoutes.delete_post req) f db) = db.
Proof.
  intros Hcast Hp Hne. unfold PostRoutes.delete_post. rewrite run_try_catch.
  rewrite (bind_cast_ok _ id) by exact Hcast.
  unfold Post.findById. rewrite bind_query. cbn [st_db st_log List.length app].
  destruct (f 0%nat); [reflexivity|]. rewrite Hp.
  apply N.eqb_neq in Hne. rewrite Hne. reflexivity.
Qed.

Lemma get_post_missing req db id :
  castObjectId (req_params_id req) = Some id ->
  Post.byId id db = None ->
  run (PostRoutes.get_post req) healthy db
  = (fail_msg 404 "Post not found", db, [OpPostFindById id]).
Proof.
  intros Hcast Hp. unfold PostRoutes.get_post. rewrite run_try_catch.
  rewrite (bind_cast_ok _ id) by exact Hcast.
  unfold Post.findById_populate. rewrite bind_query_healthy.
  cbn [st_db st_log app]. rewrite Hp. reflexivity.
Qed.

Lemma filter_none_left {A} (m : A -> bool) (l : list A) :
  filter m (filter (fun x => negb (m x)) l) = [].
Proof.
  induction l as [|x l IH]; [reflexivity|].
  cbn [filter]. destruct (m x) eqn:E; cbn [negb filter]; [exact IH|].
  rewrite E. exact IH.
Qed.

(** C5 — Deleting a post: for a post that exists (the path identifier being
    its ObjectId) in a database whose posts have unique identifiers, (a)
    when the requester owns the post the delete request succeeds on a store
    that answers, after it no comment refers to the post, however many did
    before, and fetching the post by its identifier is answered with the 404
    not-found error; (b) when the requester does not own the post the
    request is refused with the 401 not-authorized error, and no post and no
    comment is removed, whatever the store does. *)
Theorem delete_post_cascade (req : Request) (db : DB) (id : ObjectId)
    (p : postSchema.t)
    (Hpath : castObjectId (req_params_id req) = Some id)
    (Hpost : Post.byId id db = Some p)
    (Hunique : NoDup (map postSchema._id (posts db))) :
  let r := run (PostRoutes.delete_post req) healthy db in
  (postSchema.user p = req_user_id req ->
   reply_of r = ok_msg "Post deleted successfully" /\
   comments_of id (db_of r) = [] /\
   Post.byId id (db_of r) = None /\
   reply_of (run (PostRoutes.get_post req) healthy (db_of r))
   = fail_msg 404 "Post not found") /\
  (postSchema.user p <> req_user_id req ->
   reply_of r = fail_msg 401 "Not authorized to delete this post" /\
   forall f, db_of (run (PostRoutes.delete_post req) f db) = db).
Proof.
  cbv zeta. rewrite (delete_post_healthy req db id p Hpath Hpost).
  pose proof (byId_id _ _ _ Hpost) as Hid. rewrite Hid.
  split; intros Hown.
  - apply N.eqb_eq in Hown. rewrite Hown. cbn [negb].
    unfold reply_of, db_of. cbn [fst snd].
    assert (Hgone : Post.byId id
                      (set_posts
                         (set_comments db
                            (filter (fun c => negb (N.eqb (commentSchema.post c)
                                                      id))
                               (comments db)))
                         (remove_first
                            (fun q => N.eqb (postSchema._id q) id)
                            (posts db))) = None).
    { unfold Post.byId. cbn [posts set_posts].
      apply (find_remove_first postSchema._id), Hunique. }
    repeat split.
    + unfold comments_of. cbn [comments set_posts set_comments].
      apply (filter_none_left
               (fun c => N.eqb (commentSchema.post c) id)).
    + exact Hgone.
    + rewrite (get_post_missing req _ id Hpath Hgone). reflexivity.
  - pose proof Hown as Hne. apply N.eqb_neq in Hne. rewrite Hne. cbn [negb].
    split; [reflexivity|]. intros f.
    apply (delete_post_not_owner f req db id p Hpath Hpost Hown).
Qed.

(** Alice's first post has two comments; Bob may not delete it, Alice may,
    and the comments go with it. *)
Lemma delete_post_sample :
  let r := run (PostRoutes.delete_post (request 1 10 9)) healthy db_commented in
  List.length (comments_of 10 db_commented) = 2%nat /\
  (reply_of (run (PostRoutes.delete_post (request 2 10 9)) healthy db_commented)
   = fail_msg 401 "Not authorized to delete this post" /\
   forall f,
     db_of (run (PostRoutes.delete_post (request 2 10 9)) f db_commented)
     = db_commented) /\
  reply_of r = ok_msg "Post deleted successfully" /\
  comments_of 10 (db_of r) = [] /\
  Post.byId 10 (db_of r) = None /\
  reply_of (run (PostRoutes.get_post (request 1 10 9)) healthy (db_of r))
  = fail_msg 404 "Post not found".
Proof.
  cbv zeta.
  assert (Hp : Post.byId 10 db_commented = Some first_post)
    by (vm_compute; reflexivity).
  assert (Hu : NoDup (map postSchema._id (posts db_commented))).
  { vm_compute. repeat constructor; cbn; intuition discriminate. }
  split; [vm_compute; reflexivity|]. split.
  - destruct (delete_post_cascade (request 2 10 9) db_commented 10%N first_post
                eq_refl Hp Hu) as [_ H].
    apply H. vm_compute. discriminate.
  - destruct (delete_post_cascade (request 1 10 9) db_commented 10%N first_post
                eq_refl Hp Hu) as [H _].
    apply H. reflexivity.
Defined.

(** ** Listing comments *)


(** The route never looks the post up: its only store call is the query on
    the comments, which a path identifier that is no ObjectId does not even
    reach, and its reply is 200 or, when the call rejects, 500. *)
Lemma list_comments_never_404 f req db :
  log_of (run (PostRoutes.list_comments req) f db)
    = match castObjectId (req_params_id req) with
      | Some id => [OpCommentFind id]
      | None => []
      end /\
  (status (reply_of (run (PostRoutes.list_comments req) f db)) = 200 \/
   status (reply_of (run (PostRoutes.list_comments req) f db)) = 500).
Proof.
  unfold PostRoutes.list_comments. rewrite run_try_catch. rewrite bind_cast.
  destruct (castObjectId (req_params_id req)) as [id|];
    [|split; [reflexivity | right; reflexivity]].
  unfold Comment.find. rewrite bind_query. cbn [st_db st_log List.length app].
  destruct (f 0%nat); split; try reflexivity; [right | left]; reflexivity.
Qed.

(** C3 — Listing the comments of a post that does not exist: no post has
    the identifier 99, and the list request for it (the path identifier
    being the 24 digits of 99) is answered with status 200 and an empty
    list, where the request to add a comment to the same post is answered
    with the 404 not-found error. *)
Theorem list_comments_of_missing_post :
  Post.byId 99 db_commented = None /\
  req_params_id (request 2 99 9) = "000000000000000000000063" /\
  reply_of (run (PostRoutes.list_comments (request 2 99 9)) healthy db_commented)
  = res_json 200 [("success", JBool true); ("comments", JArr [])] /\
  reply_of (run (PostRoutes.add_comment sample_isLength
                           (with_text (request 2 99 9) "hello"))
              healthy db_commented)
  = fail_msg 404 "Post not found".
Proof. repeat split; vm_compute; reflexivity. Qed.

(** ** The shape of error replies *)

Lemma returns_ret (P : Response -> Prop) r : P r -> returns P (ret r).
Proof. intros H f s r' s' E. injection E as <- _. exact H. Qed.

Lemma returns_bind {A} (P : Response -> Prop) (m : M A) (k : A -> M Response) :
  (forall a, returns P (k a)) -> returns P (bind m k).
Proof.
  intros H f s r s' E. unfold bind in E.
  destruct (m f s) as [[a|e] s1]; [|discriminate].
  eapply H; exact E.
Qed.

Lemma returns_try_catch (P : Response -> Prop) (m : M Response) :
  P server_error -> returns P m -> returns P (try_catch m).
Proof.
  intros H0 H f s r s' E. unfold try_catch in E.
  destruct (m f s) as [[a|e] s1] eqn:Em; injection E as <- _.
  - eapply H; exact Em.
  - exact H0.
Qed.

(** A handler under [try_catch] always produces a reply. *)
Lemma run_returns (P : Response -> Prop) (m : M Response) f db :
  returns P (try_catch m) -> P (reply_of (run (try_catch m) f db)).
Proof.
  intros H. unfold run, reply_of.
  destruct (try_catch m f (mkSt db [])) as [[r|e] s] eqn:E.
  - eapply H; exact E.
  - unfold try_catch in E. destruct (m f (mkSt db [])) as [[r|e'] s1]; discriminate.
Qed.

Lemma shaped_fail_msg v c m : shaped v (fail_msg c m).
Proof. right; left. split; reflexivity. Qed.

Lemma shaped_ok_msg v m : shaped v (ok_msg m).
Proof. left. cbn. lia. Qed.

Ltac shape :=
  repeat first
    [ apply returns_try_catch; [apply shaped_fail_msg|]
    | apply returns_bind; intros ?
    | apply returns_ret;
      first [ apply shaped_fail_msg | apply shaped_ok_msg | left; cbn; lia ]
    | match goal with
      | |- returns _ (if ?b then _ else _) => destruct b
      | |- returns _ (match ?x with _ => _ end) => destruct x
      end ].

Lemma handler_shaped isURL isLength regex_i route req :
  returns (shaped (validated route)) (App.handler isURL isLength regex_i route req).
Proof.
  destruct route; cbn [App.handler validated].
  - unfold PostRoutes.create_post. cbv zeta.
    destruct (PostRoutes.validate_create isURL isLength req) as [|e es];
      cbn [is_nil negb]; shape.
    unfold reply. apply returns_ret. right; right.
    repeat split. exists e, es. reflexivity.
  - unfold PostRoutes.get_post. shape.
  - unfold PostRoutes.delete_post. shape.
  - unfold PostRoutes.like. shape.
  - unfold PostRoutes.unlike. shape.
  - unfold PostRoutes.add_comment. cbv zeta.
    destruct (PostRoutes.validate_comment isLength req) as [|e es];
      cbn [is_nil negb]; shape.
    unfold reply. apply returns_ret. right; right.
    repeat split. exists e, es. reflexivity.
  - unfold PostRoutes.list_comments. shape.
  - unfold CommentRoutes.delete_comment. shape.
  - unfold FeedRoutes.get_feed. shape.
  - unfold UserRoutes.search. shape.
  - unfold UserRoutes.get_user. shape.
  - unfold UserRoutes.get_posts. shape.
  - unfold UserRoutes.get_followers. shape.
  - unfold UserRoutes.get_following. shape.
  - unfold UserRoutes.follow. shape.
  - unfold UserRoutes.unfollow. shape.
  - unfold App.health. shape.
  - unfold App.not_found. shape.
Qed.

(** No rejection escapes a handler. *)
Lemma handler_replies isURL isLength regex_i route req f s :
  exists r s', App.handler isURL isLength regex_i route req f s = (Ok r, s').
Proof.
  destruct route; cbn [App.handler];
    unfold PostRoutes.create_post, PostRoutes.get_post, PostRoutes.delete_post,
      PostRoutes.like, PostRoutes.unlike, PostRoutes.add_comment,
      PostRoutes.list_comments, CommentRoutes.delete_comment,
      FeedRoutes.get_feed, UserRoutes.search, UserRoutes.get_user,
      UserRoutes.get_posts, UserRoutes.get_followers, UserRoutes.get_following,
      UserRoutes.follow, UserRoutes.unfollow, App.health, App.not_found;
    lazymatch goal with
    | |- exists r s', try_catch ?b f s = _ =>
        unfold try_catch; destruct (b f s) as [[r|e] s1]; eauto
    | |- _ => unfold ret; eauto
    end.
Qed.

(** C4 (as amended) — Error replies: for every route, every request and
    every behaviour of the store, a reply with an error status carries
    [success: false]; it carries a [message] as well, except the 400 reply
    to a request body that fails validation on create-post or add-comment,
    which carries a non-empty [errors] array and no [message]. *)
Theorem error_replies_shape (isURL : jsstring -> bool)
    (isLength : jsstring -> Z -> bool)
    (regex_i : jsstring -> option (jsstring -> bool))
    (route : App.Route) (f : Faults) (req : Request) (db : DB) :
  let r := reply_of (run (App.handler isURL isLength regex_i route req) f db) in
  is_error r ->
  jget "success" (body r) = Some (JBool false) /\
  (has_field "message" (body r) = true \/
   (validated route = true /\ status r = 400 /\
    has_field "message" (body r) = false /\
    exists e es, jget "errors" (body r) = Some (JArr (e :: es)))).
Proof.
  cbv zeta. unfold run, reply_of, is_error.
  destruct (handler_replies isURL isLength regex_i route req f (mkSt db []))
    as (r & s' & E).
  rewrite E. cbn [fst]. intros Herr.
  destruct (handler_shaped isURL isLength regex_i route req f _ r s' E)
    as [Hok | [[Hs Hm] | (Hv & Hst & Hs & Hm & He)]].
  - lia.
  - split; [exact Hs | left; exact Hm].
  - split; [exact Hs | right; repeat split; assumption].
Qed.

(** C4 (as stated) fails: a blank comment and a post without image URL are
    refused with error replies that carry no [message]. *)
Lemma validation_errors_lack_message :
  let r1 := reply_of (run (PostRoutes.add_comment sample_isLength
                           (with_text (request 2 10 9) "   "))
                        healthy db_two_posts) in
  let r2 := reply_of (run (PostRoutes.create_post sample_isURL sample_isLength
                           (request 1 0 9))
                        healthy db_two_posts) in
  (is_error r1 /\ has_field "message" (body r1) = false) /\
  (is_error r2 /\ has_field "message" (body r2) = false) /\
  ~ (is_error r1 ->
     jget "success" (body r1) = Some (JBool false) /\
     has_field "message" (body r1) = true).
Proof.
  cbv zeta. unfold is_error. repeat split; try (vm_compute; congruence).
  intros H. destruct H as [_ H]; [vm_compute; congruence|].
  vm_compute in H. discriminate.
Qed.

(** Error replies on the sample: Bob's attempt to delete Alice's post
    carries a message, his blank comment carries the errors array. *)
Lemma error_replies_sample :
  let r1 := reply_of (run (PostRoutes.delete_post (request 2 10 9)) healthy
                        db_two_posts) in
  let r2 := reply_of (run (PostRoutes.add_comment sample_isLength
                           (with_text (request 2 10 9) "   "))
                        healthy db_two_posts) in
  (jget "success" (body r1) = Some (JBool false) /\
   has_field "message" (body r1) = true) /\
  (jget "success" (body r2) = Some (JBool false) /\
   has_field "message" (body r2) = false /\ has_field "errors" (body r2) = true).
Proof.
  cbv zeta. split.
  - destruct (error_replies_shape sample_isURL sample_isLength
             (fun _ => None) App.DeletePost
                healthy (request 2 10 9) db_two_posts) as [Hs _].
    + vm_compute. discriminate.
    + split; [exact Hs | vm_compute; reflexivity].
  - destruct (error_replies_shape sample_isURL sample_isLength
             (fun _ => None) App.AddComment
                healthy (with_text (request 2 10 9) "   ") db_two_posts)
      as [Hs _].
    + vm_compute. discriminate.
    + split; [exact Hs | split; vm_compute; reflexivity].
Defined.

(** ** Unique post identifiers are an invariant of the routes *)

Lemma keeps_ret I {A} (a : A) : keeps I (ret a).
Proof. intros f s H. exact H. Qed.

Lemma keeps_bind I {A B} (m : M A) (k : A -> M B) :
  keeps I m -> (forall a, keeps I (k a)) -> keeps I (bind m k).
Proof.
  intros Hm Hk f s H. unfold bind. specialize (Hm f s H).
  destruct (m f s) as [[a|e] s1]; cbn [snd] in *; [|exact Hm].
  apply Hk, Hm.
Qed.

Lemma keeps_try_catch I (m : M Response) : keeps I m -> keeps I (try_catch m).
Proof.
  intros Hm f s H. unfold try_catch. specialize (Hm f s H).
  destruct (m f s) as [[a|e] s1]; exact Hm.
Qed.

Lemma keeps_await I {A} op (act : DB -> Outcome A * DB) :
  (forall db, I db -> I (snd (act db))) -> keeps I (await op act).
Proof.
  intros Ha f s H. unfold await.
  destruct (f (List.length (st_log s))); [exact H|].
  specialize (Ha _ H). destruct (act (st_db s)); exact Ha.
Qed.

Lemma keeps_query I {A} op (q : DB -> Outcome A) : keeps I (query op q).
Proof. apply keeps_await. intros db H. exact H. Qed.

Lemma keeps_cast I path : keeps I (cast path).
Proof.
  intros f s H. unfold cast. destruct (castObjectId path); exact H.
Qed.

Lemma keeps_promise_all I {A B} (g : A -> M B) l :
  (forall x, keeps I (g x)) -> keeps I (promise_all g l).
Proof.
  intros Hg. induction l as [|x l IH]; intros f s H; [exact H|].
  cbn [promise_all]. specialize (Hg x f s H).
  destruct (g x f s) as [r s1]. cbn [snd] in Hg.
  specialize (IH f s1 Hg). destruct (promise_all g l f s1) as [rs s2].
  cbn [snd] in IH. destruct r, rs; exact IH.
Qed.

Lemma posts_ok_bump db : posts_ok db -> posts_ok (bump_oid db).
Proof.
  intros [Hn Hf]. split; [exact Hn|]. cbn [posts next_oid bump_oid].
  eapply Forall_impl; [|exact Hf]. cbn. intros; lia.
Qed.

Lemma posts_ok_same db db' :
  posts db' = posts db -> next_oid db' = next_oid db ->
  posts_ok db -> posts_ok db'.
Proof. unfold posts_ok. intros -> ->. exact (fun H => H). Qed.

Lemma ids_replace_first k d (l : list postSchema.t) :
  postSchema._id d = k ->
  map postSchema._id
    (replace_first (fun q => N.eqb (postSchema._id q) k) d l)
  = map postSchema._id l.
Proof.
  intros Hd. induction l as [|x l IH]; cbn; [reflexivity|].
  destruct (N.eqb (postSchema._id x) k) eqn:E; cbn.
  - apply N.eqb_eq in E. rewrite Hd, E. reflexivity.
  - rewrite IH. reflexivity.
Qed.

Lemma ids_remove_first (m : postSchema.t -> bool) (l : list postSchema.t)
    (P : ObjectId -> Prop) :
  NoDup (map postSchema._id l) /\ Forall P (map postSchema._id l) ->
  NoDup (map postSchema._id (remove_first m l)) /\
  Forall P (map postSchema._id (remove_first m l)).
Proof.
  induction l as [|x l IH]; cbn; [exact (fun H => H)|].
  intros [Hn Hf]. inversion Hn as [|? ? Hx Hl]; subst.
  inversion Hf as [|? ? Px Pl]; subst.
  destruct (m x); [split; assumption|].
  destruct (IH (conj Hl Pl)) as [Hn' Hf']. cbn. split.
  - constructor; [|exact Hn']. intros Hin. apply Hx.
    clear -Hin. induction l as [|y l IH]; cbn in *; [exact Hin|].
    destruct (m y); [right; exact Hin|].
    destruct Hin as [E | Hin]; [left; exact E | right; apply IH, Hin].
  - constructor; assumption.
Qed.

Lemma keeps_Post_create u url cap now : keeps posts_ok (Post.create u url cap now).
Proof.
  apply keeps_await. intros db [Hn Hf].
  destruct (is_empty url); [split; assumption|].
  destruct (2200 <? js_length cap); [split; assumption|].
  cbn [snd]. unfold posts_ok. cbn [posts next_oid bump_oid set_posts].
  rewrite map_app. cbn [map postSchema._id]. split.
  - apply NoDup_app; [exact Hn | repeat constructor; intros [] |].
    intros a Ha [<- | []].
    rewrite Forall_forall in Hf. specialize (Hf _ Ha). lia.
  - apply Forall_app. split.
    + eapply Forall_impl; [|exact Hf]. cbn. intros; lia.
    + constructor; [lia | constructor].
Qed.

Lemma keeps_Post_save p now : keeps posts_ok (Post.save p now).
Proof.
  apply keeps_await. intros db H. cbv beta zeta.
  destruct (List.find (fun q => N.eqb (postSchema._id q) (postSchema._id p))
              (posts db)); [|exact H].
  cbn [snd]. unfold posts_ok in *. cbn [posts next_oid set_posts].
  rewrite ids_replace_first by reflexivity. exact H.
Qed.

Lemma keeps_Post_deleteOne p : keeps posts_ok (Post.deleteOne p).
Proof.
  apply keeps_await. intros db H. cbn [snd]. unfold posts_ok in *.
  cbn [posts next_oid set_posts]. apply ids_remove_first, H.
Qed.

Lemma keeps_Follow_create a b now : keeps posts_ok (Follow.create a b now).
Proof. apply keeps_await. intros db H. apply posts_ok_bump. exact H. Qed.

Lemma keeps_Follow_findOneAndDelete m : keeps posts_ok (Follow.findOneAndDelete m).
Proof. apply keeps_await. intros db H. exact H. Qed.

Lemma keeps_Comment_create pid u txt now :
  keeps posts_ok (Comment.create pid u txt now).
Proof.
  apply keeps_await. intros db H.
  destruct (is_empty txt); [exact H|].
  destruct (1000 <? js_length txt); [exact H|].
  apply posts_ok_bump. exact H.
Qed.

Lemma keeps_Comment_deleteMany pid : keeps posts_ok (Comment.deleteMany pid).
Proof. apply keeps_await. intros db H. exact H. Qed.

Lemma keeps_Comment_deleteOne c : keeps posts_ok (Comment.deleteOne c).
Proof. apply keeps_await. intros db H. exact H. Qed.

Ltac keep :=
  repeat first
    [ apply keeps_try_catch
    | apply keeps_ret
    | apply keeps_query
    | apply keeps_cast
    | apply keeps_Post_create | apply keeps_Post_save | apply keeps_Post_deleteOne
    | apply keeps_Follow_create | apply keeps_Follow_findOneAndDelete
    | apply keeps_Comment_create | apply keeps_Comment_deleteMany
    | apply keeps_Comment_deleteOne
    | apply keeps_promise_all; intros ?
    | apply keeps_bind; [|intros ?]
    | match goal with
      | |- keeps _ (if ?b then _ else _) => destruct b
      | |- keeps _ (match ?x with _ => _ end) => destruct x
      | |- keeps _ (let _ := _ in _) => cbv zeta
      end ].

(** Every route leaves the post identifiers unique, whatever the store
    does. *)
Lemma handler_keeps_posts_ok isURL isLength regex_i route req f db :
  posts_ok db ->
  posts_ok (db_of (run (App.handler isURL isLength regex_i route req) f db)).
Proof.
  intros H.
  assert (K : keeps posts_ok (App.handler isURL isLength regex_i route req)).
  { destruct route; cbn [App.handler];
      unfold PostRoutes.create_post, PostRoutes.get_post, PostRoutes.delete_post,
        PostRoutes.like, PostRoutes.unlike, PostRoutes.add_comment,
        PostRoutes.list_comments, CommentRoutes.delete_comment,
        FeedRoutes.get_feed, FeedRoutes.with_details, UserRoutes.search,
        UserRoutes.get_user, UserRoutes.get_posts, UserRoutes.get_followers,
        UserRoutes.get_following, UserRoutes.follow, UserRoutes.unfollow,
        App.health, App.not_found, reply,
        User.findById, User.find, Follow.find, Follow.find_populate,
        Follow.findOne, Follow.countDocuments, Post.find, Post.findById,
        Post.findById_populate, Post.countDocuments, Post.populate,
        Comment.find, Comment.findById, Comment.countDocuments, Comment.populate;
      keep. }
  unfold run, db_of. specialize (K f (mkSt db []) H).
  destruct (App.handler isURL isLength regex_i route req f (mkSt db [])) as [[r|e] s];
    exact K.
Qed.

Lemma posts_ok_sample : posts_ok db_users /\ posts_ok db_commented.
Proof.
  split.
  - split; constructor.
  - unfold db_commented, db_two_posts.
    repeat (match goal with
            | |- posts_ok (db_of (run (PostRoutes.create_post ?u ?l ?r) ?f ?d)) =>
                apply (handler_keeps_posts_ok u l (fun _ => None) App.CreatePost r f d)
            | |- posts_ok (db_of (run (PostRoutes.add_comment ?l ?r) ?f ?d)) =>
                apply (handler_keeps_posts_ok sample_isURL sample_isLength (fun _ => None)
                         App.AddComment r f d)
            end).
    split; constructor.
Qed.

(** * Further properties of the routes *)

(** ** Reading routes, client errors and the success flag *)

Ltac unfold_routes :=
  unfold PostRoutes.create_post, PostRoutes.get_post, PostRoutes.delete_post,
    PostRoutes.like, PostRoutes.unlike, PostRoutes.add_comment,
    PostRoutes.list_comments, CommentRoutes.delete_comment,
    FeedRoutes.get_feed, FeedRoutes.with_details, UserRoutes.search,
    UserRoutes.get_user, UserRoutes.get_posts, UserRoutes.get_followers,
    UserRoutes.get_following, UserRoutes.follow, UserRoutes.unfollow,
    App.health, App.not_found, reply.

Ltac unfold_reads :=
  unfold User.findById, User.find, Follow.find, Follow.find_populate,
    Follow.findOne, Follow.countDocuments, Post.find, Post.findById,
    Post.findById_populate, Post.countDocuments, Post.populate,
    Comment.find, Comment.findById, Comment.countDocuments, Comment.populate.

Ltac keep_reads :=
  repeat first
    [ apply keeps_try_catch
    | apply keeps_ret
    | apply keeps_query
    | apply keeps_cast
    | apply keeps_promise_all; intros ?
    | apply keeps_bind; [|intros ?]
    | match goal with
      | |- keeps _ (if ?b then _ else _) => destruct b
      | |- keeps _ (match ?x with _ => _ end) => destruct x
      | |- keeps _ (let _ := _ in _) => cbv zeta
      end ].

Lemma run_keeps I (m : M Response) f db :
  keeps I m -> I db -> I (db_of (run m f db)).
Proof.
  intros K H. unfold run, db_of. specialize (K f (mkSt db []) H).
  destruct (m f (mkSt db [])) as [[r|e] s]; exact K.
Qed.

(** X1 — The reading routes never write: whatever the request and whatever
    the store does, a GET route (and the health and not-found handlers)
    leaves the database exactly as it found it. *)
Theorem read_routes_never_write (isURL : jsstring -> bool)
    (isLength : jsstring -> Z -> bool)
    (regex_i : jsstring -> option (jsstring -> bool))
    (route : App.Route) (f : Faults) (req : Request) (db : DB)
    (Hread : read_only route = true) :
  db_of (run (App.handler isURL isLength regex_i route req) f db) = db.
Proof.
  apply (run_keeps (fun d => d = db)); [|reflexivity].
  destruct route; try discriminate Hread; cbn [App.handler];
    unfold_routes; unfold_reads; keep_reads.
Qed.

(** The feed is read while the comment counts fail: nothing is written. *)
Lemma read_routes_sample :
  db_of (run (App.handler sample_isURL sample_isLength
             (fun _ => None) App.GetFeed alice_feed)
           (fail_at 4) db_commented) = db_commented /\
  db_of (run (App.handler sample_isURL sample_isLength
             (fun _ => None) App.GetPost (request 2 10 9))
           healthy db_commented) = db_commented.
Proof.
  split.
  - apply (read_routes_never_write sample_isURL sample_isLength
             (fun _ => None) App.GetFeed
             (fail_at 4) alice_feed db_commented). reflexivity.
  - apply (read_routes_never_write sample_isURL sample_isLength
             (fun _ => None) App.GetPost
             healthy (request 2 10 9) db_commented). reflexivity.
Defined.

Ltac flag :=
  repeat first
    [ apply returns_try_catch; [reflexivity|]
    | apply returns_bind; intros ?
    | apply returns_ret; reflexivity
    | match goal with
      | |- returns _ (if ?b then _ else _) => destruct b
      | |- returns _ (match ?x with _ => _ end) => destruct x
      | |- returns _ (let _ := _ in _) => cbv zeta
      end ].

(** X2 — The success flag tells the status: whatever the route, the
    request and the behaviour of the store, the reply carries a boolean
    [success] that is true exactly when the status is below 400. *)
Theorem success_flag_tells_status (isURL : jsstring -> bool)
    (isLength : jsstring -> Z -> bool)
    (regex_i : jsstring -> option (jsstring -> bool))
    (route : App.Route) (f : Faults) (req : Request) (db : DB) :
  let r := reply_of (run (App.handler isURL isLength regex_i route req) f db) in
  jget "success" (body r) = Some (JBool (status r <? 400)).
Proof.
  cbv zeta. unfold run, reply_of.
  destruct (handler_replies isURL isLength regex_i route req f (mkSt db []))
    as (r & s' & E).
  rewrite E. cbn [fst]. revert E.
  assert (K : returns
                (fun r => jget "success" (body r) = Some (JBool (status r <? 400)))
                (App.handler isURL isLength regex_i route req)).
  { destruct route; cbn [App.handler]; unfold_routes; flag. }
  apply K.
Qed.

Lemma nw_ret d r : no_write_on_4xx d (ret r).
Proof.
  intros f s r' s' Hd E _. unfold ret in E.
  assert (Es : s = s') by congruence. subst s'. exact Hd.
Qed.

Lemma nw_try_catch d m : no_write_on_4xx d m -> no_write_on_4xx d (try_catch m).
Proof.
  intros H f s r s' Hd E Hc. unfold try_catch in E.
  destruct (m f s) as [[r0|e] s0] eqn:Em; injection E as <- <-.
  - eapply H; eassumption.
  - unfold client_error in Hc. cbn in Hc. lia.
Qed.

(** After a read the database is still the one the handler started on. *)
Lemma nw_bind_read d {A} (m : M A) (k : A -> M Response) :
  keeps (fun x => x = d) m -> (forall a, no_write_on_4xx d (k a)) ->
  no_write_on_4xx d (bind m k).
Proof.
  intros Km Hk f s r s' Hd E Hc. unfold bind in E.
  specialize (Km f s Hd). destruct (m f s) as [[a|e] s0]; [|discriminate].
  cbn in Km. exact (Hk a f s0 r s' Km E Hc).
Qed.

(** After a write no client error is sent any more. *)
Lemma nw_bind_write d {A} (m : M A) (k : A -> M Response) :
  (forall a, returns (fun r => status r < 400) (k a)) ->
  no_write_on_4xx d (bind m k).
Proof.
  intros Hk f s r s' Hd E Hc. unfold bind in E.
  destruct (m f s) as [[a|e] s0]; [|discriminate].
  pose proof (Hk a f s0 r s' E) as Hs. cbn beta in Hs.
  unfold client_error in Hc. lia.
Qed.

Lemma set_follows_same db : set_follows db (follows db) = db.
Proof. destruct db; reflexivity. Qed.

Lemma nw_unfollow d req : no_write_on_4xx d (UserRoutes.unfollow req).
Proof.
  unfold UserRoutes.unfollow. apply nw_try_catch.
  destruct (jseqb (req_params_id req) (req_user_id_string req)); [apply nw_ret|].
  intros f s r s' Hd E Hc. rewrite bind_cast in E.
  destruct (castObjectId (req_params_id req)) as [id|]; [|discriminate].
  unfold Follow.findOneAndDelete in E.
  rewrite bind_await in E. cbn [fst snd] in E.
  destruct (f (List.length (st_log s))); [discriminate|].
  destruct (List.find (UserRoutes.edge (req_user_id req) id) (follows (st_db s)))
    eqn:Ef; injection E as <- <-.
  - unfold client_error in Hc. cbn in Hc. lia.
  - cbn [st_db]. rewrite (remove_first_none _ _ Ef), set_follows_same. exact Hd.
Qed.

Ltac ok_replies :=
  repeat first
    [ apply returns_bind; intros ?
    | apply returns_ret; cbn; lia
    | match goal with
      | |- returns _ (match ?x with _ => _ end) => destruct x
      end ].

Ltac nw :=
  repeat first
    [ apply nw_try_catch
    | apply nw_ret
    | apply nw_bind_read; [solve [unfold_reads; keep_reads] | intros ?]
    | apply nw_bind_write; intros ?; unfold ok_msg; ok_replies
    | match goal with
      | |- no_write_on_4xx _ (if ?b then _ else _) => destruct b
      | |- no_write_on_4xx _ (match ?x with _ => _ end) => destruct x
      | |- no_write_on_4xx _ (let _ := _ in _) => cbv zeta
      end ].

(** X3 — A client error comes without a write: whatever the route, the
    request and the behaviour of the store, a reply with a 4xx status
    leaves the database exactly as it was. *)
Theorem client_errors_never_write (isURL : jsstring -> bool)
    (isLength : jsstring -> Z -> bool)
    (regex_i : jsstring -> option (jsstring -> bool))
    (route : App.Route) (f : Faults) (req : Request) (db : DB)
    (Herr : client_error
              (reply_of (run (App.handler isURL isLength regex_i route req)
                           f db))) :
  db_of (run (App.handler isURL isLength regex_i route req) f db) = db.
Proof.
  assert (K : no_write_on_4xx db (App.handler isURL isLength regex_i route req)).
  { destruct route; cbn [App.handler];
      try apply nw_unfollow; unfold_routes; nw. }
  revert Herr. unfold run, reply_of, db_of.
  destruct (handler_replies isURL isLength regex_i route req f (mkSt db []))
    as (r & s' & E).
  rewrite E. cbn [fst snd]. intros Hc. eapply K; [|exact E|exact Hc]. reflexivity.
Qed.

(** Bob may not delete Alice's post, is not following her, and sends a
    blank comment: three client errors, no write. *)
Lemma client_errors_sample :
  db_of (run (PostRoutes.delete_post (request 2 10 9)) healthy db_commented)
    = db_commented /\
  db_of (run (UserRoutes.unfollow (request 2 1 9)) healthy db_commented)
    = db_commented /\
  db_of (run (PostRoutes.add_comment sample_isLength
                           (with_text (request 2 10 9) " ")) healthy
           db_commented) = db_commented.
Proof.
  split; [|split].
  - apply (client_errors_never_write sample_isURL sample_isLength
             (fun _ => None) App.DeletePost
             healthy (request 2 10 9) db_commented).
    unfold client_error. vm_compute. split; [discriminate | reflexivity].
  - apply (client_errors_never_write sample_isURL sample_isLength
             (fun _ => None) App.UnfollowUser
             healthy (request 2 1 9) db_commented).
    unfold client_error. vm_compute. split; [discriminate | reflexivity].
  - apply (client_errors_never_write sample_isURL sample_isLength
             (fun _ => None) App.AddComment
             healthy (with_text (request 2 10 9) " ") db_commented).
    unfold client_error. vm_compute. split; [discriminate | reflexivity].
Defined.

(** ** What every history of requests keeps *)

Lemma serve_keeps (I : DB -> Prop) isURL isLength regex_i :
  (forall route req f db,
     I db -> I (db_of (run (App.handler isURL isLength regex_i route req) f db))) ->
  forall history db, I db -> I (serve isURL isLength regex_i history db).
Proof.
  intros Hstep history. unfold serve.
  induction history as [|e h IH]; intros db H; [exact H|].
  cbn [fold_left]. apply IH, Hstep, H.
Qed.

(** A store call that does not touch what the invariant looks at. *)
Ltac untouched :=
  apply keeps_await; intros ? ?; cbv beta zeta;
  repeat match goal with
         | |- context [if ?b then _ else _] => destruct b
         | |- context [match ?x with Some _ => _ | None => _ end] => destruct x
         end;
  assumption.

Ltac keep_gen ops :=
  repeat first
    [ apply keeps_try_catch
    | apply keeps_ret
    | apply keeps_query
    | apply keeps_cast
    | ops
    | solve [untouched]
    | apply keeps_promise_all; intros ?
    | apply keeps_bind; [|intros ?]
    | match goal with
      | |- keeps _ (if ?b then _ else _) => destruct b
      | |- keeps _ (match ?x with _ => _ end) => destruct x
      | |- keeps _ (let _ := _ in _) => cbv zeta
      end ].

Section FirstMatchKeeps.
Context {A : Type}.
Variable m : A -> bool.

Lemma Forall_remove_first (P : A -> Prop) l :
  Forall P l -> Forall P (remove_first m l).
Proof.
  induction 1 as [|x l Px Pl IH]; cbn; [constructor|].
  destruct (m x); [exact Pl | constructor; assumption].
Qed.

Lemma Forall_replace_first (P : A -> Prop) y l :
  Forall P l -> P y -> Forall P (replace_first m y l).
Proof.
  intros H Py. induction H as [|x l Px Pl IH]; cbn; [constructor|].
  destruct (m x); constructor; assumption.
Qed.

Lemma In_remove_first x l : In x (remove_first m l) -> In x l.
Proof.
  induction l as [|y l IH]; cbn; [exact (fun H => H)|].
  destruct (m y); [right; assumption|].
  intros [E | H]; [left; exact E | right; apply IH, H].
Qed.

Lemma NoDup_map_remove_first {B} (g : A -> B) l :
  NoDup (map g l) -> NoDup (map g (remove_first m l)).
Proof.
  induction l as [|x l IH]; cbn; [exact (fun H => H)|].
  intros H. inversion H as [|? ? Hx Hl]; subst.
  destruct (m x); [exact Hl|]. cbn. constructor; [|apply IH, Hl].
  intros Hin. apply Hx. apply in_map_iff in Hin as (z & Ez & Hz).
  apply in_map_iff. exists z. split; [exact Ez | apply In_remove_first, Hz].
Qed.
End FirstMatchKeeps.

Lemma keeps_likes_Post_create u url cap now :
  keeps likes_ok (Post.create u url cap now).
Proof.
  apply keeps_await. intros db H.
  destruct (is_empty url); [exact H|].
  destruct (2200 <? js_length cap); [exact H|].
  cbn [snd]. unfold likes_ok in *. cbn [posts bump_oid set_posts].
  apply Forall_app. split; [exact H|]. repeat constructor.
Qed.

Lemma keeps_likes_Post_deleteOne p : keeps likes_ok (Post.deleteOne p).
Proof.
  apply keeps_await. intros db H. cbn [snd]. unfold likes_ok in *.
  cbn [posts set_posts]. apply Forall_remove_first, H.
Qed.

(** Saving a post whose like set has no duplicate keeps the invariant. *)
Lemma likes_ok_save p now f s :
  NoDup (postSchema.likes p) -> likes_ok (st_db s) ->
  likes_ok (st_db (snd (Post.save p now f s))).
Proof.
  intros Hp H. unfold Post.save, await.
  destruct (f (List.length (st_log s))); [exact H|]. cbv zeta.
  destruct (List.find _ (posts (st_db s))); [|exact H].
  cbn [snd st_db]. unfold likes_ok in *. cbn [posts set_posts].
  apply Forall_replace_first; [exact H | exact Hp].
Qed.

Lemma likes_of_found id db p :
  likes_ok db -> Post.byId id db = Some p -> NoDup (postSchema.likes p).
Proof.
  intros H Hp. unfold likes_ok in H. rewrite Forall_forall in H.
  apply H. apply find_some in Hp. apply Hp.
Qed.

Lemma keeps_likes_bind_save p now (k : postSchema.t -> M Response) :
  NoDup (postSchema.likes p) -> (forall a, keeps likes_ok (k a)) ->
  keeps likes_ok (bind (Post.save p now) k).
Proof.
  intros Hp Hk. apply keeps_bind; [|exact Hk].
  intros f s H. apply likes_ok_save; assumption.
Qed.

Lemma keeps_likes_like req : keeps likes_ok (PostRoutes.like req).
Proof.
  unfold PostRoutes.like. apply keeps_try_catch.
  intros f s H.
  rewrite bind_cast.
  destruct (castObjectId (req_params_id req)) as [id|]; [|exact H].
  unfold Post.findById. rewrite bind_query.
  destruct (f (List.length (st_log s))); [exact H|].
  destruct (Post.byId id (st_db s)) as [p|] eqn:Ep; [|exact H].
  destruct (includes (postSchema.likes p) (req_user_id req)) eqn:Ei; [exact H|].
  apply keeps_likes_bind_save; [| intros a; apply keeps_ret | exact H].
  cbn [postSchema.likes]. apply NoDup_app.
  - eapply likes_of_found; eassumption.
  - repeat constructor. intros [].
  - intros a Ha [<- | []]. apply includes_In in Ha. congruence.
Qed.

Lemma keeps_likes_unlike req : keeps likes_ok (PostRoutes.unlike req).
Proof.
  unfold PostRoutes.unlike. apply keeps_try_catch.
  intros f s H.
  rewrite bind_cast.
  destruct (castObjectId (req_params_id req)) as [id|]; [|exact H].
  unfold Post.findById. rewrite bind_query.
  destruct (f (List.length (st_log s))); [exact H|].
  destruct (Post.byId id (st_db s)) as [p|] eqn:Ep; [|exact H].
  destruct (negb (includes (postSchema.likes p) (req_user_id req))); [exact H|].
  apply keeps_likes_bind_save; [| intros a; apply keeps_ret | exact H].
  cbn [postSchema.likes]. apply NoDup_filter.
  eapply likes_of_found; eassumption.
Qed.

Lemma handler_keeps_likes_ok isURL isLength regex_i route req f db :
  likes_ok db ->
  likes_ok (db_of (run (App.handler isURL isLength regex_i route req) f db)).
Proof.
  apply run_keeps.
  destruct route; cbn [App.handler];
    try apply keeps_likes_like; try apply keeps_likes_unlike;
    unfold_routes; unfold_reads;
    keep_gen ltac:(first [ apply keeps_likes_Post_create
                         | apply keeps_likes_Post_deleteOne ]).
Qed.

(** X5 — Like sets stay free of duplicates: after any history of requests,
    under any behaviour of the store, served from a database without
    posts, no post has the same user twice among its likes. *)
Theorem like_sets_stay_duplicate_free (isURL : jsstring -> bool)
    (isLength : jsstring -> Z -> bool)
    (regex_i : jsstring -> option (jsstring -> bool))
    (history : list Event) (us : list userSchema.t) (n : ObjectId) :
  Forall (fun p => NoDup (postSchema.likes p))
         (posts (serve isURL isLength regex_i history (db_init us n))).
Proof.
  apply (serve_keeps likes_ok isURL isLength regex_i).
  - intros route req f db H. apply handler_keeps_likes_ok, H.
  - constructor.
Qed.

Lemma keeps_edges_findOneAndDelete m : keeps edges_ok (Follow.findOneAndDelete m).
Proof.
  apply keeps_await. intros db Hn. cbn [snd]. unfold edges_ok.
  cbn [follows set_follows]. apply NoDup_map_remove_first, Hn.
Qed.

Lemma edge_absent a b l :
  List.find (UserRoutes.edge a b) l = None ->
  ~ In (a, b) (map edge_pair l).
Proof.
  intros Hf Hin. apply in_map_iff in Hin as (e & Ee & He).
  pose proof (find_none _ _ Hf e He) as Hm.
  unfold UserRoutes.edge in Hm. unfold edge_pair in Ee.
  injection Ee as E1 E2. rewrite E1, E2, !N.eqb_refl in Hm. discriminate.
Qed.

Lemma keeps_edges_follow req : keeps edges_ok (UserRoutes.follow req).
Proof.
  unfold UserRoutes.follow. apply keeps_try_catch.
  destruct (jseqb (req_params_id req) (req_user_id_string req));
    [apply keeps_ret|].
  intros f s H.
  rewrite bind_cast.
  destruct (castObjectId (req_params_id req)) as [id|]; [|exact H].
  unfold User.findById. rewrite bind_query.
  destruct (f (List.length (st_log s))); [exact H|].
  destruct (User.byId id (st_db s)); [|exact H].
  unfold Follow.findOne. rewrite bind_query. cbn [st_db st_log].
  destruct (f _); [exact H|].
  destruct (List.find (UserRoutes.edge (req_user_id req) id) (follows (st_db s)))
    eqn:Ef; [exact H|].
  unfold Follow.create. rewrite bind_await. cbn [st_db st_log fst snd].
  destruct (f _); [exact H|]. cbn [snd st_db ret].
  unfold edges_ok in *. cbn [follows bump_oid set_follows].
  rewrite map_app. cbn [map edge_pair followSchema.follower followSchema.following].
  apply NoDup_app; [exact H | repeat constructor; intros [] |].
  intros a Ha [<- | []]. exact (edge_absent _ _ _ Ef Ha).
Qed.

Lemma handler_keeps_edges_ok isURL isLength regex_i route req f db :
  edges_ok db ->
  edges_ok (db_of (run (App.handler isURL isLength regex_i route req) f db)).
Proof.
  apply run_keeps.
  destruct route; cbn [App.handler];
    try apply keeps_edges_follow;
    unfold_routes; unfold_reads;
    keep_gen ltac:(apply keeps_edges_findOneAndDelete).
Qed.

(** X6 — No edge twice: after any history of requests, under any
    behaviour of the store, served from a database without edges, no
    (follower, following) pair has two edges.  (An edge from a user to
    themself is not excluded: see the self check of the follow route.) *)
Theorem follow_edges_stay_unique (isURL : jsstring -> bool)
    (isLength : jsstring -> Z -> bool)
    (regex_i : jsstring -> option (jsstring -> bool))
    (history : list Event) (us : list userSchema.t) (n : ObjectId) :
  NoDup (map edge_pair
           (follows (serve isURL isLength regex_i history (db_init us n)))).
Proof.
  apply (serve_keeps edges_ok isURL isLength regex_i).
  - intros route req f db H. apply handler_keeps_edges_ok, H.
  - constructor.
Qed.

Lemma byId_In id db p :
  Post.byId id db = Some p -> In id (map postSchema._id (posts db)).
Proof.
  intros H. pose proof (byId_id _ _ _ H) as <-.
  apply in_map. apply find_some in H. apply H.
Qed.

Lemma In_ids_remove_first k id (l : list postSchema.t) :
  In k (map postSchema._id l) -> k <> id ->
  In k (map postSchema._id
          (remove_first (fun q => N.eqb (postSchema._id q) id) l)).
Proof.
  intros Hin Hne. induction l as [|x l IH]; cbn in *; [exact Hin|].
  destruct (N.eqb (postSchema._id x) id) eqn:E.
  - destruct Hin as [Ex | Hin]; [|exact Hin].
    apply N.eqb_eq in E. congruence.
  - cbn. destruct Hin as [Ex | Hin]; [left; exact Ex | right; apply IH, Hin].
Qed.

Lemma Forall_filter_keep {A} (P : A -> Prop) (g : A -> bool) l :
  Forall P l -> Forall P (filter g l).
Proof.
  rewrite !Forall_forall. intros H x Hx. apply filter_In in Hx. apply H, Hx.
Qed.

Lemma keeps_comments_Post_create u url cap now :
  keeps comments_ok (Post.create u url cap now).
Proof.
  apply keeps_await. intros db H.
  destruct (is_empty url); [exact H|].
  destruct (2200 <? js_length cap); [exact H|].
  cbn [snd]. unfold comments_ok in *.
  cbn [posts comments bump_oid set_posts].
  eapply Forall_impl; [|exact H]. cbn beta. intros c Hc.
  rewrite map_app. apply in_or_app. left; exact Hc.
Qed.

Lemma keeps_comments_Post_save p now : keeps comments_ok (Post.save p now).
Proof.
  apply keeps_await. intros db H. cbv beta zeta.
  destruct (List.find (fun q => N.eqb (postSchema._id q) (postSchema._id p))
              (posts db)); [|exact H].
  cbn [snd]. unfold comments_ok in *. cbn [posts comments set_posts].
  rewrite ids_replace_first by reflexivity. exact H.
Qed.

Lemma keeps_comments_deleteMany pid : keeps comments_ok (Comment.deleteMany pid).
Proof.
  apply keeps_await. intros db H. cbn [snd]. unfold comments_ok in *.
  cbn [posts comments set_comments]. apply Forall_filter_keep, H.
Qed.

Lemma keeps_comments_deleteOne c : keeps comments_ok (Comment.deleteOne c).
Proof.
  apply keeps_await. intros db H. cbn [snd]. unfold comments_ok in *.
  cbn [posts comments set_comments]. apply Forall_remove_first, H.
Qed.

Lemma keeps_comments_add_comment isLength req :
  keeps comments_ok (PostRoutes.add_comment isLength req).
Proof.
  unfold PostRoutes.add_comment. apply keeps_try_catch. cbv zeta.
  destruct (negb (is_nil (PostRoutes.validate_comment isLength req)));
    [apply keeps_ret|].
  intros f s H.
  rewrite bind_cast.
  destruct (castObjectId (req_params_id req)) as [id|]; [|exact H].
  unfold Post.findById. rewrite bind_query.
  destruct (f (List.length (st_log s))); [exact H|].
  destruct (Post.byId id (st_db s)) as [p|] eqn:Ep; [|exact H].
  unfold Comment.create. rewrite bind_await. cbn [st_db st_log].
  destruct (f _); [exact H|].
  destruct (is_empty (PostRoutes.sanitized_text req)); [exact H|].
  destruct (1000 <? js_length (PostRoutes.sanitized_text req)); [exact H|].
  cbn [fst snd].
  refine (keeps_bind comments_ok _ _ _ _ f _ _);
    [apply keeps_query | intros a; apply keeps_ret |].
  cbn [st_db]. unfold comments_ok in *.
  cbn [posts comments bump_oid set_comments].
  apply Forall_app. split; [exact H|]. constructor; [|constructor].
  cbn [commentSchema.post]. eapply byId_In; exact Ep.
Qed.

Lemma keeps_comments_delete_post req : keeps comments_ok (PostRoutes.delete_post req).
Proof.
  unfold PostRoutes.delete_post. apply keeps_try_catch.
  intros f s H.
  rewrite bind_cast.
  destruct (castObjectId (req_params_id req)) as [id|]; [|exact H].
  unfold Post.findById. rewrite bind_query.
  destruct (f (List.length (st_log s))); [exact H|].
  destruct (Post.byId id (st_db s)) as [p|]; [|exact H].
  destruct (negb (N.eqb (postSchema.user p) (req_user_id req))); [exact H|].
  unfold Comment.deleteMany. rewrite bind_await. cbn [st_db st_log fst snd].
  destruct (f _); [exact H|].
  assert (H1 : Forall
                 (fun c => In (commentSchema.post c)
                             (map postSchema._id (posts (st_db s))) /\
                           commentSchema.post c <> postSchema._id p)
                 (filter (fun c => negb (N.eqb (commentSchema.post c)
                                           (postSchema._id p)))
                    (comments (st_db s)))).
  { unfold comments_ok in H. rewrite Forall_forall in *. intros c Hc.
    apply filter_In in Hc as [Hc Hne]. split; [apply H, Hc|].
    apply negb_true_iff, N.eqb_neq in Hne. exact Hne. }
  unfold Post.deleteOne. rewrite bind_await. cbn [st_db st_log fst snd].
  destruct (f _).
  - cbn [snd st_db]. unfold comments_ok. cbn [posts comments set_comments].
    eapply Forall_impl; [|exact H1]. cbn beta. intros c [Hc _]. exact Hc.
  - cbn [snd st_db ret]. unfold comments_ok.
    cbn [posts comments set_comments set_posts].
    eapply Forall_impl; [|exact H1]. cbn beta. intros c [Hc Hne].
    apply In_ids_remove_first; assumption.
Qed.

Lemma handler_keeps_comments_ok isURL isLength regex_i route req f db :
  comments_ok db ->
  comments_ok (db_of (run (App.handler isURL isLength regex_i route req) f db)).
Proof.
  apply run_keeps.
  destruct route; cbn [App.handler];
    try apply keeps_comments_add_comment; try apply keeps_comments_delete_post;
    unfold_routes; unfold_reads;
    keep_gen ltac:(first [ apply keeps_comments_Post_create
                         | apply keeps_comments_Post_save
                         | apply keeps_comments_deleteOne ]).
Qed.

(** X7 — No orphaned comments: after any history of requests, under any
    behaviour of the store (a delete that fails half way included), served
    from a database without comments, every comment refers to a post that
    is in the database. *)
Theorem comments_never_orphaned (isURL : jsstring -> bool)
    (isLength : jsstring -> Z -> bool)
    (regex_i : jsstring -> option (jsstring -> bool))
    (history : list Event) (us : list userSchema.t) (n : ObjectId) :
  let db := serve isURL isLength regex_i history (db_init us n) in
  Forall (fun c => Post.byId (commentSchema.post c) db <> None) (comments db).
Proof.
  cbv zeta.
  assert (H : comments_ok (serve isURL isLength regex_i history (db_init us n))).
  { apply (serve_keeps comments_ok isURL isLength regex_i).
    - intros route req f db H. apply handler_keeps_comments_ok, H.
    - constructor. }
  eapply Forall_impl; [|exact H]. cbn beta. intros c Hc Hnone.
  unfold Post.byId in Hnone. apply in_map_iff in Hc as (q & Eq & Hq).
  pose proof (find_none _ _ Hnone q Hq) as Hm. cbn beta in Hm.
  rewrite Eq, N.eqb_refl in Hm. discriminate.
Qed.

(** ** Deleting a post, continued *)

(** X8 — The cascade is not atomic: when the owner deletes a post (the path
    identifier being its ObjectId) and the store rejects the removal of the
    post after it has removed the comments, the reply is the 500 server
    error, the comments of the post are gone and the post itself is still
    there. *)
Theorem delete_post_half_done (f : Faults) (req : Request) (db : DB)
    (id : ObjectId) (p : postSchema.t)
    (Hpath : castObjectId (req_params_id req) = Some id)
    (Hpost : Post.byId id db = Some p)
    (Hown : postSchema.user p = req_user_id req)
    (Hfind : f 0%nat = false) (Hcomments : f 1%nat = false)
    (Hreject : f 2%nat = true) :
  let r := run (PostRoutes.delete_post req) f db in
  reply_of r = server_error /\
  comments_of id (db_of r) = [] /\
  posts (db_of r) = posts db /\
  Post.byId id (db_of r) = Some p.
Proof.
  cbv zeta. unfold PostRoutes.delete_post. rewrite run_try_catch.
  rewrite (bind_cast_ok _ id) by exact Hpath.
  unfold Post.findById. rewrite bind_query. cbn [st_db st_log List.length app].
  rewrite Hfind, Hpost. apply N.eqb_eq in Hown. rewrite Hown. cbn [negb].
  unfold Comment.deleteMany. rewrite bind_await.
  cbn [st_db st_log List.length app fst snd]. rewrite Hcomments.
  unfold Post.deleteOne. rewrite bind_await.
  cbn [st_db st_log List.length app fst snd]. rewrite Hreject.
  unfold reply_of, db_of. cbn [fst snd st_db].
  rewrite (byId_id _ _ _ Hpost).
  split; [reflexivity|]. split; [|split; [reflexivity | exact Hpost]].
  unfold comments_of. cbn [comments set_comments].
  apply (filter_none_left
           (fun c => N.eqb (commentSchema.post c) id)).
Qed.

(** Alice deletes her commented post while the store rejects the third
    call. *)
Lemma delete_post_half_done_sample :
  let r := run (PostRoutes.delete_post (request 1 10 9)) (fail_at 2) db_commented in
  List.length (comments_of 10 db_commented) = 2%nat /\
  reply_of r = server_error /\
  comments_of 10 (db_of r) = [] /\
  posts (db_of r) = posts db_commented /\
  Post.byId 10 (db_of r) = Some first_post.
Proof.
  cbv zeta. split; [vm_compute; reflexivity|].
  apply (delete_post_half_done (fail_at 2) (request 1 10 9) db_commented
           10%N first_post);
    vm_compute; reflexivity.
Defined.

Lemma comments_of_other id id' (l : list commentSchema.t) :
  id' <> id ->
  filter (fun c => N.eqb (commentSchema.post c) id')
    (filter (fun c => negb (N.eqb (commentSchema.post c) id)) l)
  = filter (fun c => N.eqb (commentSchema.post c) id') l.
Proof.
  intros Hne. induction l as [|c l IH]; [reflexivity|]. cbn [filter].
  destruct (N.eqb (commentSchema.post c) id) eqn:E; cbn [negb filter].
  - apply N.eqb_eq in E.
    assert (E' : N.eqb (commentSchema.post c) id' = false)
      by (apply N.eqb_neq; congruence).
    rewrite E'. exact IH.
  - rewrite IH. reflexivity.
Qed.

Lemma In_remove_first_other id (l : list postSchema.t) q :
  In q l -> postSchema._id q <> id ->
  In q (remove_first (fun x => N.eqb (postSchema._id x) id) l).
Proof.
  intros Hin Hne. induction l as [|x l IH]; cbn in *; [exact Hin|].
  destruct (N.eqb (postSchema._id x) id) eqn:E.
  - destruct Hin as [-> | Hin]; [|exact Hin]. apply N.eqb_eq in E. congruence.
  - destruct Hin as [-> | Hin]; [left; reflexivity | right; apply IH, Hin].
Qed.

(** X9 — A delete touches nothing else: when the owner deletes a post (the
    path identifier being its ObjectId) on a store that answers, the
    comments of every other post, every other post, the users and the follow
    graph are as before. *)
Theorem delete_post_touches_nothing_else (req : Request) (db : DB)
    (id : ObjectId) (p : postSchema.t)
    (Hpath : castObjectId (req_params_id req) = Some id)
    (Hpost : Post.byId id db = Some p)
    (Hown : postSchema.user p = req_user_id req) :
  let db' := db_of (run (PostRoutes.delete_post req) healthy db) in
  (forall id', id' <> id ->
     comments_of id' db' = comments_of id' db) /\
  (forall q, In q (posts db) -> postSchema._id q <> id ->
     In q (posts db')) /\
  (forall q, In q (posts db') -> In q (posts db)) /\
  users db' = users db /\ follows db' = follows db /\
  next_oid db' = next_oid db.
Proof.
  cbv zeta. rewrite (delete_post_healthy req db id p Hpath Hpost).
  apply N.eqb_eq in Hown. rewrite Hown. cbn [negb]. unfold db_of. cbn [fst snd].
  rewrite (byId_id _ _ _ Hpost).
  split; [|split; [|split; [|repeat split]]].
  - intros id' Hne. unfold comments_of. cbn [comments set_posts set_comments].
    apply comments_of_other, Hne.
  - intros q Hq Hne. cbn [posts set_posts]. apply In_remove_first_other; assumption.
  - intros q Hq. cbn [posts set_posts] in Hq. eapply In_remove_first; exact Hq.
Qed.

(** Alice deletes her first post: her second post stays. *)
Lemma delete_post_touches_nothing_else_sample :
  let db' := db_of (run (PostRoutes.delete_post (request 1 10 9)) healthy
                      db_commented) in
  map postSchema._id (posts db') = [11%N] /\
  (forall id', id' <> 10%N -> comments_of id' db' = comments_of id' db_commented) /\
  users db' = users db_commented /\ follows db' = follows db_commented.
Proof.
  cbv zeta. split; [vm_compute; reflexivity|].
  destruct (delete_post_touches_nothing_else (request 1 10 9) db_commented
              10%N first_post) as (H1 & _ & _ & H4 & H5 & _);
    [reflexivity | vm_compute; reflexivity | reflexivity |].
  split; [exact H1 | split; [exact H4 | exact H5]].
Defined.

(** ** Creating posts and comments *)

Lemma validate_create_valid isURL isLength req :
  PostRoutes.validate_create isURL isLength req = []
  <-> valid_create isURL isLength req = true.
Proof.
  unfold PostRoutes.validate_create, valid_create. cbv zeta.
  destruct (is_empty (str_or_empty (req_body_imageUrl req)));
    destruct (isURL (str_or_empty (req_body_imageUrl req)));
    destruct (req_body_caption req) as [c|];
    try destruct (isLength c 2200);
    cbn; split; intros H; try reflexivity; discriminate.
Qed.

Lemma validate_comment_valid isLength req :
  PostRoutes.validate_comment isLength req = []
  <-> valid_comment isLength req = true.
Proof.
  unfold PostRoutes.validate_comment, valid_comment, PostRoutes.sanitized_text.
  cbv zeta.
  destruct (is_empty (trim (str_or_empty (req_body_text req))));
    destruct (isLength (trim (str_or_empty (req_body_text req))) 1000);
    cbn; split; intros H; try reflexivity; discriminate.
Qed.

(** X10 — Create-post refuses before it touches the store: a body whose
    image URL is missing, empty or not a URL, or whose caption fails the
    length test for 2200, is answered with status 400 and the list of what
    failed, without any store call and without any change, whatever the
    store does. *)
Theorem create_post_refuses_invalid (isURL : jsstring -> bool)
    (isLength : jsstring -> Z -> bool) (f : Faults)
    (req : Request) (db : DB)
    (Hinvalid : valid_create isURL isLength req = false) :
  run (PostRoutes.create_post isURL isLength req) f db
  = (res_json 400
       [("success", JBool false);
        ("errors", JArr (PostRoutes.validate_create isURL isLength req))],
     db, []) /\
  PostRoutes.validate_create isURL isLength req <> [].
Proof.
  assert (Hne : PostRoutes.validate_create isURL isLength req <> []).
  { intros E. apply validate_create_valid in E. congruence. }
  split; [|exact Hne].
  unfold PostRoutes.create_post. rewrite run_try_catch. cbv zeta.
  destruct (PostRoutes.validate_create isURL isLength req); [congruence|].
  reflexivity.
Qed.

(** A post without image URL, sent while the store is down. *)
Lemma create_post_refuses_sample :
  run (PostRoutes.create_post sample_isURL sample_isLength (request 1 0 9))
      (fun _ => true) db_users
  = (res_json 400
       [("success", JBool false);
        ("errors",
         JArr (PostRoutes.validate_create sample_isURL sample_isLength
                 (request 1 0 9)))],
     db_users, []) /\
  PostRoutes.validate_create sample_isURL sample_isLength (request 1 0 9) <> [].
Proof.
  apply (create_post_refuses_invalid sample_isURL sample_isLength
           (fun _ => true) (request 1 0 9) db_users).
  reflexivity.
Defined.




(** X12 — Add-comment refuses before it touches the store: a text (a
    string, or absent) that, once the white space at its two ends is
    removed, is empty or fails the length test for 1000 is answered with
    status 400 and the list of what failed, without any store call and
    without any change, whatever the store does, whatever the path
    identifier and whether or not the post exists. *)
Theorem add_comment_refuses_invalid (isLength : jsstring -> Z -> bool)
    (f : Faults) (req : Request) (db : DB)
    (Hinvalid : valid_comment isLength req = false) :
  run (PostRoutes.add_comment isLength req) f db
  = (res_json 400
       [("success", JBool false);
        ("errors", JArr (PostRoutes.validate_comment isLength req))],
     db, []) /\
  PostRoutes.validate_comment isLength req <> [].
Proof.
  assert (Hne : PostRoutes.validate_comment isLength req <> []).
  { intros E. apply validate_comment_valid in E. congruence. }
  split; [|exact Hne].
  unfold PostRoutes.add_comment. rewrite run_try_catch. cbv zeta.
  destruct (PostRoutes.validate_comment isLength req); [congruence|].
  reflexivity.
Qed.

(** Bob sends a no-break space, a tab and a space to a post that does not
    exist; a text of 1000 letters after a no-break space is let through. *)
Lemma add_comment_refuses_sample :
  let req := with_text (request 2 99 9) [0xA0%N; 0x09%N; 0x20%N] in
  (run (PostRoutes.add_comment sample_isLength req) healthy db_commented
   = (res_json 400
        [("success", JBool false);
         ("errors", JArr (PostRoutes.validate_comment sample_isLength req))],
      db_commented, []) /\
   PostRoutes.validate_comment sample_isLength req <> []) /\
  valid_comment sample_isLength
    (with_text (request 2 99 9) (0xA0%N :: repeat 97%N 1000)) = true.
Proof.
  split; [|vm_compute; reflexivity].
  apply (add_comment_refuses_invalid sample_isLength healthy
           (with_text (request 2 99 9) [0xA0%N; 0x09%N; 0x20%N]) db_commented).
  reflexivity.
Defined.

Lemma count_app {A} (m : A -> bool) l l' :
  count m (l ++ l') = count m l + count m l'.
Proof. unfold count. rewrite filter_app, length_app. lia. Qed.




(** ** Deleting a comment *)

Section RemoveByKey.
Context {A : Type}.
Variable key : A -> ObjectId.

Lemma In_remove_first_key id (l : list A) q :
  In q l -> key q <> id ->
  In q (remove_first (fun x => N.eqb (key x) id) l).
Proof.
  intros Hin Hne. induction l as [|x l IH]; cbn in *; [exact Hin|].
  destruct (N.eqb (key x) id) eqn:E.
  - destruct Hin as [-> | Hin]; [|exact Hin]. apply N.eqb_eq in E. congruence.
  - destruct Hin as [-> | Hin]; [left; reflexivity | right; apply IH, Hin].
Qed.

Lemma length_remove_first (m : A -> bool) (l : list A) x :
  List.find m l = Some x ->
  S (List.length (remove_first m l)) = List.length l.
Proof.
  induction l as [|y l IH]; cbn; [discriminate|].
  destruct (m y); [reflexivity|]. intros H. cbn. rewrite (IH H). reflexivity.
Qed.
End RemoveByKey.

Lemma delete_comment_healthy req db id c :
  castObjectId (req_params_id req) = Some id ->
  Comment.byId id db = Some c ->
  run (CommentRoutes.delete_comment req) healthy db =
  if negb (N.eqb (commentSchema.user c) (req_user_id req)) then
    (fail_msg 401 "Not authorized to delete this comment", db,
     [OpCommentFindById id])
  else
    (ok_msg "Comment deleted successfully",
     set_comments db
       (remove_first (fun d => N.eqb (commentSchema._id d) (commentSchema._id c))
          (comments db)),
     [OpCommentFindById id;
      OpCommentDeleteOne (commentSchema._id c)]).
Proof.
  intros Hcast Hc. unfold CommentRoutes.delete_comment. rewrite run_try_catch.
  rewrite (bind_cast_ok _ id) by exact Hcast.
  unfold Comment.findById. rewrite bind_query_healthy. cbn [st_db st_log app].
  rewrite Hc. destruct (negb (N.eqb (commentSchema.user c) (req_user_id req)));
    [reflexivity|].
  unfold Comment.deleteOne. rewrite bind_await_healthy. reflexivity.
Qed.

(** X14 — Deleting a comment: for a comment that exists (the path identifier
    being its ObjectId) in a database whose comments have unique
    identifiers, (a) when the requester is its author the request succeeds
    on a store that answers, the comment can no longer be found, exactly one
    comment is gone, every other comment is still there and the posts are
    untouched; (b) when the requester is not its author the request is
    refused with the 401 reply and nothing changes, whatever the store does. *)
Theorem delete_comment_outcome (req : Request) (db : DB) (id : ObjectId)
    (c : commentSchema.t)
    (Hpath : castObjectId (req_params_id req) = Some id)
    (Hcomment : Comment.byId id db = Some c)
    (Hunique : NoDup (map commentSchema._id (comments db))) :
  let r := run (CommentRoutes.delete_comment req) healthy db in
  (commentSchema.user c = req_user_id req ->
   reply_of r = ok_msg "Comment deleted successfully" /\
   Comment.byId id (db_of r) = None /\
   S (List.length (comments (db_of r))) = List.length (comments db) /\
   (forall c', In c' (comments db) ->
               commentSchema._id c' <> id ->
               In c' (comments (db_of r))) /\
   posts (db_of r) = posts db) /\
  (commentSchema.user c <> req_user_id req ->
   reply_of r = fail_msg 401 "Not authorized to delete this comment" /\
   forall f, db_of (run (CommentRoutes.delete_comment req) f db) = db).
Proof.
  cbv zeta. rewrite (delete_comment_healthy req db id c Hpath Hcomment).
  assert (Hid : commentSchema._id c = id).
  { apply find_some_holds in Hcomment. apply N.eqb_eq, Hcomment. }
  rewrite Hid. split; intros Hown.
  - apply N.eqb_eq in Hown. rewrite Hown. cbn [negb].
    unfold reply_of, db_of. cbn [fst snd].
    split; [reflexivity|]. split; [|split; [|split; [|reflexivity]]].
    + unfold Comment.byId. cbn [comments set_comments].
      apply (find_remove_first commentSchema._id), Hunique.
    + cbn [comments set_comments].
      eapply length_remove_first. exact Hcomment.
    + intros c' Hc' Hne. cbn [comments set_comments].
      apply (In_remove_first_key commentSchema._id); assumption.
  - pose proof Hown as Hne. apply N.eqb_neq in Hne. rewrite Hne. cbn [negb].
    split; [reflexivity|]. intros f.
    unfold CommentRoutes.delete_comment. rewrite run_try_catch.
    rewrite (bind_cast_ok _ id) by exact Hpath.
    unfold Comment.findById. rewrite bind_query.
    cbn [st_db st_log List.length app].
    destruct (f 0%nat); [reflexivity|]. rewrite Hcomment, Hne. reflexivity.
Qed.

(** Bob deletes his first comment (12); Alice may not delete it. *)
Lemma delete_comment_sample :
  let r := run (CommentRoutes.delete_comment (request 2 12 9)) healthy db_commented in
  reply_of r = ok_msg "Comment deleted successfully" /\
  map commentSchema._id (comments (db_of r)) = [13%N] /\
  reply_of (run (CommentRoutes.delete_comment (request 1 12 9)) healthy db_commented)
  = fail_msg 401 "Not authorized to delete this comment".
Proof.
  cbv zeta.
  assert (Hu : NoDup (map commentSchema._id (comments db_commented))).
  { vm_compute. repeat constructor; cbn; intuition discriminate. }
  pose (c := commentSchema.mk 12 10 2 "nice" 6 6).
  assert (Hc : Comment.byId 12 db_commented = Some c) by (vm_compute; reflexivity).
  split; [|split].
  - destruct (delete_comment_outcome (request 2 12 9) db_commented 12%N c
                eq_refl Hc Hu) as [H _].
    destruct (H eq_refl) as (H1 & _). exact H1.
  - vm_compute. reflexivity.
  - destruct (delete_comment_outcome (request 1 12 9) db_commented 12%N c
                eq_refl Hc Hu) as [_ H].
    assert (Hne : commentSchema.user c <> req_user_id (request 1 12 9))
      by (vm_compute; discriminate).
    destruct (H Hne) as (H1 & _). exact H1.
Defined.

(** ** A post that is not there *)

(** A path identifier that is no ObjectId: the lookup is rejected before
    it reaches the store. *)
Lemma post_routes_malformed isLength req db :
  castObjectId (req_params_id req) = None ->
  let failed := (server_error, db, []) in
  run (PostRoutes.get_post req) healthy db = failed /\
  run (PostRoutes.delete_post req) healthy db = failed /\
  run (PostRoutes.like req) healthy db = failed /\
  run (PostRoutes.unlike req) healthy db = failed /\
  (valid_comment isLength req = true ->
   run (PostRoutes.add_comment isLength req) healthy db = failed).
Proof.
  intros Hbad. cbv zeta.
  unfold PostRoutes.get_post, PostRoutes.delete_post, PostRoutes.like,
    PostRoutes.unlike, PostRoutes.add_comment.
  rewrite !run_try_catch, !bind_cast_fails by exact Hbad.
  repeat (split; [reflexivity|]).
  intros Hvalid. cbv zeta.
  rewrite (proj2 (validate_comment_valid isLength req) Hvalid). cbn [is_nil negb].
  rewrite bind_cast_fails by exact Hbad. reflexivity.
Qed.

(** X15 — A missing post on the routes that look the post up (get-post,
    delete-post, like, unlike and, for a text the validators let through,
    add-comment), on a store that answers.  When the path identifier is
    an ObjectId (24 hexadecimal digits) that no post has, each of them
    answers with the 404 'Post not found' error after the one lookup, and
    changes nothing.  When the path identifier is not an ObjectId, the
    lookup is rejected: each of them answers with the 500 'Server error',
    not with 404, makes no store call and changes nothing. *)
Theorem missing_post_is_404 (isLength : jsstring -> Z -> bool)
    (req : Request) (db : DB) :
  (forall id,
     castObjectId (req_params_id req) = Some id ->
     Post.byId id db = None ->
     let gone := (fail_msg 404 "Post not found", db, [OpPostFindById id]) in
     run (PostRoutes.get_post req) healthy db = gone /\
     run (PostRoutes.delete_post req) healthy db = gone /\
     run (PostRoutes.like req) healthy db = gone /\
     run (PostRoutes.unlike req) healthy db = gone /\
     (valid_comment isLength req = true ->
      run (PostRoutes.add_comment isLength req) healthy db = gone)) /\
  (castObjectId (req_params_id req) = None ->
   let failed := (fail_msg 500 "Server error", db, []) in
   run (PostRoutes.get_post req) healthy db = failed /\
   run (PostRoutes.delete_post req) healthy db = failed /\
   run (PostRoutes.like req) healthy db = failed /\
   run (PostRoutes.unlike req) healthy db = failed /\
   (valid_comment isLength req = true ->
    run (PostRoutes.add_comment isLength req) healthy db = failed)).
Proof.
  split; [|exact (post_routes_malformed isLength req db)].
  intros id Hpath Hmissing. cbv zeta.
  split; [apply get_post_missing; assumption|].
  split; [|split; [|split]].
  - unfold PostRoutes.delete_post. rewrite run_try_catch.
    rewrite (bind_cast_ok _ id) by exact Hpath.
    unfold Post.findById. rewrite bind_query_healthy. cbn [st_db st_log app].
    rewrite Hmissing. reflexivity.
  - unfold PostRoutes.like. rewrite run_try_catch.
    rewrite (bind_cast_ok _ id) by exact Hpath.
    unfold Post.findById. rewrite bind_query_healthy. cbn [st_db st_log app].
    rewrite Hmissing. reflexivity.
  - unfold PostRoutes.unlike. rewrite run_try_catch.
    rewrite (bind_cast_ok _ id) by exact Hpath.
    unfold Post.findById. rewrite bind_query_healthy. cbn [st_db st_log app].
    rewrite Hmissing. reflexivity.
  - intros Hvalid. unfold PostRoutes.add_comment. rewrite run_try_catch.
    cbv zeta.
    rewrite (proj2 (validate_comment_valid isLength req) Hvalid).
    cbn [is_nil negb].
    rewrite (bind_cast_ok _ id) by exact Hpath.
    unfold Post.findById. rewrite bind_query_healthy. cbn [st_db st_log app].
    rewrite Hmissing. reflexivity.
Qed.

(** Post 99 does not exist; the path identifier [99] is no ObjectId. *)
Lemma missing_post_sample :
  let req := with_text (request 2 99 9) "hello" in
  let gone := (fail_msg 404 "Post not found", db_commented, [OpPostFindById 99]) in
  let failed := (fail_msg 500 "Server error", db_commented, []) in
  (run (PostRoutes.get_post req) healthy db_commented = gone /\
   run (PostRoutes.delete_post req) healthy db_commented = gone /\
   run (PostRoutes.like req) healthy db_commented = gone /\
   run (PostRoutes.unlike req) healthy db_commented = gone /\
   run (PostRoutes.add_comment sample_isLength req) healthy db_commented = gone) /\
  (run (PostRoutes.get_post (with_path req "99")) healthy db_commented = failed /\
   run (PostRoutes.like (with_path req "99")) healthy db_commented = failed /\
   run (PostRoutes.add_comment sample_isLength (with_path req "99")) healthy
     db_commented = failed).
Proof.
  cbv zeta. split.
  - destruct (missing_post_is_404 sample_isLength
                (with_text (request 2 99 9) "hello") db_commented) as [H _].
    destruct (H 99%N) as (H1 & H2 & H3 & H4 & H5);
      [reflexivity | vm_compute; reflexivity |].
    repeat (split; [assumption|]). apply H5. reflexivity.
  - destruct (missing_post_is_404 sample_isLength
                (with_path (with_text (request 2 99 9) "hello") "99")
                db_commented) as [_ H].
    destruct (H eq_refl) as (H1 & _ & H3 & _ & H5).
    split; [exact H1|]. split; [exact H3|]. apply H5. reflexivity.
Defined.

(** ** Profiles *)

Lemma byId_user_id id db u :
  User.byId id db = Some u -> userSchema._id u = id.
Proof. intros H. apply find_some_holds in H. apply N.eqb_eq, H. Qed.

Lemma get_user_healthy req db id u :
  castObjectId (req_params_id req) = Some id ->
  User.byId id db = Some u ->
  let r := reply_of (run (UserRoutes.get_user req) healthy db) in
  status r = 200 /\
  profile "followerCount" r = Some (JNum (followers_of id db)) /\
  profile "followingCount" r = Some (JNum (following_of id db)) /\
  profile "postCount" r
  = Some (JNum (count (fun p => N.eqb (postSchema.user p) id)
                      (posts db))) /\
  profile "isFollowing" r
  = Some (JBool (match List.find (UserRoutes.edge (req_user_id req) id) (follows db) with
                 | Some _ => true
                 | None => false
                 end)) /\
  profile "password" r = None.
Proof.
  intros Hcast Hu. cbv zeta. unfold UserRoutes.get_user. rewrite run_try_catch.
  rewrite (bind_cast_ok _ id) by exact Hcast.
  unfold User.findById. rewrite bind_query_healthy. cbn [st_db st_log app].
  rewrite Hu. cbv zeta. rewrite (byId_user_id _ _ _ Hu).
  unfold Follow.countDocuments. rewrite !bind_query_healthy.
  cbn [st_db st_log app].
  unfold Follow.findOne. rewrite bind_query_healthy. cbn [st_db st_log app].
  unfold Post.countDocuments. rewrite bind_query_healthy. cbn [st_db st_log app].
  repeat split.
Qed.

(** X16 — The profile reflects a follow: when A follows an existing user B
    (the path identifier being the ObjectId of B, who is not A) whom A was
    not following, B's profile as A sees it reports [isFollowing] false
    before and true after, its follower count grows by one, and its
    following and post counts stay the same. *)
Theorem profile_reflects_follow (req : Request) (db : DB) (id : ObjectId)
    (u : userSchema.t)
    (Hpath : castObjectId (req_params_id req) = Some id)
    (Hdistinct : id <> req_user_id req)
    (Huser : User.byId id db = Some u)
    (Hnew : List.find (UserRoutes.edge (req_user_id req) id) (follows db) = None) :
  let db1 := db_of (run (UserRoutes.follow req) healthy db) in
  let before := reply_of (run (UserRoutes.get_user req) healthy db) in
  let after := reply_of (run (UserRoutes.get_user req) healthy db1) in
  profile "isFollowing" before = Some (JBool false) /\
  profile "isFollowing" after = Some (JBool true) /\
  profile "followerCount" before
  = Some (JNum (followers_of id db)) /\
  profile "followerCount" after
  = Some (JNum (followers_of id db + 1)) /\
  profile "followingCount" after = profile "followingCount" before /\
  profile "postCount" after = profile "postCount" before.
Proof.
  cbv zeta.
  assert (Hok : status (reply_of (run (UserRoutes.follow req) healthy db)) = 200).
  { rewrite (follow_succeeds req db id u Hpath Hdistinct Huser Hnew).
    reflexivity. }
  destruct (follow_succeeded healthy req db Hok) as (id' & Hid' & _ & ->).
  assert (id' = id) by congruence. subst id'. clear Hid'.
  set (e := followSchema.mk (next_oid db) (req_user_id req) id
              (req_now req)).
  set (db1 := bump_oid (set_follows db (follows db ++ [e]))).
  assert (Hu1 : User.byId id db1 = Some u) by exact Huser.
  destruct (get_user_healthy req db id u Hpath Huser)
    as (_ & Hf & Hg & Hp & Hi & _).
  destruct (get_user_healthy req db1 id u Hpath Hu1)
    as (_ & Hf1 & Hg1 & Hp1 & Hi1 & _).
  rewrite Hf, Hg, Hp, Hi, Hf1, Hg1, Hp1, Hi1, Hnew.
  assert (He : UserRoutes.edge (req_user_id req) id e = true).
  { unfold UserRoutes.edge. cbn. rewrite !N.eqb_refl. reflexivity. }
  subst db1. cbn [follows bump_oid set_follows posts].
  rewrite (find_app_none _ _ _ Hnew). cbn [List.find]. rewrite He.
  unfold followers_of, following_of. cbn [follows bump_oid set_follows].
  rewrite !count_app.
  assert (Hne : N.eqb (req_user_id req) id = false).
  { apply N.eqb_neq. congruence. }
  assert (C1 : count (fun f => N.eqb (followSchema.following f) id)
                 [e] = 1).
  { unfold count. cbn [filter followSchema.following e]. rewrite N.eqb_refl.
    reflexivity. }
  assert (C0 : count (fun f => N.eqb (followSchema.follower f) id)
                 [e] = 0).
  { unfold count. cbn [filter followSchema.follower e]. rewrite Hne.
    reflexivity. }
  rewrite C1, C0, Z.add_0_r. repeat split.
Qed.

(** Alice follows Bob and looks at his profile. *)
Lemma profile_reflects_follow_sample :
  let req := request 1 2 7 in
  let db1 := db_of (run (UserRoutes.follow req) healthy db_users) in
  profile "isFollowing" (reply_of (run (UserRoutes.get_user req) healthy db_users))
  = Some (JBool false) /\
  profile "isFollowing" (reply_of (run (UserRoutes.get_user req) healthy db1))
  = Some (JBool true) /\
  profile "followerCount" (reply_of (run (UserRoutes.get_user req) healthy db1))
  = Some (JNum 1).
Proof.
  cbv zeta.
  destruct (profile_reflects_follow (request 1 2 7) db_users 2%N bob)
    as (H1 & H2 & _ & H4 & _); try reflexivity.
  - discriminate.
  - split; [exact H1 | split; [exact H2 | exact H4]].
Defined.

(** ** Searching users *)

(** X17 — Searching users: a missing or empty [q] is refused with the 400
    reply before any store call; a pattern the engine refuses ends in the
    500 reply; otherwise, on a store that answers, the reply lists the
    first 20 users, in stored order, whose username matches, each with its
    identifier, username, picture and bio only. *)
Theorem search_outcome (regex_i : jsstring -> option (jsstring -> bool))
    (req : Request) (db : DB) :
  (str_falsy (req_query_q req) = true ->
   forall f, run (UserRoutes.search regex_i req) f db
             = (fail_msg 400 "Search query is required", db, [])) /\
  (forall q, req_query_q req = Some q -> q <> "" ->
     let r := reply_of (run (UserRoutes.search regex_i req) healthy db) in
     match regex_i q with
     | None => r = server_error
     | Some m =>
         status r = 200 /\
         reply_users r
         = map (fun u => user_card (Some u))
               (firstn 20 (filter (fun u => m (userSchema.username u)) (users db))) /\
         (List.length (reply_users r) <= 20)%nat /\
         Forall (fun j => has_field "password" j = false /\
                          has_field "email" j = false)
                (reply_users r)
     end).
Proof.
  split.
  - intros Hq f. unfold UserRoutes.search. rewrite run_try_catch. cbv zeta.
    rewrite Hq. reflexivity.
  - intros q Hq Hne. cbv zeta. unfold UserRoutes.search. rewrite run_try_catch.
    cbv zeta. rewrite Hq. cbn [str_falsy str_or_empty].
    assert (Hq' : is_empty q = false)
      by (destruct q; [exfalso; apply Hne; reflexivity | reflexivity]).
    rewrite Hq'.
    unfold User.find. rewrite bind_query_healthy. cbn [st_db st_log app].
    destruct (regex_i q) as [m|]; cbn [option_map]; [|reflexivity].
    unfold cursor. cbn [Z.ltb Z.compare Z.eqb Z.abs Z.to_nat Pos.to_nat].
    change (Pos.iter_op Init.Nat.add 20 1%nat) with 20%nat.
    rewrite skipn_0.
    unfold reply_of, reply, ret, reply_users. cbn [fst body res_json jget assoc].
    cbn [String.eqb Ascii.eqb Bool.eqb].
    split; [reflexivity|]. split; [reflexivity|]. split.
    + rewrite length_map. apply firstn_le_length.
    + apply Forall_forall. intros j Hj.
      apply in_map_iff in Hj as (u & <- & _). split; reflexivity.
Qed.

(** Searching the sample users for [al], for nothing, and for [(]. *)
Lemma search_sample :
  map (jget "username")
      (reply_users (reply_of (run (UserRoutes.search sample_regex
                                     (with_q (request 1 0 9) (Some "al")))
                                healthy db_users)))
  = [Some (JStr "alice")] /\
  run (UserRoutes.search sample_regex (request 1 0 9)) (fun _ => true) db_users
  = (fail_msg 400 "Search query is required", db_users, []) /\
  reply_of (run (UserRoutes.search sample_regex (with_q (request 1 0 9) (Some "(")))
              healthy db_users) = server_error.
Proof.
  destruct (search_outcome sample_regex (with_q (request 1 0 9) (Some "al")) db_users)
    as [_ H1].
  specialize (H1 "al" eq_refl). cbv zeta in H1.
  destruct (search_outcome sample_regex (request 1 0 9) db_users) as [H2 _].
  destruct (search_outcome sample_regex (with_q (request 1 0 9) (Some "(")) db_users)
    as [_ H3].
  specialize (H3 "(" eq_refl). cbv zeta in H3.
  split; [|split].
  - assert (Hne : js "al" <> js "") by discriminate.
    specialize (H1 Hne).
    change (sample_regex (js "al"))
      with (Some (fun name => js_prefix (js "al") name)) in H1.
    destruct H1 as (_ & -> & _). vm_compute. reflexivity.
  - apply H2. reflexivity.
  - apply H3. discriminate.
Defined.

(** ** Post detail and the posts of a user *)

Lemma get_post_healthy req db id p :
  castObjectId (req_params_id req) = Some id ->
  Post.byId id db = Some p ->
  run (PostRoutes.get_post req) healthy db
  = (res_json 200
       [("success", JBool true);
        ("post",
         JObj (post_toObject (p, User.byId (postSchema.user p) db) ++
               [("isLiked", JBool (includes (postSchema.likes p) (req_user_id req)));
                ("comments",
                 JArr (map (fun c => JObj (comment_toObject
                                             (c, User.byId (commentSchema.user c) db)))
                         (sort_desc commentSchema.createdAt
                            (comments_of id db))))]))],
     db,
     [OpPostFindById id; OpCommentFind id]).
Proof.
  intros Hcast Hp. unfold PostRoutes.get_post. rewrite run_try_catch.
  rewrite (bind_cast_ok _ id) by exact Hcast.
  unfold Post.findById_populate. rewrite bind_query_healthy.
  cbn [st_db st_log app]. rewrite Hp. cbn [option_map fst].
  unfold Comment.find. rewrite bind_query_healthy. cbn [st_db st_log app].
  rewrite (byId_id _ _ _ Hp). unfold reply, ret, comments_of.
  rewrite map_map. reflexivity.
Qed.



(** X19 — The posts of a user, on a store that answers.  When the path
    identifier is an ObjectId (24 hexadecimal digits), the route replies
    200 with all the posts of that user and no others, newest first; for a
    user without posts, or an ObjectId that is no user's, that is the
    empty list.  When the path identifier is not an ObjectId the query is
    rejected and the reply is the 500 'Server error'. *)
Theorem user_posts_complete_and_sorted (req : Request) (db : DB) :
  let r := reply_of (run (UserRoutes.get_posts req) healthy db) in
  (forall id,
     castObjectId (req_params_id req) = Some id ->
     let mine := filter (fun p => N.eqb (postSchema.user p) id) (posts db) in
     status r = 200 /\
     Permutation (map id_of (feed_posts r)) (map postSchema._id mine) /\
     StronglySorted newest_first (feed_keys r) /\
     (mine = [] -> feed_posts r = [])) /\
  (castObjectId (req_params_id req) = None ->
   r = fail_msg 500 "Server error").
Proof.
  cbv zeta. unfold UserRoutes.get_posts. rewrite run_try_catch. split.
  - intros id Hpath. rewrite (bind_cast_ok _ id) by exact Hpath.
    unfold Post.find. rewrite bind_query_healthy. cbn [st_db st_log app].
    unfold cursor. cbn [Z.ltb Z.compare Z.eqb Z.to_nat]. rewrite skipn_0.
    unfold reply_of, reply, ret. cbn [fst].
    set (mine := filter _ (posts db)).
    assert (Hp : feed_posts
                   (res_json 200
                      [("success", JBool true);
                       ("posts",
                        JArr (map (fun p => JObj (post_toObject p))
                                (map (fun p => (p, User.byId (postSchema.user p) db))
                                   (sort_desc postSchema.createdAt mine))))])
                 = map (fun p => JObj (post_toObject
                                         (p, User.byId (postSchema.user p) db)))
                     (sort_desc postSchema.createdAt mine)).
    { unfold feed_posts. cbn [body res_json jget assoc String.eqb Ascii.eqb Bool.eqb].
      rewrite map_map. reflexivity. }
    unfold feed_keys. rewrite Hp. split; [reflexivity|]. split; [|split].
    + rewrite map_map.
      cbn [id_of jget post_toObject assoc String.eqb Ascii.eqb Bool.eqb].
      apply Permutation_map, sort_desc_perm.
    + rewrite map_map.
      eapply sorted_map; [|apply (sort_desc_sorted postSchema.createdAt)].
      intros a b H. exact H.
    + intros ->. reflexivity.
  - intros Hbad. rewrite bind_cast_fails by exact Hbad. reflexivity.
Qed.

(** Alice's two posts, Bob's none, and a path identifier that is a name. *)
Lemma user_posts_sample :
  let posts_of path :=
    reply_of (run (UserRoutes.get_posts (with_path (request 2 0 9) path))
                healthy db_two_posts) in
  Permutation (map id_of (feed_posts (posts_of (toString 1)))) [10%N; 11%N] /\
  feed_posts (posts_of (toString 2)) = [] /\
  posts_of "alice" = fail_msg 500 "Server error".
Proof.
  cbv beta zeta. split; [|split].
  - destruct (user_posts_complete_and_sorted
                (with_path (request 2 0 9) (toString 1)) db_two_posts) as [H _].
    destruct (H 1%N eq_refl) as (_ & Hp & _). exact Hp.
  - destruct (user_posts_complete_and_sorted
                (with_path (request 2 0 9) (toString 2)) db_two_posts) as [H _].
    destruct (H 2%N eq_refl) as (_ & _ & _ & He). apply He. reflexivity.
  - destruct (user_posts_complete_and_sorted
                (with_path (request 2 0 9) "alice") db_two_posts) as [_ H].
    apply H. reflexivity.
Defined.

(** ** Feed pages *)

Lemma feed_posts_healthy req db :
  feed_posts (reply_of (run (FeedRoutes.get_feed req) healthy db))
  = map (details db (req_user_id req)) (feed_page req db).
Proof.
  rewrite get_feed_healthy. destruct (feed_skip req <? 0) eqn:Es.
  - unfold feed_page, cursor. rewrite Es. reflexivity.
  - reflexivity.
Qed.

Lemma feed_ids_healthy req db :
  map id_of (feed_posts (reply_of (run (FeedRoutes.get_feed req) healthy db)))
  = map postSchema._id (feed_page req db).
Proof. rewrite feed_posts_healthy, map_map. reflexivity. Qed.

(** The page of a request with a positive limit and a page number from 1
    on: a segment of the sorted candidates. *)
Lemma feed_page_segment req db :
  0 < feed_limit req -> 1 <= feed_pageno req ->
  feed_page req db
  = firstn (Z.to_nat (feed_limit req))
      (skipn (Z.to_nat (feed_pageno req - 1) * Z.to_nat (feed_limit req))
         (sort_desc postSchema.createdAt (feed_candidates (req_user_id req) db))).
Proof.
  intros HL Hk. unfold feed_page, cursor, feed_skip.
  assert (Hs : ((feed_pageno req - 1) * feed_limit req <? 0) = false)
    by (apply Z.ltb_ge; nia).
  assert (Hz : (feed_limit req =? 0) = false) by (apply Z.eqb_neq; lia).
  rewrite Hs, Hz, Z.abs_eq by lia.
  rewrite Z2Nat.inj_mul by lia. reflexivity.
Qed.

Lemma firstn_then {A} n m : forall l : list A,
  (firstn n l ++ firstn m (skipn n l))%list = firstn (n + m) l.
Proof.
  induction n as [|n IH]; intros l; [reflexivity|].
  destruct l as [|x l]; cbn.
  - rewrite firstn_nil. reflexivity.
  - rewrite IH. reflexivity.
Qed.

Lemma firstn_twice {A} n (l : list A) :
  (firstn n l ++ firstn n (skipn n l))%list = firstn (n + n) l.
Proof. apply firstn_then. Qed.

Lemma NoDup_map_filter {A B} (g : A -> B) (m : A -> bool) l :
  NoDup (map g l) -> NoDup (map g (filter m l)).
Proof.
  induction l as [|x l IH]; cbn; [exact (fun H => H)|].
  intros H. inversion H as [|? ? Hx Hl]; subst.
  destruct (m x); [|apply IH, Hl]. cbn. constructor; [|apply IH, Hl].
  intros Hin. apply Hx. apply in_map_iff in Hin as (z & Ez & Hz).
  apply in_map_iff. exists z. split; [exact Ez|]. apply filter_In in Hz. apply Hz.
Qed.

Lemma NoDup_firstn {A} n (l : list A) : NoDup l -> NoDup (firstn n l).
Proof.
  intros H. rewrite <- (firstn_skipn n l) in H.
  eapply NoDup_app_remove_r. exact H.
Qed.

Lemma NoDup_skipn {A} n (l : list A) : NoDup l -> NoDup (skipn n l).
Proof.
  intros H. rewrite <- (firstn_skipn n l) in H.
  eapply NoDup_app_remove_l. exact H.
Qed.

(** With pairwise distinct keys there is one way only to list documents
    in descending order. *)
Lemma sorted_listing_unique {A} (key : A -> Z) : forall l1 l2 : list A,
  NoDup (map key l1) -> Permutation l1 l2 ->
  StronglySorted (desc key) l1 -> StronglySorted (desc key) l2 -> l1 = l2.
Proof.
  induction l1 as [|x l1 IH]; intros l2 Hn Hp H1 H2.
  - apply Permutation_nil in Hp. congruence.
  - destruct l2 as [|y l2];
      [apply Permutation_sym, Permutation_nil in Hp; discriminate|].
    inversion Hn as [|? ? Hx Hn']; subst.
    inversion H1 as [|? ? S1 F1]; subst. inversion H2 as [|? ? S2 F2]; subst.
    rewrite Forall_forall in F1, F2.
    assert (Exy : x = y).
    { assert (Hxin : In x (y :: l2))
        by (eapply Permutation_in; [exact Hp | left; reflexivity]).
      assert (Hyin : In y (x :: l1))
        by (eapply Permutation_in;
            [apply Permutation_sym; exact Hp | left; reflexivity]).
      destruct Hxin as [E | Hxin]; [congruence|].
      destruct Hyin as [E | Hyin]; [congruence|].
      specialize (F2 x Hxin). specialize (F1 y Hyin). unfold desc in F1, F2.
      exfalso. apply Hx. replace (key x) with (key y) by lia.
      apply in_map, Hyin. }
    subst y. f_equal. apply Permutation_cons_inv in Hp.
    apply IH; assumption.
Qed.

(** X20 — Consecutive feed pages: for a viewer, a positive limit L and a
    page number k from 1 on, on a store that answers and a database that
    does not change in between, the eligible posts having pairwise
    distinct creation times (the order of the sort is then the one
    descending listing there is, whatever the server does with equal
    times): the posts of page k followed by the posts of page k+1 are the
    2L posts that follow the first (k-1)L of the listing; with unique post
    identifiers no post is on both pages. *)
Theorem feed_pages_are_consecutive (req1 req2 : Request) (db : DB)
    (listing : list postSchema.t)
    (Hviewer : req_user_id req2 = req_user_id req1)
    (Hlimit : 0 < feed_limit req1)
    (Hsame : feed_limit req2 = feed_limit req1)
    (Hpage : 1 <= feed_pageno req1)
    (Hnext : feed_pageno req2 = feed_pageno req1 + 1)
    (Hdistinct : NoDup (map postSchema.createdAt
                          (feed_candidates (req_user_id req1) db)))
    (Hlisting : Permutation listing (feed_candidates (req_user_id req1) db))
    (Hsorted : StronglySorted (desc postSchema.createdAt) listing) :
  let ids req :=
    map id_of (feed_posts (reply_of (run (FeedRoutes.get_feed req) healthy db))) in
  let L := Z.to_nat (feed_limit req1) in
  let k := Z.to_nat (feed_pageno req1) in
  (ids req1 ++ ids req2)%list
  = map postSchema._id (firstn (L + L) (skipn ((k - 1) * L) listing)) /\
  (NoDup (map postSchema._id (posts db)) -> NoDup (ids req1 ++ ids req2)).
Proof.
  cbv beta zeta. rewrite !feed_ids_healthy.
  rewrite (feed_page_segment req1 db) by assumption.
  rewrite (feed_page_segment req2 db) by lia.
  rewrite Hviewer, Hsame, Hnext.
  assert (Hl : sort_desc postSchema.createdAt
                 (feed_candidates (req_user_id req1) db) = listing).
  { apply (sorted_listing_unique postSchema.createdAt).
    - eapply Permutation_NoDup; [|exact Hdistinct].
      apply Permutation_map, Permutation_sym, sort_desc_perm.
    - eapply perm_trans; [apply sort_desc_perm|].
      apply Permutation_sym, Hlisting.
    - apply sort_desc_sorted.
    - exact Hsorted. }
  rewrite Hl.
  set (L := Z.to_nat (feed_limit req1)).
  replace (Z.to_nat (feed_pageno req1 - 1))
    with (Z.to_nat (feed_pageno req1) - 1)%nat by lia.
  replace (Z.to_nat (feed_pageno req1 + 1 - 1))
    with (Z.to_nat (feed_pageno req1) - 1 + 1)%nat by lia.
  set (k1 := (Z.to_nat (feed_pageno req1) - 1)%nat).
  replace ((k1 + 1) * L)%nat with (L + k1 * L)%nat by lia.
  rewrite <- skipn_skipn, <- map_app, firstn_twice.
  split; [reflexivity|]. intros Hu.
  rewrite <- firstn_map, <- skipn_map. apply NoDup_firstn, NoDup_skipn.
  eapply Permutation_NoDup.
  - apply Permutation_map, Permutation_sym, Hlisting.
  - unfold feed_candidates. apply NoDup_map_filter, Hu.
Qed.

(** Carol's two pages of two posts; the four posts have the times 4, 3, 2
    and 1. *)
Lemma feed_pages_sample :
  let ids req :=
    map id_of (feed_posts (reply_of (run (FeedRoutes.get_feed req) healthy
                                       db_scenario))) in
  map postSchema.createdAt (feed_candidates 3 db_scenario) = [1; 2; 3; 4] /\
  (ids (carol_feed "1") ++ ids (carol_feed "2"))%list = [15%N; 14%N; 13%N; 12%N] /\
  NoDup (ids (carol_feed "1") ++ ids (carol_feed "2")).
Proof.
  cbv beta zeta. split; [vm_compute; reflexivity|].
  destruct (feed_pages_are_consecutive (carol_feed "1") (carol_feed "2") db_scenario
              (sort_desc postSchema.createdAt (feed_candidates 3 db_scenario)))
    as [H1 H2].
  - reflexivity.
  - vm_compute. reflexivity.
  - reflexivity.
  - vm_compute. congruence.
  - vm_compute. reflexivity.
  - vm_compute. repeat constructor; cbn; intuition discriminate.
  - apply sort_desc_perm.
  - apply sort_desc_sorted.
  - split.
    + rewrite H1. vm_compute. reflexivity.
    + apply H2. vm_compute. repeat constructor; cbn; intuition discriminate.
Defined.

(** X21 — The size of a feed page: when the skip is not negative, on a
    store that answers, the reply is a 200 whose total is the number of
    eligible posts whatever the page; with a positive limit the page holds
    at most that many posts; and a page past the end of the feed is an
    empty page, not an error. *)
Theorem feed_page_bounds (req : Request) (db : DB)
    (Hskip : 0 <= feed_skip req) :
  let r := reply_of (run (FeedRoutes.get_feed req) healthy db) in
  let eligible := feed_candidates (req_user_id req) db in
  status r = 200 /\
  pagination "total" r = Some (JNum (Z.of_nat (List.length eligible))) /\
  (0 < feed_limit req ->
   (List.length (feed_posts r) <= Z.to_nat (feed_limit req))%nat) /\
  ((List.length eligible <= Z.to_nat (feed_skip req))%nat -> feed_posts r = []).
Proof.
  cbv zeta. rewrite feed_posts_healthy. rewrite get_feed_healthy.
  assert (Hs : (feed_skip req <? 0) = false) by (apply Z.ltb_ge; exact Hskip).
  rewrite Hs. unfold reply_of. cbn [fst].
  split; [reflexivity|]. split; [reflexivity|].
  unfold feed_page, cursor. rewrite Hs. split.
  - intros HL. assert (Hz : (feed_limit req =? 0) = false)
      by (apply Z.eqb_neq; lia).
    rewrite Hz, length_map, Z.abs_eq by lia. apply firstn_le_length.
  - intros Hend.
    assert (Hnil : skipn (Z.to_nat (feed_skip req))
                     (sort_desc postSchema.createdAt
                        (feed_candidates (req_user_id req) db)) = []).
    { apply skipn_all2. rewrite (Permutation_length (sort_desc_perm _ _)).
      exact Hend. }
    rewrite Hnil. destruct (feed_limit req =? 0); [reflexivity|].
    rewrite firstn_nil. reflexivity.
Qed.

(** Carol's third page of two posts is empty. *)
Lemma feed_page_bounds_sample :
  let r := reply_of (run (FeedRoutes.get_feed (carol_feed "3")) healthy db_scenario) in
  status r = 200 /\ pagination "total" r = Some (JNum 4) /\ feed_posts r = [].
Proof.
  cbv zeta.
  destruct (feed_page_bounds (carol_feed "3") db_scenario) as (H1 & H2 & _ & H4).
  - vm_compute. congruence.
  - split; [exact H1|]. split; [rewrite H2; vm_compute; reflexivity|].
    apply H4. vm_compute. repeat constructor.
Defined.

(** ** Following and the feed *)

(** X22 — Following opens the feed, unfollowing closes it: when A follows an
    existing user B (the path identifier being the ObjectId of B, who is not
    A) whom A was not following, B was not in the scope of A's feed before,
    is in it after, and every post of B is then eligible for A's feed; once
    A unfollows B the scope is what it was. *)
Theorem follow_opens_feed (req : Request) (db : DB) (id : ObjectId)
    (u : userSchema.t)
    (Hpath : castObjectId (req_params_id req) = Some id)
    (Hdistinct : id <> req_user_id req)
    (Huser : User.byId id db = Some u)
    (Hnew : List.find (UserRoutes.edge (req_user_id req) id) (follows db) = None) :
  let a := req_user_id req in
  let b := id in
  let db1 := db_of (run (UserRoutes.follow req) healthy db) in
  let db2 := db_of (run (UserRoutes.unfollow req) healthy db1) in
  ~ In b (feed_scope a db) /\
  In b (feed_scope a db1) /\
  (forall p, In p (posts db) -> postSchema.user p = b ->
             In p (feed_candidates a db1)) /\
  feed_scope a db2 = feed_scope a db /\
  feed_candidates a db2 = feed_candidates a db.
Proof.
  cbv zeta.
  assert (Hok : status (reply_of (run (UserRoutes.follow req) healthy db)) = 200).
  { rewrite (follow_succeeds req db id u Hpath Hdistinct Huser Hnew).
    reflexivity. }
  destruct (follow_succeeded healthy req db Hok) as (id' & Hid' & _ & ->).
  assert (id' = id) by congruence. subst id'. clear Hid'.
  rewrite (unfollow_healthy req _ id (not_self_path _ _ _ Hpath Hdistinct) Hpath).
  unfold db_of. cbn [fst snd].
  set (e := followSchema.mk (next_oid db) (req_user_id req) id
              (req_now req)).
  assert (He : UserRoutes.edge (req_user_id req) id e = true).
  { unfold UserRoutes.edge. cbn. rewrite !N.eqb_refl. reflexivity. }
  assert (Hin1 : In id
                   (feed_scope (req_user_id req)
                      (bump_oid (set_follows db (follows db ++ [e]))))).
  { apply feed_scope_In. right. exists e. split; [|split; reflexivity].
    cbn [follows bump_oid set_follows]. apply in_or_app. right. left. reflexivity. }
  assert (Hback : set_follows (bump_oid (set_follows db (follows db ++ [e])))
                    (remove_first (UserRoutes.edge (req_user_id req) id)
                       (follows (bump_oid (set_follows db (follows db ++ [e])))))
                  = bump_oid db).
  { cbn [follows bump_oid set_follows].
    rewrite (remove_first_app_none _ _ _ Hnew). cbn [remove_first].
    rewrite He, app_nil_r. destruct db; reflexivity. }
  rewrite Hback.
  split; [|split; [exact Hin1 | split; [|split; reflexivity]]].
  - intros Hin. apply feed_scope_In in Hin as [E | (e' & He' & Hf & Hg)];
      [exact (Hdistinct E)|].
    pose proof (find_none _ _ Hnew e' He') as Hm.
    unfold UserRoutes.edge in Hm. rewrite Hf, Hg, !N.eqb_refl in Hm. discriminate.
  - intros p Hp Hb. apply feed_candidates_In. split; [exact Hp|].
    rewrite Hb. exact Hin1.
Qed.

(** Bob follows Alice: Alice's posts become eligible for Bob's feed. *)
Lemma follow_opens_feed_sample :
  let req := request 2 1 7 in
  let db1 := db_of (run (UserRoutes.follow req) healthy db_two_posts) in
  let db2 := db_of (run (UserRoutes.unfollow req) healthy db1) in
  feed_candidates 2 db_two_posts = [] /\
  map postSchema._id (feed_candidates 2 db1) = [10%N; 11%N] /\
  feed_candidates 2 db2 = [].
Proof.
  cbv zeta.
  destruct (follow_opens_feed (request 2 1 7) db_two_posts 1%N alice)
    as (_ & _ & _ & _ & H5); try reflexivity.
  - discriminate.
  - split; [reflexivity|]. split; [vm_compute; reflexivity|].
    exact (eq_trans H5 eq_refl).
Defined.

(** ** Likes, continued *)

(** X23 — Unliking what was not liked: for a post that exists (the path
    identifier being its ObjectId), an unlike request of a user who is not
    among its likes is refused with the 400 reply after the one lookup, and
    changes nothing. *)
Theorem unlike_refuses_when_not_liked (req : Request) (db : DB)
    (id : ObjectId) (p : postSchema.t)
    (Hpath : castObjectId (req_params_id req) = Some id)
    (Hpost : Post.byId id db = Some p)
    (Hnot : ~ In (req_user_id req) (postSchema.likes p)) :
  run (PostRoutes.unlike req) healthy db
  = (fail_msg 400 "You have not liked this post", db,
     [OpPostFindById id]).
Proof.
  rewrite (unlike_healthy req db id p Hpath Hpost).
  destruct (includes (postSchema.likes p) (req_user_id req)) eqn:E;
    [|reflexivity].
  apply includes_In in E. contradiction.
Qed.

(** Bob has not liked Alice's first post. *)
Lemma unlike_refuses_sample :
  run (PostRoutes.unlike (request 2 10 8)) healthy db_two_posts
  = (fail_msg 400 "You have not liked this post", db_two_posts, [OpPostFindById 10]).
Proof.
  apply (unlike_refuses_when_not_liked (request 2 10 8) db_two_posts
           10%N first_post).
  - reflexivity.
  - vm_compute. reflexivity.
  - intros [].
Defined.

(** X24 — A like shows in the post detail and touches nothing else: when a
    user likes a post that exists (the path identifier being its ObjectId)
    and that they had not liked, on a store that answers, the detail of the
    post then reports [isLiked] true for that user and one like more; the
    identifiers and the order of the posts, the owner, image, caption and
    creation time of the liked post, every other post, the comments, the
    users and the follow graph are as before. *)
Theorem like_shows_in_detail (req : Request) (db : DB) (id : ObjectId)
    (p : postSchema.t)
    (Hpath : castObjectId (req_params_id req) = Some id)
    (Hpost : Post.byId id db = Some p)
    (Hnot : includes (postSchema.likes p) (req_user_id req) = false) :
  let db1 := db_of (run (PostRoutes.like req) healthy db) in
  let r := reply_of (run (PostRoutes.get_post req) healthy db1) in
  post_field "isLiked" r = Some (JBool true) /\
  post_field "likeCount" r = Some (JNum (postSchema.likeCount p + 1)) /\
  post_field "imageUrl" r = Some (JStr (postSchema.imageUrl p)) /\
  post_field "caption" r = Some (JStr (postSchema.caption p)) /\
  post_field "createdAt" r = Some (JDate (postSchema.createdAt p)) /\
  map postSchema._id (posts db1) = map postSchema._id (posts db) /\
  (forall q, In q (posts db) -> postSchema._id q <> id ->
             In q (posts db1)) /\
  comments db1 = comments db /\ users db1 = users db /\ follows db1 = follows db.
Proof.
  cbv zeta. rewrite (like_healthy req db id p Hpath Hpost), Hnot. cbv zeta.
  unfold db_of. cbn [fst snd].
  pose proof (byId_id _ _ _ Hpost) as Hid. rewrite Hid.
  set (d := postSchema.mk _ _ _ _ (postSchema.likes p ++ [req_user_id req]) _ _).
  set (db1 := set_posts db _).
  assert (Hd : Post.byId id db1 = Some d).
  { subst db1. apply (byId_replaced _ _ p); [exact Hpost | reflexivity]. }
  rewrite (get_post_healthy req db1 id d Hpath Hd). unfold reply_of, db_of. cbn [fst snd].
  split; [|split; [|split; [|split; [|split; [|split; [|split]]]]]];
    try reflexivity.
  - assert (E : includes (postSchema.likes d) (req_user_id req) = true)
      by (subst d; apply includes_app_self).
    rewrite E. reflexivity.
  - assert (E : postSchema.likeCount d = postSchema.likeCount p + 1).
    { subst d. unfold postSchema.likeCount. cbn [postSchema.likes].
      rewrite length_app. cbn [List.length]. lia. }
    transitivity (Some (JNum (postSchema.likeCount d)));
      [reflexivity | rewrite E; reflexivity].
  - subst db1. cbn [posts set_posts]. apply ids_replace_first. reflexivity.
  - intros q Hq Hne. subst db1. cbn [posts set_posts].
    clear -Hq Hne. induction (posts db) as [|x l IH]; cbn in *; [exact Hq|].
    destruct (N.eqb (postSchema._id x) id) eqn:E.
    + destruct Hq as [-> | Hq]; [|right; exact Hq].
      apply N.eqb_eq in E. congruence.
    + destruct Hq as [-> | Hq]; [left; reflexivity | right; apply IH, Hq].
  - subst db1. repeat split.
Qed.

(** Bob likes Alice's first post and looks at it. *)
Lemma like_shows_sample :
  let db1 := db_of (run (PostRoutes.like (request 2 10 8)) healthy db_commented) in
  let r := reply_of (run (PostRoutes.get_post (request 2 10 8)) healthy db1) in
  post_field "isLiked" r = Some (JBool true) /\
  post_field "likeCount" r = Some (JNum 1) /\
  comments db1 = comments db_commented.
Proof.
  cbv zeta.
  assert (Hp : Post.byId 10 db_commented = Some first_post)
    by (vm_compute; reflexivity).
  destruct (like_shows_in_detail (request 2 10 8) db_commented 10%N first_post
              eq_refl Hp eq_refl)
    as (H1 & H2 & _ & _ & _ & _ & _ & H8 & _).
  split; [exact H1 | split; [exact H2 | exact H8]].
Defined.

(** ** Counts and lists *)

(** X25 — The counts of a profile agree with the lists: for a user that
    exists (the path identifier being the user's ObjectId), on a store that
    answers, the follower count, the following count and the post count of
    the profile are the lengths of the lists the followers, following and
    posts routes return for the same user. *)
Theorem profile_counts_agree_with_lists (req : Request) (db : DB)
    (id : ObjectId) (u : userSchema.t)
    (Hpath : castObjectId (req_params_id req) = Some id)
    (Huser : User.byId id db = Some u) :
  let prof := reply_of (run (UserRoutes.get_user req) healthy db) in
  let len k h := Z.of_nat (List.length (reply_array k (reply_of (run h healthy db)))) in
  profile "followerCount" prof
  = Some (JNum (len "followers" (UserRoutes.get_followers req))) /\
  profile "followingCount" prof
  = Some (JNum (len "following" (UserRoutes.get_following req))) /\
  profile "postCount" prof
  = Some (JNum (len "posts" (UserRoutes.get_posts req))).
Proof.
  cbv beta zeta.
  destruct (get_user_healthy req db id u Hpath Huser) as (_ & -> & -> & -> & _).
  assert (Hf : reply_array "followers"
                 (reply_of (run (UserRoutes.get_followers req) healthy db))
               = map (fun f => user_card (snd f))
                   (map (fun e => (e, User.byId (followSchema.follower e) db))
                      (filter (fun f => N.eqb (followSchema.following f)
                                          id) (follows db)))).
  { unfold UserRoutes.get_followers. rewrite run_try_catch.
    rewrite (bind_cast_ok _ id) by exact Hpath.
    unfold Follow.find_populate. rewrite bind_query_healthy. reflexivity. }
  assert (Hg : reply_array "following"
                 (reply_of (run (UserRoutes.get_following req) healthy db))
               = map (fun f => user_card (snd f))
                   (map (fun e => (e, User.byId (followSchema.following e) db))
                      (filter (fun f => N.eqb (followSchema.follower f)
                                          id) (follows db)))).
  { unfold UserRoutes.get_following. rewrite run_try_catch.
    rewrite (bind_cast_ok _ id) by exact Hpath.
    unfold Follow.find_populate. rewrite bind_query_healthy. reflexivity. }
  assert (Hp : reply_array "posts"
                 (reply_of (run (UserRoutes.get_posts req) healthy db))
               = map (fun p => JObj (post_toObject p))
                   (map (fun p => (p, User.byId (postSchema.user p) db))
                      (sort_desc postSchema.createdAt
                         (filter (fun p => N.eqb (postSchema.user p)
                                             id) (posts db))))).
  { unfold UserRoutes.get_posts. rewrite run_try_catch.
    rewrite (bind_cast_ok _ id) by exact Hpath.
    unfold Post.find. rewrite bind_query_healthy. cbn [st_db st_log app].
    unfold cursor. cbn [Z.ltb Z.compare Z.eqb Z.to_nat]. rewrite skipn_0.
    reflexivity. }
  rewrite Hf, Hg, Hp, !length_map.
  rewrite (Permutation_length (sort_desc_perm _ _)).
  repeat split.
Qed.

(** Alice's profile in the scenario: one follower (Carol), nobody followed,
    two posts. *)
Lemma profile_counts_sample :
  let prof := reply_of (run (UserRoutes.get_user (request 3 1 9)) healthy db_scenario) in
  profile "followerCount" prof = Some (JNum 1) /\
  profile "followingCount" prof = Some (JNum 0) /\
  profile "postCount" prof = Some (JNum 2).
Proof.
  cbv zeta.
  destruct (profile_counts_agree_with_lists (request 3 1 9) db_scenario
              1%N alice)
    as (H1 & H2 & H3); [reflexivity | vm_compute; reflexivity |].
  rewrite H1, H2, H3. vm_compute. repeat split.
Defined.

(** ** The number of pages *)

Lemma ceil_div_bounds a b :
  0 < b -> (ceil_div a b - 1) * b < a <= ceil_div a b * b.
Proof.
  intros Hb. unfold ceil_div.
  pose proof (Z.mul_div_le (- a) b Hb).
  pose proof (Z.mul_succ_div_gt (- a) b Hb). nia.
Qed.

Lemma feed_page_past_end req db :
  0 <= feed_skip req ->
  (List.length (feed_candidates (req_user_id req) db) <= Z.to_nat (feed_skip req))%nat ->
  feed_page req db = [].
Proof.
  intros Hskip Hend. unfold feed_page, cursor.
  assert (Hs : (feed_skip req <? 0) = false) by (apply Z.ltb_ge; exact Hskip).
  rewrite Hs, skipn_all2.
  - destruct (feed_limit req =? 0); [reflexivity | apply firstn_nil].
  - rewrite (Permutation_length (sort_desc_perm _ _)). exact Hend.
Qed.

(** X26 — The number of pages: for a positive limit L and a page number
    from 1 on, on a store that answers, the reply reports as [pages] the
    least number n of pages of L posts that hold all the eligible posts,
    and every page after the n-th is empty. *)
Theorem feed_pages_count (req : Request) (db : DB)
    (Hlimit : 0 < feed_limit req) (Hpage : 1 <= feed_pageno req) :
  let r := reply_of (run (FeedRoutes.get_feed req) healthy db) in
  let total := Z.of_nat (List.length (feed_candidates (req_user_id req) db)) in
  let n := ceil_div total (feed_limit req) in
  pagination "pages" r = Some (JNum n) /\
  (n - 1) * feed_limit req < total <= n * feed_limit req /\
  (n < feed_pageno req -> feed_posts r = []).
Proof.
  cbv zeta. rewrite feed_posts_healthy, get_feed_healthy.
  assert (Hskip : 0 <= feed_skip req) by (unfold feed_skip; nia).
  assert (Hs : (feed_skip req <? 0) = false) by (apply Z.ltb_ge; exact Hskip).
  rewrite Hs. unfold reply_of. cbn [fst].
  pose proof (ceil_div_bounds
                (Z.of_nat (List.length (feed_candidates (req_user_id req) db)))
                (feed_limit req) Hlimit) as Hb.
  split; [reflexivity|]. split; [exact Hb|].
  intros Hn. rewrite feed_page_past_end; [reflexivity | exact Hskip |].
  unfold feed_skip. nia.
Qed.

(** Carol's feed of four posts, two a page. *)
Lemma feed_pages_count_sample :
  let r := reply_of (run (FeedRoutes.get_feed (carol_feed "3")) healthy db_scenario) in
  pagination "pages" r = Some (JNum 2) /\ feed_posts r = [].
Proof.
  cbv zeta.
  destruct (feed_pages_count (carol_feed "3") db_scenario) as (H1 & _ & H3);
    try reflexivity.
  - vm_compute. congruence.
  - split; [rewrite H1; vm_compute; reflexivity|]. apply H3. vm_compute. reflexivity.
Defined.

(** ** Comments and the feed *)




(** ** A path identifier that is no ObjectId *)

(** X29 — A path identifier that is no ObjectId: on every route with an
    [:id] in its path, a path identifier that is not 24 hexadecimal digits
    and not the caller's own string (with, on the add-comment route, a
    text the validators let through) is answered with the 500 'Server
    error', not with a 404 or a 400: the cast rejects the first store call
    before it is made, so that there is no store call and no change,
    whatever the store does. *)
Theorem malformed_path_is_500 (isURL : jsstring -> bool)
    (isLength : jsstring -> Z -> bool)
    (regex_i : jsstring -> option (jsstring -> bool))
    (route : App.Route) (f : Faults) (req : Request) (db : DB)
    (Hroute : takes_id route = true)
    (Hbad : castObjectId (req_params_id req) = None)
    (Hother : req_params_id req <> req_user_id_string req)
    (Hvalid : route = App.AddComment -> valid_comment isLength req = true) :
  run (App.handler isURL isLength regex_i route req) f db
  = (fail_msg 500 "Server error", db, []).
Proof.
  pose proof (jseqb_neq _ _ Hother) as Hne.
  destruct route; try discriminate Hroute; cbn [App.handler];
    unfold_routes; rewrite run_try_catch; cbv zeta;
    try rewrite Hne;
    try (rewrite (proj2 (validate_comment_valid isLength req) (Hvalid eq_refl));
         cbn [is_nil negb]);
    rewrite bind_cast_fails by exact Hbad; reflexivity.
Qed.

(** The profile, the followers and the follow route for the path
    identifier [bob], while the store is down. *)
Lemma malformed_path_sample :
  let req := with_path (request 1 2 9) "bob" in
  let failed := (fail_msg 500 "Server error", db_users, []) in
  run (UserRoutes.get_user req) store_down db_users = failed /\
  run (UserRoutes.get_followers req) store_down db_users = failed /\
  run (UserRoutes.follow req) store_down db_users = failed.
Proof.
  cbv zeta. split; [|split].
  - apply (malformed_path_is_500 sample_isURL sample_isLength sample_regex
             App.GetUser store_down (with_path (request 1 2 9) "bob") db_users);
      [reflexivity | reflexivity | discriminate | discriminate].
  - apply (malformed_path_is_500 sample_isURL sample_isLength sample_regex
             App.GetFollowers store_down (with_path (request 1 2 9) "bob") db_users);
      [reflexivity | reflexivity | discriminate | discriminate].
  - apply (malformed_path_is_500 sample_isURL sample_isLength sample_regex
             App.FollowUser store_down (with_path (request 1 2 9) "bob") db_users);
      [reflexivity | reflexivity | discriminate | discriminate].
Defined.

(** ** When the store is down *)

Lemma bind_await_down {A B} op (act : DB -> Outcome A * DB) (k : A -> M B) s :
  bind (await op act) k store_down s
  = (Throw StoreUnavailable, mkSt (st_db s) (st_log s ++ [op])).
Proof. rewrite bind_await. reflexivity. Qed.

Lemma bind_query_down {A B} op (q : DB -> Outcome A) (k : A -> M B) s :
  bind (query op q) k store_down s
  = (Throw StoreUnavailable, mkSt (st_db s) (st_log s ++ [op])).
Proof. unfold query. apply bind_await_down. Qed.

(** X28 — No success without the store: while the store rejects every
    call, no route changes the database, and no route but the health check
    reports success; each answers with the 500 server error or with one of
    its client errors. *)
Theorem store_down_no_success (isURL : jsstring -> bool)
    (isLength : jsstring -> Z -> bool)
    (regex_i : jsstring -> option (jsstring -> bool))
    (route : App.Route) (req : Request) (db : DB) :
  let r := run (App.handler isURL isLength regex_i route req) store_down db in
  db_of r = db /\
  (reply_of r = server_error \/ client_error (reply_of r) \/ route = App.Health).
Proof.
  cbv zeta. unfold client_error.
  destruct route; cbn [App.handler]; unfold_routes;
    try (rewrite run_try_catch; cbv zeta);
    repeat match goal with
           | |- context [if ?b then _ else _] => destruct b
           end;
    try rewrite bind_cast;
    try match goal with
        | |- context [castObjectId ?p] => destruct (castObjectId p)
        end;
    unfold_reads;
    try rewrite bind_query_down; try rewrite bind_await_down;
    unfold run, reply_of, db_of, ret; cbn [fst snd st_db];
    (split; [reflexivity|]);
    first [ left; reflexivity
          | right; left; cbn; lia
          | right; right; reflexivity ].
Qed.
